(** * visionbi_monitor: the bronze-to-silver flattening engine, the
      silver-to-gold merge, the paginated workspace pull and the log buffer.

    The Python sources are embedded shallowly: JSON payloads as an inductive
    type, Python dictionaries that are iterated as association lists (insertion
    order matters), exceptions as an error monad, pandas tables as a list of
    column labels with a list of rows, and the objects that the code mutates
    (the log buffer, the default accumulator of [get_workspaces], the data
    lake) as explicit state. *)

From Stdlib Require Import ZArith String Ascii List Lia Bool.
From stdpp Require Import base list strings pretty.

Import ListNotations.
Set Warnings "-register-all".
Set Default Proof Using "Type".
Open Scope string_scope.
Open Scope list_scope.

(** ** Python values *)

(** What [json.loads] returns: [None], booleans, integers, floats (kept by
    their literal), strings, lists and dictionaries in insertion order. *)
Inductive json : Type :=
| JNull
| JBool (b : bool)
| JInt (n : Z)
| JFloat (literal : string)
| JStr (s : string)
| JList (l : list json)
| JObj (d : list (string * json)).

Definition json_eq_dec : forall x y : json, {x = y} + {x <> y}.
Proof.
  fix IH 1.
  intros x y; destruct x as [|b|n|f|s|l|d], y as [|b'|n'|f'|s'|l'|d'];
    try (right; discriminate); try (left; reflexivity).
  - destruct (Bool.bool_dec b b'); [left; congruence | right; congruence].
  - destruct (Z.eq_dec n n'); [left; congruence | right; congruence].
  - destruct (String.string_dec f f'); [left; congruence | right; congruence].
  - destruct (String.string_dec s s'); [left; congruence | right; congruence].
  - destruct (List.list_eq_dec IH l l'); [left; congruence | right; congruence].
  - assert (Hp : forall p q : string * json, {p = q} + {p <> q}).
    { intros [k v] [k' v'].
      destruct (String.string_dec k k'); [|right; congruence].
      destruct (IH v v'); [left; congruence | right; congruence]. }
    destruct (List.list_eq_dec Hp d d'); [left; congruence | right; congruence].
Defined.

#[global] Instance json_eq_decision : EqDecision json := json_eq_dec.

(** A key of a dictionary or a column label of a table: a name or, for the
    tables built from lists of lists, an integer. *)
Inductive label : Type :=
| LName (s : string)
| LInt (n : nat).

#[global] Instance label_eq_decision : EqDecision label.
Proof. solve_decision. Defined.

(** The exceptions that the modelled code can raise. *)
Inductive exn : Type :=
| KeyError (key : label)
| IndexError
| TypeError
| AttributeError
| ValueError
| RecursionError
| RequestException (msg : string).

Inductive result (A : Type) : Type :=
| Ok (a : A)
| Raise (e : exn).
Arguments Ok {A} a.
Arguments Raise {A} e.

Definition bind {A B} (m : result A) (k : A -> result B) : result B :=
  match m with
  | Ok a => k a
  | Raise e => Raise e
  end.

Declare Scope py_scope.
Delimit Scope py_scope with py.
Notation "'do' x <- m ; k" := (bind m (fun x => k))
  (at level 10, x name, m at level 100, k at level 200) : py_scope.
Open Scope py_scope.

(** [for x in xs: acc = body(acc, x)], where the body may raise. *)
Fixpoint for_each {A S} (xs : list A) (body : S -> A -> result S) (acc : S)
  : result S :=
  match xs with
  | [] => Ok acc
  | x :: rest => do acc' <- body acc x; for_each rest body acc'
  end.

(** ** Strings *)

(** [needle in hay] on Python strings. *)
Fixpoint contains (needle hay : string) : bool :=
  if String.prefix needle hay then true
  else match hay with
       | EmptyString => false
       | String _ rest => contains needle rest
       end.

(** [s.rstrip(c)] for a one-character argument: every trailing [c] goes. *)
Fixpoint rstrip (c : ascii) (s : string) : string :=
  match s with
  | EmptyString => EmptyString
  | String a rest =>
      match rstrip c rest with
      | EmptyString => if Ascii.eqb a c then EmptyString else String a EmptyString
      | r => String a r
      end
  end.

(** The rule the specification words: drop one trailing [c], if there is one. *)
Fixpoint strip_one_trailing (c : ascii) (s : string) : string :=
  match s with
  | EmptyString => EmptyString
  | String a EmptyString => if Ascii.eqb a c then EmptyString else s
  | String a rest => String a (strip_one_trailing c rest)
  end.

Definition chars (s : string) : list json :=
  map (fun a => JStr (String a EmptyString)) (list_ascii_of_string s).

(** ** Dictionaries and the dynamic operations of the code *)

Definition pydict : Type := list (string * json).

Fixpoint dict_get (k : string) (d : pydict) : option json :=
  match d with
  | [] => None
  | (k', v) :: rest => if String.eqb k k' then Some v else dict_get k rest
  end.

Definition keys (d : pydict) : list string := map fst d.

(** [for x in v]: lists give their elements, strings their characters,
    dictionaries their keys; the other values are not iterable. *)
Definition py_iter (v : json) : result (list json) :=
  match v with
  | JList l => Ok l
  | JStr s => Ok (chars s)
  | JObj d => Ok (map JStr (keys d))
  | _ => Raise TypeError
  end.

(** [v[k]] for a string subscript [k]. *)
Definition py_getitem (v : json) (k : string) : result json :=
  match v with
  | JObj d => match dict_get k d with
              | Some x => Ok x
              | None => Raise (KeyError (LName k))
              end
  | _ => Raise TypeError
  end.

(** [v.get(k, default)]; only dictionaries have the method. *)
Definition py_get (v : json) (k : json) (default : json) : result json :=
  match v with
  | JObj d => match k with
              | JStr s => Ok (from_option id default (dict_get s d))
              | _ => Ok default
              end
  | _ => Raise AttributeError
  end.

(** [needle in x] for a string [needle]. *)
Definition py_in (needle : string) (x : json) : result bool :=
  match x with
  | JStr s => Ok (contains needle s)
  | JList l => Ok (bool_decide (JStr needle ∈ l))
  | JObj d => Ok (bool_decide (needle ∈ keys d))
  | _ => Raise TypeError
  end.

(** [[x for x in xs if needle in x]]. *)
Fixpoint comprehension_in (needle : string) (xs : list json)
  : result (list json) :=
  match xs with
  | [] => Ok []
  | x :: rest =>
      do b <- py_in needle x;
      do hits <- comprehension_in needle rest;
      Ok (if b then x :: hits else hits)
  end.

Definition is_list (v : json) : bool :=
  match v with JList _ => true | _ => false end.

Definition is_str (v : json) : bool :=
  match v with JStr _ => true | _ => false end.

(** ** The flattening engine ([PowerBIDataTransform/transform_powerbi.py]) *)

(** The four accumulators of [transform_powerbi_data]. Each is a Python list
    (or a dictionary of lists) that the helpers extend in place; a row
    [[a, b, c]] is the value [JList [a; b; c]]. *)
Record collections : Type := {
  user_access : list json;
  users : list json;
  workspace_content : list json;
  all_data : list (string * list json)
}.

Definition no_collections : collections :=
  {| user_access := []; users := []; workspace_content := []; all_data := [] |}.

(** [user.get([x for x in user if 'UserAccessRight' in x][0])]. The method
    [user.get] is looked up before its argument is evaluated, so a record
    that is no dictionary raises [AttributeError] before it is iterated. *)
Definition access_right_of (user : json) : result json :=
  match user with
  | JObj _ =>
      do xs <- py_iter user;
      do hits <- comprehension_in "UserAccessRight" xs;
      match hits with
      | [] => Raise IndexError
      | k :: _ => py_get user k JNull
      end
  | _ => Raise AttributeError
  end.

Arguments access_right_of : simpl never.

(** One turn of the loop of [fill_user_table]. *)
Definition fill_user_row (object_type : string) (object_id : json)
    (acc : list json) (user : json) : result (list json) :=
  do access_right <- access_right_of user;
  do graph_id <- py_getitem user "graphId";
  Ok (acc ++ [JList [graph_id; object_id; access_right; JStr object_type]]).

(** [fill_user_table(user_access, object_type, object_id, list_of_users)]:
    the first argument is the list that receives the rows. *)
Definition fill_user_table (target : list json) (object_type : string)
    (object_id : json) (list_of_users : json) : result (list json) :=
  do us <- py_iter list_of_users;
  for_each us (fill_user_row object_type object_id) target.

(** [try: object_data['id'] except: object_data['objectId']]. *)
Definition element_id_of (object_data : json) : result json :=
  match py_getitem object_data "id" with
  | Ok v => Ok v
  | Raise _ => py_getitem object_data "objectId"
  end.

(** [try: all_data[t].append(row) except: all_data[t] = [row]]. *)
Fixpoint append_dimension (t : string) (row : json)
    (data : list (string * list json)) : list (string * list json) :=
  match data with
  | [] => [(t, [row])]
  | (t', rows) :: rest =>
      if String.eqb t t' then (t', rows ++ [row]) :: rest
      else (t', rows) :: append_dimension t row rest
  end.

(** [{key: value for key, value in object_data.items()
      if isinstance(value, str)}]. *)
Definition dimension_row (object_data : json) : result json :=
  match object_data with
  | JObj d => Ok (JObj (filter (fun kv => is_str (snd kv) = true) d))
  | _ => Raise AttributeError
  end.

(** [fill_dimension_table(workspace_content, users, all_data, workspace_id,
    object_type, object_data)]. The second parameter is the list handed on to
    [fill_user_table]; which accumulator it is depends on the caller. The
    three mutated arguments come back as a triple. *)
Definition fill_dimension_table (workspace_content users : list json)
    (all_data : list (string * list json)) (workspace_id : json)
    (object_type : string) (object_data : json)
  : result (list json * list json * list (string * list json)) :=
  do element_id <- element_id_of object_data;
  do nested <- py_get object_data (JStr "users") (JList []);
  do users' <- fill_user_table users object_type element_id nested;
  do dimension_data <- dimension_row object_data;
  Ok (workspace_content ++ [JList [workspace_id; element_id; JStr object_type]],
      users',
      append_dimension object_type dimension_data all_data).

Module TransformPowerBI.

(** One turn of the loop of [process_workspace_users]. *)
Definition workspace_user_row (workspace_id : json)
    (acc : list json * list json) (user : json)
  : result (list json * list json) :=
  let '(user_access, users) := acc in
  do graph_id <- py_getitem user "graphId";
  do email <- py_get user (JStr "emailAddress") (JStr "");
  do name <- py_get user (JStr "displayName") (JStr "");
  let users' := users ++ [JObj [("graphId", graph_id);
                                ("emailAddress", email);
                                ("displayName", name)]] in
  do access_right <- access_right_of user;
  do graph_id' <- py_getitem user "graphId";
  Ok (user_access ++
        [JList [graph_id'; workspace_id; access_right; JStr "workspace"]],
      users').

Definition process_workspace_users (user_access users : list json)
    (workspace : json) : result (list json * list json) :=
  do workspace_id <- py_getitem workspace "id";
  do members <- py_getitem workspace "users";
  do us <- py_iter members;
  for_each us (workspace_user_row workspace_id) (user_access, users).

(** The body of [for object_data in value] in [process_workspace_objects]. *)
Definition object_step (workspace_id : json) (key : string)
    (acc : list json * list json * list (string * list json))
    (object_data : json) :=
  let '(workspace_content, users, all_data) := acc in
  let object_type := rstrip "s" key in
  fill_dimension_table workspace_content users all_data workspace_id
    object_type object_data.

(** The body of [for key, value in workspace.items()] there. *)
Definition objects_of_key (workspace_id : json)
    (acc : list json * list json * list (string * list json))
    (item : string * json) :=
  let '(key, value) := item in
  match value with
  | JList objects =>
      if String.eqb key "users" then Ok acc
      else for_each objects (object_step workspace_id key) acc
  | _ => Ok acc
  end.

Definition process_workspace_objects (workspace_content users : list json)
    (all_data : list (string * list json)) (workspace : json)
  : result (list json * list json * list (string * list json)) :=
  do workspace_id <- py_getitem workspace "id";
  match workspace with
  | JObj d =>
      for_each d (objects_of_key workspace_id)
        (workspace_content, users, all_data)
  | _ => Raise AttributeError
  end.

(** The body of the inner loop of [transform_powerbi_data] (lines 80-86):
    one call per sequence-valued key of the workspace. *)
Definition key_step (workspace : json) (c : collections)
    (item : string * json) : result collections :=
  let '(key, value) := item in
  if negb (is_list value) then Ok c
  else if String.eqb key "users" then
    do r <- process_workspace_users (user_access c) (users c) workspace;
    Ok {| user_access := fst r; users := snd r;
          workspace_content := workspace_content c;
          all_data := all_data c |}
  else
    do r <- process_workspace_objects (workspace_content c) (users c)
              (all_data c) workspace;
    let '(workspace_content', users', all_data') := r in
    Ok {| user_access := user_access c; users := users';
          workspace_content := workspace_content';
          all_data := all_data' |}.

Definition workspace_step (c : collections) (workspace : json)
  : result collections :=
  match workspace with
  | JObj d => for_each d (key_step workspace) c
  | _ => Raise AttributeError
  end.

(** Lines 73-86: the flattening pass over the raw scan result. *)
Definition flatten (scan : json) : result collections :=
  do workspaces <- py_iter scan;
  for_each workspaces workspace_step no_collections.

End TransformPowerBI.

(** The same pass as [transform.py] writes it ([process_single_client],
    lines 76-91): the member records are copied whole, the container key is
    the object type, and nested access rows go to [user_access]. *)
Module Transform.

Definition object_step (workspace_id : json) (key : string)
    (c : collections) (object_ : json) : result collections :=
  do r <- fill_dimension_table (workspace_content c) (user_access c)
            (all_data c) workspace_id key object_;
  let '(workspace_content', user_access', all_data') := r in
  Ok {| user_access := user_access'; users := users c;
        workspace_content := workspace_content';
        all_data := all_data' |}.

Definition key_step (workspace : json) (c : collections)
    (item : string * json) : result collections :=
  let '(key, value) := item in
  match value with
  | JList elements =>
      if String.eqb key "users" then
        do workspace_id <- py_getitem workspace "id";
        do user_access' <-
          fill_user_table (user_access c) "workspace" workspace_id value;
        Ok {| user_access := user_access'; users := users c ++ elements;
              workspace_content := workspace_content c;
              all_data := all_data c |}
      else
        for_each elements
          (fun c' object_ =>
             do workspace_id <- py_getitem workspace "id";
             object_step workspace_id key c' object_) c
  | _ => Ok c
  end.

Definition workspace_step (c : collections) (workspace : json)
  : result collections :=
  match workspace with
  | JObj d => for_each d (key_step workspace) c
  | _ => Raise AttributeError
  end.

Definition flatten (scan : json) : result collections :=
  do workspaces <- py_iter scan;
  for_each workspaces workspace_step no_collections.

End Transform.

(** The scenario of the specification. *)
Definition scenario_workspace : json :=
  JObj [("id", JStr "W1");
        ("users", JList [JObj [("graphId", JStr "U1");
                               ("xUserAccessRight", JStr "Member")]]);
        ("reports", JList [JObj [("id", JStr "R1");
                                 ("users", JList [JObj [("graphId", JStr "U2");
                                                        ("yUserAccessRight", JStr "Viewer")]]);
                                 ("name", JStr "Sales")]])].

(** ** Tables *)

(** A pandas [DataFrame] as far as the code looks at it: the column labels and
    the rows in index order, every row with one cell per column. A missing
    cell (NaN) is [JNull]. *)
Record DataFrame : Type := {
  columns : list label;
  rows : list (list json)
}.

Definition wf_frame (df : DataFrame) : Prop :=
  NoDup (columns df) /\
  Forall (fun r => length r = length (columns df)) (rows df).

(** What the code uses of pandas, after the documented behaviour of the
    library. *)
Module pd.

(** Keys of a list of dictionaries in order of first appearance. *)
Fixpoint first_seen (seen : list string) (ks : list string) : list string :=
  match ks with
  | [] => []
  | k :: rest =>
      if bool_decide (k ∈ seen) then first_seen seen rest
      else k :: first_seen (k :: seen) rest
  end.

Definition as_dict (v : json) : result pydict :=
  match v with
  | JObj d => Ok d
  | _ => Raise AttributeError
  end.

Fixpoint all_dicts (data : list json) : result (list pydict) :=
  match data with
  | [] => Ok []
  | v :: rest =>
      do d <- as_dict v;
      do ds <- all_dicts rest;
      Ok (d :: ds)
  end.

Fixpoint all_lists (data : list json) : result (list (list json)) :=
  match data with
  | [] => Ok []
  | v :: rest =>
      do r <- py_iter v;
      do rs <- all_lists rest;
      Ok (r :: rs)
  end.

Definition pad (width : nat) (r : list json) : list json :=
  r ++ repeat JNull (width - length r).

Definition width_of (rs : list (list json)) : nat :=
  foldr (fun r w => Nat.max (length r) w) 0 rs.

(** [pd.DataFrame(data)] for the lists that the flattening pass builds:
    a list of dictionaries gives one column per key, a list of lists one
    column per position. A list that starts with a dictionary and holds
    something else has no [keys] to offer, and the constructor raises. *)
Definition DataFrame_of (data : list json) : result DataFrame :=
  match data with
  | [] => Ok {| columns := []; rows := [] |}
  | JObj _ :: _ =>
      do ds <- all_dicts data;
      let cols := first_seen [] (concat (map keys ds)) in
      Ok {| columns := map LName cols;
            rows := map (fun d =>
                           map (fun c => from_option id JNull (dict_get c d))
                             cols) ds |}
  | JList _ :: _ =>
      do rs <- all_lists data;
      let w := width_of rs in
      Ok {| columns := map LInt (seq 0 w); rows := map (pad w) rs |}
  | _ => Raise ValueError
  end.

(** [keep='first']: a row stays unless an equal row came before it. *)
Fixpoint keep_first (seen : list (list json)) (rs : list (list json))
  : list (list json) :=
  match rs with
  | [] => []
  | r :: rest =>
      if bool_decide (r ∈ seen) then keep_first seen rest
      else r :: keep_first (r :: seen) rest
  end.

(** Rows are compared through the hash of their cells; a cell that is a
    list or a dictionary has none, and [drop_duplicates] raises. *)
Definition hashable (v : json) : bool :=
  match v with
  | JList _ | JObj _ => false
  | _ => true
  end.

Definition drop_duplicates (df : DataFrame) : result DataFrame :=
  if forallb (forallb hashable) (rows df)
  then Ok {| columns := columns df; rows := keep_first [] (rows df) |}
  else Raise TypeError.

(** [df.empty]: some axis has length zero. *)
Definition empty (df : DataFrame) : bool :=
  match columns df, rows df with
  | [], _ => true
  | _, [] => true
  | _, _ => false
  end.

(** Position of a label among the columns. *)
Fixpoint position (c : label) (cols : list label) : option nat :=
  match cols with
  | [] => None
  | c' :: rest =>
      if bool_decide (c = c') then Some 0
      else option_map S (position c rest)
  end.

(** The cell of row [r] under label [c]; NaN where the table has no such
    column. *)
Definition cell (cols : list label) (c : label) (r : list json) : json :=
  match position c cols with
  | Some p => nth p r JNull
  | None => JNull
  end.

(** [df[c]]: the column as a series of values, or [KeyError]. *)
Definition getitem (df : DataFrame) (c : label) : result (list json) :=
  match position c (columns df) with
  | Some p => Ok (map (fun r => nth p r JNull) (rows df))
  | None => Raise (KeyError c)
  end.

(** Column types. pandas gives every column one type and brings two series
    to a common type before it compares or concatenates them: integers next
    to floats are compared as floats and stored as floats. The tables of the
    pipeline are keyed by text; [isin] and [concat2] below are pandas' own
    functions on columns of one type in both tables, text (an object column
    of strings) or 64-bit integers, and the statements about the merge are
    made for such columns. *)
Inductive dtype : Type :=
| int64
| text.

Definition has_dtype (t : dtype) (v : json) : bool :=
  match t, v with
  | int64, JInt n => (- 2 ^ 63 <=? n)%Z && (n <? 2 ^ 63)%Z
  | text, JStr _ => true
  | _, _ => false
  end.

(** A series all of whose values have type [t]. *)
Definition of_dtype (t : dtype) (series : list json) : bool :=
  forallb (has_dtype t) series.

Fixpoint row_typed (schema : list dtype) (r : list json) : bool :=
  match schema, r with
  | [], [] => true
  | t :: schema', v :: r' => has_dtype t v && row_typed schema' r'
  | _, _ => false
  end.

(** A table with one type per column, in the order of the columns. *)
Definition typed (schema : list dtype) (df : DataFrame) : bool :=
  (length schema =? length (columns df))%nat
  && forallb (row_typed schema) (rows df).

(** [series.isin(values)] and [~mask], for two series of one type: a value
    is found when it is among [values]. *)
Definition isin (series values : list json) : list bool :=
  map (fun v => bool_decide (v ∈ values)) series.

Definition invert (mask : list bool) : list bool := map negb mask.

(** [df[mask]] for a boolean mask aligned with the rows. *)
Fixpoint select {A} (xs : list A) (mask : list bool) : list A :=
  match xs, mask with
  | x :: xs', b :: mask' =>
      if b then x :: select xs' mask' else select xs' mask'
  | _, _ => []
  end.

Definition getitem_mask (df : DataFrame) (mask : list bool) : DataFrame :=
  {| columns := columns df; rows := select (rows df) mask |}.

(** A row re-expressed over other columns: known labels keep their cell,
    new ones are NaN. *)
Definition reindex (from to : list label) (r : list json) : list json :=
  map (fun c => cell from c r) to.

(** [pd.concat([a, b], ignore_index=True)]: the columns of [a], then those
    of [b] that [a] lacks; the rows of [a], then those of [b]. Every cell
    stays as it is when the two tables have the same columns with the same
    types; where pandas would re-type a column (integers next to floats, or
    an integer column that one table lacks), it stores other values than
    these. *)
Definition concat2 (a b : DataFrame) : DataFrame :=
  let cols :=
    columns a ++ filter (fun c => c ∉ columns a) (columns b) in
  {| columns := cols;
     rows := map (reindex (columns a) cols) (rows a) ++
             map (reindex (columns b) cols) (rows b) |}.

End pd.

(** Assignment [d[k] = v] on an insertion-ordered dictionary. *)
Fixpoint dict_set {V} (k : string) (v : V) (d : list (string * V))
  : list (string * V) :=
  match d with
  | [] => [(k, v)]
  | (k', v') :: rest =>
      if String.eqb k k' then (k', v) :: rest
      else (k', v') :: dict_set k v rest
  end.

(** ** Deduplication and shaping ([transform_powerbi_data], lines 88-96) *)

(** The entries that [**{key: ... for key, value in all_data.items()}]
    contributes, evaluated left to right. *)
Fixpoint dimension_frames (data : list (string * list json))
  : result (list (string * DataFrame)) :=
  match data with
  | [] => Ok []
  | (key, value) :: rest =>
      do df <- pd.DataFrame_of value;
      do df' <- pd.drop_duplicates df;
      do dfs <- dimension_frames rest;
      Ok ((key, df') :: dfs)
  end.

(** The dictionary [output_data]; [workspaces] and [activities] are the two
    tables read from the raw store and passed through. *)
Definition shape (workspaces activities : DataFrame) (c : collections)
  : result (list (string * DataFrame)) :=
  do df_users <- pd.DataFrame_of (users c);
  do df_users' <- pd.drop_duplicates df_users;
  do df_user_access <- pd.DataFrame_of (user_access c);
  do df_user_access' <- pd.drop_duplicates df_user_access;
  do df_workspace_content <- pd.DataFrame_of (workspace_content c);
  do dims <- dimension_frames (all_data c);
  Ok (foldl (fun out kv => dict_set (fst kv) (snd kv) out)
        [("users", df_users');
         ("user_access", df_user_access');
         ("workspaces", workspaces);
         ("workspace_content", df_workspace_content);
         ("activities", activities)]
        dims).

Definition two_collections_workspace : json :=
  JObj [("id", JStr "W1");
        ("reports", JList [JObj [("id", JStr "R1"); ("name", JStr "Sales")]]);
        ("datasets", JList [JObj [("id", JStr "D1"); ("name", JStr "Orders")]])].

Definition no_frame : DataFrame := {| columns := []; rows := [] |}.

(** ** The curated-layer merge ([load_powerbi_data/load_powerbi.py]) *)

Definition merge_new_rows (current_df silver_df : DataFrame)
    (id_column : label) : result DataFrame :=
  if pd.empty current_df then Ok silver_df
  else
    do silver_ids <- pd.getitem silver_df id_column;
    do current_ids <- pd.getitem current_df id_column;
    let new_rows :=
      pd.getitem_mask silver_df (pd.invert (pd.isin silver_ids current_ids)) in
    Ok (pd.concat2 current_df new_rows).

(** A table of one column [id] holding integers. *)
Definition id_table (ids : list Z) : DataFrame :=
  {| columns := [LName "id"]; rows := map (fun n => [JInt n]) ids |}.

(** ** The log buffer ([get_powerbi_workspaces/modules/custom_logger.py]) *)

Record log_entry : Type := {
  client : string;
  date : string;
  time : string;
  operation : string;
  kind : string;
  text : string
}.

(** A [LoggingManager]: the buffer [logging_rows], and next to it the entries
    that [write_log] has printed to standard output. *)
Record LoggingManager : Type := {
  logging_rows : list log_entry;
  stdout : list log_entry
}.

Definition new_LoggingManager : LoggingManager :=
  {| logging_rows := []; stdout := [] |}.

(** Programs over a mutable state [S] that may raise: the state survives an
    exception, which is what [try ... except] observes. *)
Definition prog (S A : Type) : Type := S -> result A * S.

Definition ret {S A} (a : A) : prog S A := fun st => (Ok a, st).

Definition raise {S A} (e : exn) : prog S A := fun st => (Raise e, st).

Definition and_then {S A B} (m : prog S A) (k : A -> prog S B) : prog S B :=
  fun st =>
    match m st with
    | (Ok a, st') => k a st'
    | (Raise e, st') => (Raise e, st')
    end.

Definition try_except {S A} (body : prog S A) (handler : exn -> prog S A)
  : prog S A :=
  fun st =>
    match body st with
    | (Ok a, st') => (Ok a, st')
    | (Raise e, st') => handler e st'
    end.

Definition lift {S A} (r : result A) : prog S A := fun st => (r, st).

Notation "'run' x <- m ; k" := (and_then m (fun x => k))
  (at level 10, x name, m at level 100, k at level 200) : py_scope.
Notation "'exec' m ; k" := (and_then m (fun _ => k))
  (at level 10, m at level 100, k at level 200) : py_scope.

Section Runtime.

(** The interpreter's clock and its rendering of an exception are taken as
    given: [now n] is the [n]-th answer of [datetime.now()], [strftime]
    formats it, [str_exn e] is [str(e)]. *)
Context {datetime : Type}.
Variable strftime : datetime -> string -> string.
Variable now : nat -> datetime.
Variable str_exn : exn -> string.

(** [LoggingManager.write_log], with the clock reading made explicit. *)
Definition entry_at (current_date : datetime)
    (client operation kind text : string) : log_entry :=
  {| client := client;
     date := strftime current_date "%d-%m-%Y";
     time := strftime current_date "%H:%M:%S";
     operation := operation;
     kind := kind;
     text := text |}.

Definition write_log (self : LoggingManager) (current_date : datetime)
    (client operation kind text : string) : LoggingManager :=
  let log_entry := entry_at current_date client operation kind text in
  {| logging_rows := logging_rows self ++ [log_entry];
     stdout := if negb (String.eqb kind "DEBUG")
               then stdout self ++ [log_entry] else stdout self |}.

(** The shared logger together with the number of clock readings made. *)
Record runtime : Type := {
  ticks : nat;
  logger : LoggingManager
}.

Definition log (rt : runtime) (client operation kind text : string)
  : runtime :=
  {| ticks := S (ticks rt);
     logger := write_log (logger rt) (now (ticks rt))
                 client operation kind text |}.

(** A call is the four arguments of [write_log]. *)
Definition log_call : Type := string * string * string * string.

Definition log_all (rt : runtime) (calls : list log_call) : runtime :=
  foldl (fun rt' c =>
           let '(client, operation, kind, text) := c in
           log rt' client operation kind text) rt calls.

(** [for x in xs: body(x)] in the state monad. *)
Fixpoint for_ {S A} (xs : list A) (body : A -> prog S unit) : prog S unit :=
  match xs with
  | [] => ret tt
  | x :: rest => exec body x; for_ rest body
  end.

(** *** The data lake writer ([modules/datalake_writer.py], the copy with
    the parquet methods) *)

Section Load.

(** The storage client and the parquet codec are parameters: a read gives a
    table or raises, a write changes the lake and may raise. *)
Context {Lake : Type}.
Variable lake_read : Lake -> string -> string -> result DataFrame.
Variable lake_write :
  Lake -> DataFrame -> string -> string -> option exn * Lake.

Record load_state : Type := {
  rt : runtime;
  lake : Lake
}.

Definition logging (client operation kind text : string)
  : prog load_state unit :=
  fun st =>
    (Ok tt, {| rt := log (rt st) client operation kind text;
               lake := lake st |}).

(** The writer calls [write_log('datalake_writer', 'DEBUG', 'Read data',
    ...)]: its second argument lands in [operation], its third in [kind]. *)
Definition read_parquet_data (file_system file_name : string)
  : prog load_state DataFrame :=
  fun st =>
    match lake_read (lake st) file_system file_name with
    | Ok df =>
        (exec logging "datalake_writer" "DEBUG" "Read data"
               ("Parquet data read from " +:+ file_name +:+ " in "
                  +:+ file_system);
         ret df) st
    | Raise e =>
        (exec logging "datalake_writer" "ERROR" "Read data"
               ("Error reading parquet data from " +:+ file_name +:+ ": "
                  +:+ str_exn e);
         raise e) st
    end.

Definition write_parquet_data (df : DataFrame)
    (file_system file_name : string) : prog load_state unit :=
  fun st =>
    let '(outcome, lake') := lake_write (lake st) df file_system file_name in
    let st' := {| rt := rt st; lake := lake' |} in
    match outcome with
    | None =>
        logging "datalake_writer" "DEBUG" "Write data"
          ("Parquet data written to " +:+ file_name +:+ " in "
             +:+ file_system) st'
    | Some e =>
        (exec logging "datalake_writer" "ERROR" "Write data"
               ("Error writing parquet data to " +:+ file_name +:+ ": "
                  +:+ str_exn e);
         raise e) st'
    end.

(** *** [load_power_bi_data] *)

(** [id_columns.get(name, 'id')]. *)
Definition id_column_of (name : string) : label :=
  if String.eqb name "users" then LName "graphId"
  else if String.eqb name "activities" then LName "Id"
  else if String.eqb name "user_access" then LInt 0
  else if String.eqb name "workspace_content" then LInt 0
  else LName "id".

Definition all_tables : list (string * list string) :=
  [("dimensions", ["users"; "workspaces"; "reports"; "datasets"]);
   ("facts", ["user_access"; "workspace_content"; "activities";
              "azure_spend"])].

Definition gold_path (kind name : string) : string :=
  let path_abbreviation :=
    if String.eqb kind "dimensions" then "dim" else "fact" in
  kind +:+ "/" +:+ path_abbreviation +:+ "_" +:+ name.

(** The inner [try] (lines 50-64): read the gold table and merge, or fall
    back to the silver table. *)
Definition merged_or_new (client kind name : string)
    (dataframe : DataFrame) : prog load_state DataFrame :=
  try_except
    (run current_dataframe <- read_parquet_data "gold" (gold_path kind name);
     lift (merge_new_rows current_dataframe dataframe (id_column_of name)))
    (fun _ =>
       exec logging client "powerbi_load" "INFO"
             ("Creating new table: " +:+ name);
       ret dataframe).

(** The body of the loop (lines 44-86): it never raises. *)
Definition process_table (client silver_path kind name : string)
  : prog load_state unit :=
  try_except
    (run dataframe <-
       read_parquet_data "silver" (silver_path +:+ "/" +:+ name);
     run df <- merged_or_new client kind name dataframe;
     exec write_parquet_data df "gold" (gold_path kind name);
     logging client "powerbi_load" "INFO"
       ("Successfully processed " +:+ name +:+ " table"))
    (fun e =>
       logging client "powerbi_load" "ERROR"
         ("Error processing " +:+ name +:+ " table: " +:+ str_exn e)).

Definition process_tables (client silver_path : string)
    (tables : list (string * list string)) : prog load_state unit :=
  for_ tables (fun entry =>
    for_ (snd entry) (process_table client silver_path (fst entry))).

Definition load_power_bi_data (client : string) : prog load_state unit :=
  fun st =>
    let today := strftime (now (ticks (rt st))) "%d%m%Y" in
    let st' := {| rt := {| ticks := S (ticks (rt st));
                           logger := logger (rt st) |};
                  lake := lake st |} in
    let silver_path := today +:+ "/" +:+ client in
    process_tables client silver_path all_tables st'.

End Load.

(** *** The paginated workspace pull ([modules/powerbi_api.py]) *)

Section Api.

(** [MicrosoftAPI.make_request] followed by [response.json()] is a
    parameter: from the session state, the method and the endpoint it gives
    the decoded body or raises, moves the session on, and reports the
    [write_log] calls it made. *)
Context {Net : Type}.
Variable make_request :
  Net -> string -> string -> result json * Net * list log_call.

(** The list objects a call can be handed: the one list created when the
    [def] was executed and bound to the default of [data], or a list of the
    caller's own, found in [heap] by its index. *)
Inductive list_ref : Type :=
| default_list
| heap_list (loc : nat).

Record api_state : Type := {
  api_rt : runtime;
  net : Net;
  default_data : list json;
  heap : list (list json)
}.

Definition deref (data : list_ref) (st : api_state) : list json :=
  match data with
  | default_list => default_data st
  | heap_list loc => default [] (heap st !! loc)
  end.

(** [data.extend(items)]: the object behind the reference grows in place. *)
Definition extend (data : list_ref) (items : list json)
  : prog api_state unit :=
  fun st =>
    (Ok tt,
     match data with
     | default_list =>
         {| api_rt := api_rt st; net := net st;
            default_data := default_data st ++ items; heap := heap st |}
     | heap_list loc =>
         {| api_rt := api_rt st; net := net st;
            default_data := default_data st;
            heap := <[loc := deref data st ++ items]> (heap st) |}
     end).

(** [data = []] at a call site: a fresh list object of the caller. *)
Definition new_list : prog api_state list_ref :=
  fun st =>
    (Ok (heap_list (length (heap st))),
     {| api_rt := api_rt st; net := net st;
        default_data := default_data st; heap := heap st ++ [[]] |}).

Definition api_log (client operation kind text : string)
  : prog api_state unit :=
  fun st =>
    (Ok tt, {| api_rt := log (api_rt st) client operation kind text;
               net := net st; default_data := default_data st;
               heap := heap st |}).

Definition request (method endpoint : string) : prog api_state json :=
  fun st =>
    let '(answer, net', calls) := make_request (net st) method endpoint in
    (answer, {| api_rt := log_all (api_rt st) calls; net := net';
                default_data := default_data st; heap := heap st |}).

Definition py_len (v : json) : result nat :=
  match v with
  | JList l => Ok (length l)
  | JStr s => Ok (String.length s)
  | JObj d => Ok (length d)
  | _ => Raise TypeError
  end.

Definition len_of (data : list_ref) : prog api_state nat :=
  fun st => (Ok (length (deref data st)), st).

(** [PowerBIRestAPI.get_workspaces(top, skip, data)]. [depth] is the
    recursion depth the interpreter still allows; a call beyond it raises
    [RecursionError] in the caller. Omitting [data] is passing
    [default_list]. *)
Fixpoint get_workspaces (depth : nat) (client : string) (top skip : Z)
    (data : list_ref) : prog api_state list_ref :=
  match depth with
  | 0 => raise RecursionError
  | S depth' =>
      try_except
        (run body <-
           request "GET" ("admin/groups?$top=" +:+ pretty top +:+ "&$skip="
                            +:+ pretty skip);
         run result <- lift (py_get body (JStr "value") (JList []));
         run items <- lift (py_iter result);
         exec extend data items;
         run n <- lift (py_len result);
         run total <- len_of data;
         exec api_log client "Get Workspaces" "DEBUG"
                ("Retrieved " +:+ pretty n +:+ " workspaces (skip="
                   +:+ pretty skip +:+ "). Total workspaces: "
                   +:+ pretty total);
         if (Z.of_nat n =? top)%Z then
           get_workspaces depth' client top (skip + top)%Z data
         else
           exec api_log client "Get Workspaces" "INFO"
                  ("Successfully retrieved a total of " +:+ pretty total
                     +:+ " workspaces");
           ret data)
        (fun e =>
           exec api_log client "Get Workspaces" "ERROR"
                  ("Failed to get workspaces: " +:+ str_exn e);
           raise e)
  end.

End Api.

End Runtime.

(** ** The other pulls of [modules/powerbi_api.py] and the transform as a
    whole *)

(** [try: body except requests.RequestException as e: handler(e)]: every
    other exception passes through. *)
Definition except_request {S A} (body : prog S A) (handler : exn -> prog S A)
  : prog S A :=
  fun st =>
    match body st with
    | (Raise (RequestException msg), st') => handler (RequestException msg) st'
    | other => other
    end.

(** The values [range(0, n, 100)] runs through, and the slices
    [ids[i:i + 100]] taken at them. *)
Definition batch_starts (n : nat) : list nat :=
  map (fun k => 100 * k) (seq 0 ((n + 99) / 100)).

Definition batches {A} (ids : list A) : list (list A) :=
  map (fun i => take 100 (drop i ids)) (batch_starts (length ids)).

Section Pulls.

Context {datetime Net Response : Type}.
Variable strftime : datetime -> string -> string.
Variable now : nat -> datetime.
Variable str_exn : exn -> string.

(** More of the interpreter and of the [requests] library, taken as given:
    [str(v)] of a value in an f-string, [str(date.date())], whether a float
    literal is non-zero, a request with a JSON payload (which gives a
    response object), and the decoding of a response. *)
Variable str_json : json -> string.
Variable iso_date : datetime -> string.
Variable float_nonzero : string -> bool.
Variable make_request :
  Net -> string -> string -> result json * Net * list log_call.
Variable make_request_payload :
  Net -> string -> string -> json -> result Response * Net * list log_call.
Variable response_json : Response -> result json.

(** The truth value of a value in [if v:]. *)
Definition truthy (v : json) : bool :=
  match v with
  | JNull => false
  | JBool b => b
  | JInt n => negb (n =? 0)%Z
  | JFloat literal => float_nonzero literal
  | JStr s => negb (String.eqb s "")
  | JList l => match l with [] => false | _ => true end
  | JObj d => match d with [] => false | _ => true end
  end.

Definition post (endpoint : string) (payload : json)
  : prog (@api_state Net) Response :=
  fun st =>
    let '(answer, net', calls) :=
      make_request_payload (net st) "POST" endpoint payload in
    (answer, {| api_rt := log_all strftime now (api_rt st) calls; net := net';
                default_data := default_data st; heap := heap st |}).

(** *** [post_workspace_scan] *)

Definition scan_url : string :=
  "admin/workspaces/getInfo?lineage=True&datasourceDetails=True&datasetSchema=True&datasetExpressions=True&getArtifactUsers=True".

(** The body of the loop over the batches; [workspace_scan_ids] is the local
    list that collects the scan ids. *)
Fixpoint scan_batches (client : string) (todo : list (list json))
    (workspace_scan_ids : list json) : prog (@api_state Net) (list json) :=
  match todo with
  | [] => ret workspace_scan_ids
  | batch :: rest =>
      let body := JObj [("workspaces", JList batch)] in
      run response <-
        except_request (post scan_url body)
          (fun e =>
             exec api_log strftime now client "GET workspace scan" "ERROR"
                    ("Error with normal endpoint: " +:+ str_exn e);
             post "admin/workspaces/getInfo?getArtifactUsers=True" body);
      run decoded <- lift (response_json response);
      run scan_id <- lift (py_getitem decoded "id");
      scan_batches client rest (workspace_scan_ids ++ [scan_id])
  end.

Definition post_workspace_scan (client : string) (workspace_ids : list json)
  : prog (@api_state Net) (list json) :=
  except_request
    (run workspace_scan_ids <- scan_batches client (batches workspace_ids) [];
     exec api_log strftime now client "Post Workspace Scan" "INFO"
            ("Successfully initiated " +:+ pretty (length workspace_scan_ids)
               +:+ " workspace scans. Total workspaces: "
               +:+ pretty (length workspace_ids));
     ret workspace_scan_ids)
    (fun e =>
       exec api_log strftime now client "Post Workspace Scan" "ERROR"
              ("Failed to post workspace scan: " +:+ str_exn e);
       raise e).

(** *** [get_workspace_scans] *)

(** The loop over the scan ids; [data] is the local list of results. *)
Fixpoint scan_results (client : string) (scan_ids : list json)
    (data : list json) : prog (@api_state Net) (list json) :=
  match scan_ids with
  | [] => ret data
  | scan_id :: rest =>
      run data' <-
        except_request
          (run result <-
             request strftime now make_request "GET"
               ("admin/workspaces/scanResult/" +:+ str_json scan_id);
           run items <- lift (py_iter result);
           run n <- lift (py_len result);
           exec api_log strftime now client "Get Workspace Scans" "DEBUG"
                  ("Retrieved scan result for scan ID " +:+ str_json scan_id
                     +:+ ". Results count: " +:+ pretty n);
           ret (data ++ items))
          (fun e =>
             exec api_log strftime now client "Get Workspace Scans" "ERROR"
                    ("Failed to get scan result for scan ID "
                       +:+ str_json scan_id +:+ ": " +:+ str_exn e);
             raise e);
      scan_results client rest data'
  end.

Definition get_workspace_scans (client : string) (scan_ids : list json)
  : prog (@api_state Net) (list json) :=
  run data <- scan_results client scan_ids [];
  exec api_log strftime now client "Get Workspace Scans" "INFO"
         ("Successfully retrieved scan results for "
            +:+ pretty (length scan_ids) +:+ " workspace(s). Total results: "
            +:+ pretty (length data));
  ret data.

(** *** [get_tenant_activities] *)

(** [data] is [None] when the argument is omitted; the call then makes a
    list of its own. *)
Fixpoint get_tenant_activities (depth : nat) (client : string)
    (date : datetime) (continuation_token : json) (data : option list_ref)
  : prog (@api_state Net) list_ref :=
  match depth with
  | 0 => raise RecursionError
  | S depth' =>
      except_request
        (run data <-
           match data with
           | None =>
               run fresh <- new_list;
               exec api_log strftime now client "Get Tenant Activities" "DEBUG"
                      "Initializing new data list";
               ret fresh
           | Some given => ret given
           end;
         run endpoint_url <-
           (if negb (truthy continuation_token) then
              let start_time := strftime date "%Y-%m-%dT00:00:00.000Z" in
              let end_time := strftime date "%Y-%m-%dT23:59:59.000Z" in
              exec api_log strftime now client "Get Tenant Activities" "INFO"
                     ("Fetching activities for date: " +:+ iso_date date);
              ret ("admin/activityevents?startDateTime='" +:+ start_time
                     +:+ "'&endDateTime='" +:+ end_time
                     +:+ "'&$filter=Activity eq 'ViewReport'")
            else
              run count <- len_of data;
              exec api_log strftime now client "Get Tenant Activities" "DEBUG"
                     ("Using continuation token for pagination. Current data count: "
                        +:+ pretty count);
              ret ("admin/activityevents?continuationToken='"
                     +:+ str_json continuation_token +:+ "'"));
         run response <- request strftime now make_request "GET" endpoint_url;
         exec api_log strftime now client "Get Tenant Activities" "DEBUG"
                "Successfully received response from API";
         run new_activities <-
           lift (py_get response (JStr "activityEventEntities") (JList []));
         run items <- lift (py_iter new_activities);
         exec extend data items;
         run n <- lift (py_len new_activities);
         run total <- len_of data;
         exec api_log strftime now client "Get Tenant Activities" "INFO"
                ("Added " +:+ pretty n +:+ " activities to data. Total activities: "
                   +:+ pretty total);
         run token <- lift (py_get response (JStr "continuationToken") JNull);
         if truthy token then
           exec api_log strftime now client "Get Tenant Activities" "DEBUG"
                  ("Continuation token found, making recursive call. Current data count: "
                     +:+ pretty total);
           get_tenant_activities depth' client date token (Some data)
         else
           exec api_log strftime now client "Get Tenant Activities" "INFO"
                  ("Completed fetching all activities for date: "
                     +:+ iso_date date +:+ ". Total activities: "
                     +:+ pretty total);
           ret data)
        (fun e =>
           exec api_log strftime now client "Get Tenant Activities" "ERROR"
                  ("Failed to get tenant activities: " +:+ str_exn e);
           raise e)
  end.

End Pulls.

(** *** [transform_powerbi_data] as a whole *)

Section TransformRun.

Context {datetime Lake : Type}.
Variable strftime : datetime -> string -> string.
Variable now : nat -> datetime.
Variable str_exn : exn -> string.

(** The storage client with [json.loads], the parquet writer and the
    [pd.DataFrame] constructor on a decoded file are parameters. *)
Variable lake_read_json : Lake -> string -> string -> result json.
Variable lake_write :
  Lake -> DataFrame -> string -> string -> option exn * Lake.
Variable DataFrame_of_json : json -> result DataFrame.

(** [DataLakeWriter.read_json_data]; the arguments of its [write_log] calls
    are in the same places as those of the parquet methods. *)
Definition read_json_data (file_system file_name : string)
  : prog (@load_state Lake) json :=
  fun st =>
    match lake_read_json (lake st) file_system file_name with
    | Ok data =>
        (exec logging strftime now "datalake_writer" "DEBUG" "Read data"
               ("Data read from " +:+ file_name +:+ " in " +:+ file_system);
         ret data) st
    | Raise e =>
        (exec logging strftime now "datalake_writer" "ERROR" "Read data"
               ("Error reading data from " +:+ file_name +:+ ": "
                  +:+ str_exn e);
         raise e) st
    end.

(** Lines 99-100: the loop over [output_data.items()]. *)
Definition write_tables (silver_path : string)
    (output_data : list (string * DataFrame)) : prog (@load_state Lake) unit :=
  for_ output_data (fun entry =>
    write_parquet_data strftime now str_exn lake_write (snd entry) "silver"
      (silver_path +:+ "/" +:+ fst entry)).

(** [transform_powerbi_data] of [PowerBIDataTransform/transform_powerbi.py],
    run to completion. *)
Definition transform_powerbi_data (client : string)
  : prog (@load_state Lake) unit :=
  try_except
    (fun st =>
       let today := strftime (now (ticks (rt st))) "%d%m%Y" in
       let st' := {| rt := {| ticks := S (ticks (rt st));
                              logger := logger (rt st) |};
                     lake := lake st |} in
       let silver_path := today +:+ "/" +:+ client in
       (run raw_workspaces <-
          read_json_data "test-app" (client +:+ "_workspaces_" +:+ today);
        run workspaces <- lift (DataFrame_of_json raw_workspaces);
        run raw_activities <-
          read_json_data "test-app" (client +:+ "_activities_" +:+ today);
        run activities <- lift (DataFrame_of_json raw_activities);
        run scan <-
          read_json_data "bronze"
            (client +:+ "_workspace_content_" +:+ today);
        run c <- lift (TransformPowerBI.flatten scan);
        run output_data <- lift (shape workspaces activities c);
        exec write_tables silver_path output_data;
        logging strftime now client "powerbi" "INFO"
          "Successfully transformed PowerBI data") st')
    (fun e =>
       exec logging strftime now client "powerbi" "ERROR"
              ("Failed to transform PowerBI data: " +:+ str_exn e);
       raise e).

End TransformRun.

(** *** [process_powerbi_workspaces]
    ([get_powerbi_workspaces/workspaces.py]) *)

Section Workspaces.

Context {datetime Net Lake : Type}.
Variable strftime : datetime -> string -> string.
Variable now : nat -> datetime.
Variable str_exn : exn -> string.

(** The key vault, the service as an API object of a client sees it, and
    the storage client with [json.dumps] are parameters. [retrieve_secrets]
    is the three [get_secret] calls of [MicrosoftAPI.__init__]: [None] when
    all three succeed. *)
Variable retrieve_secrets : string -> option exn.
Variable make_request :
  string -> Net -> string -> string -> result json * Net * list log_call.
Variable lake_write_json :
  Lake -> json -> string -> string -> option exn * Lake.

(** The interpreter state of the pull, with the logger inside [api], and
    the lake. *)
Record pull_state : Type := {
  api : @api_state Net;
  files : Lake
}.

Definition in_api {A} (m : prog (@api_state Net) A) : prog pull_state A :=
  fun st =>
    let '(r, api') := m (api st) in
    (r, {| api := api'; files := files st |}).

(** [PowerBIRestAPI(client, secret_client, logger)]. *)
Definition new_PowerBIRestAPI (client : string) : prog pull_state unit :=
  match retrieve_secrets client with
  | None => ret tt
  | Some e =>
      exec in_api (api_log strftime now client "Initialization" "ERROR"
                     ("Failed to retrieve secrets: " +:+ str_exn e));
      raise e
  end.

(** [DataLakeWriter.write_json_data]. *)
Definition write_json_data (data : json) (file_system file_name : string)
  : prog pull_state unit :=
  fun st =>
    let '(outcome, files') :=
      lake_write_json (files st) data file_system file_name in
    let st' := {| api := api st; files := files' |} in
    match outcome with
    | None =>
        in_api (api_log strftime now "datalake_writer" "DEBUG" "Write data"
                  ("Data written to " +:+ file_name +:+ " in "
                     +:+ file_system)) st'
    | Some e =>
        (exec in_api (api_log strftime now "datalake_writer" "ERROR"
                        "Write data"
                        ("Error writing data to " +:+ file_name +:+ ": "
                           +:+ str_exn e));
         raise e) st'
    end.

(** [datetime.now().strftime(format)]. *)
Definition strftime_now (format : string) : prog pull_state string :=
  in_api (fun a =>
    (Ok (strftime (now (ticks (api_rt a))) format),
     {| api_rt := {| ticks := S (ticks (api_rt a));
                     logger := logger (api_rt a) |};
        net := net a; default_data := default_data a; heap := heap a |})).

(** [process_powerbi_workspaces], run to completion; [depth] is the
    recursion depth that the interpreter allows to [get_workspaces]. *)
Definition process_powerbi_workspaces (depth : nat) (client : string)
  : prog pull_state unit :=
  exec new_PowerBIRestAPI client;
  run workspaces <-
    in_api (get_workspaces strftime now str_exn (make_request client)
              depth client 500 0 default_list);
  run current_date <- strftime_now "%d%m%Y";
  run rows <- in_api (fun a => (Ok (deref workspaces a), a));
  exec write_json_data (JList rows) "test-app"
         (client +:+ "_workspaces_" +:+ current_date);
  run n <- in_api (len_of workspaces);
  in_api (api_log strftime now client "powerbi" "INFO"
            ("Processed " +:+ pretty n +:+ " workspaces")).

End Workspaces.

(** ** Vocabulary of the statements *)

(** The values of column [c] of a table, in row order. *)
Definition column_values (df : DataFrame) (c : label) : list json :=
  map (pd.cell (columns df) c) (rows df).

(** The rows of [I] whose value under [c] occurs nowhere in column [c] of
    [E], in the order of [I]. *)
Definition new_rows_of (E I : DataFrame) (c : label) : list (list json) :=
  filter (fun r => pd.cell (columns I) c r ∉ column_values E c) (rows I).


(** The value of field [k] of an object; nothing for a value that is not a
    dictionary. *)
Definition field (k : string) (o : json) : option json :=
  match o with
  | JObj d => dict_get k d
  | _ => None
  end.

Definition is_dict (v : json) : bool :=
  match v with JObj _ => true | _ => false end.

(** A workspace whose one collection has a key that ends in a double s. *)
Definition access_workspace : json :=
  JObj [("id", JStr "W1");
        ("access", JList [JObj [("id", JStr "A1"); ("name", JStr "Gate")]])].

(** No key of the record contains the substring. *)
Definition no_right_key (d : pydict) : Prop :=
  Forall (fun kv => contains "UserAccessRight" (fst kv) = false) d.

(** *** The log calls of the load *)

Definition read_ok_call (file_system file_name : string) : log_call :=
  ("datalake_writer", "DEBUG", "Read data",
   "Parquet data read from " +:+ file_name +:+ " in " +:+ file_system).

Definition read_error_call (str_exn : exn -> string)
    (file_name : string) (e : exn) : log_call :=
  ("datalake_writer", "ERROR", "Read data",
   "Error reading parquet data from " +:+ file_name +:+ ": " +:+ str_exn e).

Definition write_ok_call (file_system file_name : string) : log_call :=
  ("datalake_writer", "DEBUG", "Write data",
   "Parquet data written to " +:+ file_name +:+ " in " +:+ file_system).

Definition write_error_call (str_exn : exn -> string)
    (file_name : string) (e : exn) : log_call :=
  ("datalake_writer", "ERROR", "Write data",
   "Error writing parquet data to " +:+ file_name +:+ ": " +:+ str_exn e).

Definition creating_call (client name : string) : log_call :=
  (client, "powerbi_load", "INFO", "Creating new table: " +:+ name).

Definition success_call (client name : string) : log_call :=
  (client, "powerbi_load", "INFO",
   "Successfully processed " +:+ name +:+ " table").

Definition error_call (str_exn : exn -> string) (client name : string)
    (e : exn) : log_call :=
  (client, "powerbi_load", "ERROR",
   "Error processing " +:+ name +:+ " table: " +:+ str_exn e).

(** The state after some more log calls and with another lake. *)
Definition logged {datetime Lake : Type}
    (strftime : datetime -> string -> string) (now : nat -> datetime)
    (st : @load_state Lake) (calls : list log_call) (lake' : Lake)
  : load_state :=
  {| rt := log_all strftime now (rt st) calls; lake := lake' |}.

(** What the write of the gold table and the last line of the loop body
    log, by the outcome of the write. *)
Definition write_outcome_calls (str_exn : exn -> string)
    (client kind name : string) (outcome : option exn) : list log_call :=
  match outcome with
  | None =>
      [write_ok_call "gold" (gold_path kind name); success_call client name]
  | Some e =>
      [write_error_call str_exn (gold_path kind name) e;
       error_call str_exn client name e]
  end.

(** The level of a call is its third argument. *)
Definition level_of (call : log_call) : string := snd (fst call).

(** The calls of one table end with its outcome: success, or the error. *)
Definition ends_with_outcome (str_exn : exn -> string) (client name : string)
    (calls : list log_call) : Prop :=
  exists before outcome,
    calls = before ++ [outcome] /\
    (outcome = success_call client name \/
     exists e, outcome = error_call str_exn client name e).

(** The calls of one table start with the writer's entry for the read of
    its silver file: the table was attempted. *)
Definition starts_with_read (str_exn : exn -> string)
    (silver_path name : string) (calls : list log_call) : Prop :=
  exists rest,
    calls = read_ok_call "silver" (silver_path +:+ "/" +:+ name) :: rest \/
    exists e,
      calls = read_error_call str_exn (silver_path +:+ "/" +:+ name) e :: rest.

(** *** A small world for the examples *)

(** A lake that is a list of files, newest first: a read finds the file or
    raises, a write always succeeds. *)
Definition file_lake : Type := list (string * string * DataFrame).

Fixpoint file_read (files : file_lake) (file_system file_name : string)
  : result DataFrame :=
  match files with
  | [] => Raise (RequestException "not found")
  | (fs, name, df) :: rest =>
      if String.eqb fs file_system && String.eqb name file_name then Ok df
      else file_read rest file_system file_name
  end.

Definition file_write (files : file_lake) (df : DataFrame)
    (file_system file_name : string) : option exn * file_lake :=
  (None, (file_system, file_name, df) :: files).

(** A clock that counts, printed the same at every reading. *)
Definition test_strftime (t : nat) (format : string) : string := "today".

Definition test_now (n : nat) : nat := n.

Definition test_str_exn (e : exn) : string :=
  match e with
  | RequestException msg => msg
  | _ => "error"
  end.

Definition fresh_load_state (files : file_lake) : @load_state file_lake :=
  {| rt := {| ticks := 0; logger := new_LoggingManager |}; lake := files |}.

(** Only the silver table of users exists. *)
Definition bootstrap_lake : file_lake :=
  [("silver", "today/acme/users",
    {| columns := [LName "graphId"]; rows := [[JStr "U1"]] |})].

(** A service with one workspace, which it returns to every request; the
    session state counts the requests. *)
Definition one_workspace_service (requests : nat) (method endpoint : string)
  : result json * nat * list log_call :=
  (Ok (JObj [("value", JList [JObj [("id", JStr "W1")]])]),
   S requests,
   [("acme", "API Request", "INFO", "Successfully made GET request")]).

Definition fresh_api_state : @api_state nat :=
  {| api_rt := {| ticks := 0; logger := new_LoggingManager |};
     net := 0; default_data := []; heap := [] |}.

Definition pull_once (st : @api_state nat) : result list_ref * api_state :=
  get_workspaces test_strftime test_now test_str_exn one_workspace_service
    1000 "acme" 500 0 default_list st.

(** The silver table of users next to an older gold table of users, and a
    reader to which every gold file is corrupt. *)
Definition stale_gold_lake : file_lake :=
  ("gold", "dimensions/dim_users",
   {| columns := [LName "graphId"]; rows := [[JStr "U0"]] |})
    :: bootstrap_lake.

Definition unreadable_gold_read (files : file_lake)
    (file_system file_name : string) : result DataFrame :=
  if String.eqb file_system "gold" then Raise (RequestException "corrupt file")
  else file_read files file_system file_name.

(** *** Vocabulary of the further properties *)

(** The collections of a workspace: its sequence-valued keys other than
    "users", with their elements. *)
Fixpoint object_lists (d : pydict) : list (string * list json) :=
  match d with
  | [] => []
  | (key, JList objects) :: rest =>
      if String.eqb key "users" then object_lists rest
      else (key, objects) :: object_lists rest
  | _ :: rest => object_lists rest
  end.

Definition total_objects (d : pydict) : nat :=
  length (concat (map snd (object_lists d))).

(** A row [[user, object, right, "workspace"]]. *)
Definition is_workspace_row (row : json) : Prop :=
  exists user object right,
    row = JList [user; object; right; JStr "workspace"].

(** The record that [process_workspace_users] keeps of a member. *)
Definition user_record (user : json) : json :=
  JObj [("graphId", from_option id JNull (field "graphId" user));
        ("emailAddress", from_option id (JStr "") (field "emailAddress" user));
        ("displayName", from_option id (JStr "") (field "displayName" user))].

(** A dictionary all of whose values are strings. *)
Definition is_string_record (row : json) : Prop :=
  exists d, row = JObj d /\ Forall (fun kv => is_str (snd kv) = true) d.

(** [c] repeated [n] times. *)
Fixpoint repeat_char (c : ascii) (n : nat) : string :=
  match n with
  | 0 => EmptyString
  | S n' => String c (repeat_char c n')
  end.

(** The last character of a string, if it has one. *)
Fixpoint last_char (s : string) : option ascii :=
  match s with
  | EmptyString => None
  | String a EmptyString => Some a
  | String _ rest => last_char rest
  end.

(** What the pass keeps true of [all_data]: one entry per object type, no
    type ending in s, no entry without rows, and only dictionaries of
    strings as rows. *)
Definition dimension_data_ok (ad : list (string * list json)) : Prop :=
  NoDup (map fst ad) /\
  Forall (fun kv => last_char (fst kv) <> Some "s"%char /\
                    snd kv <> [] /\
                    Forall is_string_record (snd kv)) ad.

(** The names under which [transform_powerbi_data] always writes a table. *)
Definition fixed_tables : list string :=
  ["users"; "user_access"; "workspaces"; "workspace_content"; "activities"].

(** A gold table of users that lacks the identity column "graphId", next
    to the silver table of users. *)
Definition keyless_gold_lake : file_lake :=
  ("gold", "dimensions/dim_users",
   {| columns := [LName "id"]; rows := [[JStr "U0"]] |})
    :: bootstrap_lake.

(** *** Vocabulary of the other pulls *)

Definition call_operation (c : log_call) : string :=
  let '(_, o, _, _) := c in o.

(** A service none of whose own log entries is filed under operation [o]. *)
Definition logs_elsewhere {Net}
    (make_request : Net -> string -> string -> result json * Net * list log_call)
    (o : string) : Prop :=
  forall net method endpoint,
    Forall (fun c => call_operation c <> o)
           (snd (make_request net method endpoint)).

(** How many entries of the buffer satisfy [p]. *)
Definition count_rows (p : log_entry -> bool) (rt : runtime) : nat :=
  length (List.filter p (logging_rows (logger rt))).

Definition is_error_of (o : string) (e : log_entry) : bool :=
  String.eqb (operation e) o && String.eqb (kind e) "ERROR".

(** The entry that [get_tenant_activities] writes after each answered
    request. *)
Definition is_received (e : log_entry) : bool :=
  String.eqb (operation e) "Get Tenant Activities"
  && String.eqb (text e) "Successfully received response from API".

(** The last entry of the buffer. *)
Definition last_entry {Net} (st : @api_state Net) : option log_entry :=
  last (logging_rows (logger (api_rt st))).

Definition test_str_json (v : json) : string :=
  match v with
  | JStr s => s
  | _ => "value"
  end.

Definition test_iso_date (t : nat) : string := "2024-05-01".

Definition test_float_nonzero (literal : string) : bool :=
  negb (String.eqb literal "0.0").

Definition activity_page (n : nat) (more : bool) : json :=
  JObj (("activityEventEntities", JList [JObj [("Id", JInt (Z.of_nat n))]])
          :: if more then [("continuationToken", JStr "next")] else []).

(** A service with two pages of activities: the first request is answered
    with a continuation token, every later one without. *)
Definition two_page_activity_service (requests : nat)
    (method endpoint : string) : result json * nat * list log_call :=
  (Ok (activity_page requests (requests =? 0)%nat),
   S requests,
   [("acme", "API Request", "INFO", "Successfully made GET request")]).

(** A service that answers two requests, each with a continuation token, and
    refuses every later one. *)
Definition failing_activity_service (requests : nat)
    (method endpoint : string) : result json * nat * list log_call :=
  if (requests <? 2)%nat then
    (Ok (activity_page requests true), S requests,
     [("acme", "API Request", "INFO", "Successfully made GET request")])
  else
    (Raise (RequestException "429 Too Many Requests"), S requests,
     [("acme", "API Request", "ERROR", "Failed to make GET request")]).

(** A service that answers every request for a scan result with the
    dictionary of the scanner API. *)
Definition scan_result_service (requests : nat) (method endpoint : string)
  : result json * nat * list log_call :=
  (Ok (JObj [("workspaces", JList [JObj [("id", JStr "W1")]]);
             ("datasourceInstances", JList [])]),
   S requests,
   [("acme", "API Request", "INFO", "Successfully made GET request")]).

(** A service that starts a scan for every posted batch; a response is its
    decoded body. *)
Definition scan_post_service (requests : nat) (method endpoint : string)
    (payload : json) : result json * nat * list log_call :=
  (Ok (JObj [("id", JStr ("scan-" +:+ pretty requests))]),
   S requests,
   [("acme", "API Request", "INFO", "Successfully made POST request")]).

Definition test_response_json (response : json) : result json := Ok response.

(** *** Vocabulary of the transform as a whole *)

(** The lake after the tables of [output_data] have been written to the
    silver area one after the other. *)
Definition written {Lake}
    (lake_write : Lake -> DataFrame -> string -> string -> option exn * Lake)
    (silver_path : string) (output_data : list (string * DataFrame))
    (files : Lake) : Lake :=
  foldl (fun l entry =>
           snd (lake_write l (snd entry) "silver"
                  (silver_path +:+ "/" +:+ fst entry)))
        files output_data.

(** Every write of the loop over [output_data] succeeds. *)
Fixpoint writes_succeed {Lake}
    (lake_write : Lake -> DataFrame -> string -> string -> option exn * Lake)
    (silver_path : string) (output_data : list (string * DataFrame))
    (files : Lake) : Prop :=
  match output_data with
  | [] => True
  | entry :: rest =>
      let outcome :=
        lake_write files (snd entry) "silver"
          (silver_path +:+ "/" +:+ fst entry) in
      fst outcome = None /\
      writes_succeed lake_write silver_path rest (snd outcome)
  end.

(** What [transform_powerbi_data] makes of the three raw files of a client
    and a day, before it writes: the dictionary [output_data], or the first
    exception on the way to it. *)
Definition shaped_from {Lake}
    (lake_read_json : Lake -> string -> string -> result json)
    (DataFrame_of_json : json -> result DataFrame)
    (files : Lake) (client today : string)
  : result (list (string * DataFrame)) :=
  do raw_workspaces <-
    lake_read_json files "test-app" (client +:+ "_workspaces_" +:+ today);
  do workspaces <- DataFrame_of_json raw_workspaces;
  do raw_activities <-
    lake_read_json files "test-app" (client +:+ "_activities_" +:+ today);
  do activities <- DataFrame_of_json raw_activities;
  do scan <-
    lake_read_json files "bronze"
      (client +:+ "_workspace_content_" +:+ today);
  do c <- TransformPowerBI.flatten scan;
  shape workspaces activities c.

(** The last entry of the log of a run. *)
Definition last_logged {Lake} (st : @load_state Lake) : option log_entry :=
  last (logging_rows (logger (rt st))).

(** A lake of raw files next to a lake of tables. *)
Definition raw_lake : Type := list (string * string * json) * file_lake.

Fixpoint raw_lookup (files : list (string * string * json))
    (file_system file_name : string) : result json :=
  match files with
  | [] => Raise (RequestException "not found")
  | (fs, name, data) :: rest =>
      if String.eqb fs file_system && String.eqb name file_name then Ok data
      else raw_lookup rest file_system file_name
  end.

Definition raw_read (files : raw_lake) (file_system file_name : string)
  : result json :=
  raw_lookup (fst files) file_system file_name.

Definition raw_write (files : raw_lake) (df : DataFrame)
    (file_system file_name : string) : option exn * raw_lake :=
  (None, (fst files, (file_system, file_name, df) :: snd files)).

(** A writer that has no room for the table of workspaces. *)
Definition raw_write_full (files : raw_lake) (df : DataFrame)
    (file_system file_name : string) : option exn * raw_lake :=
  if String.eqb file_name "today/acme/workspaces"
  then (Some (RequestException "no space left"), files)
  else raw_write files df file_system file_name.

Definition test_DataFrame_of_json (data : json) : result DataFrame :=
  match data with
  | JList l => pd.DataFrame_of l
  | _ => Raise ValueError
  end.

(** The three raw files of client acme, with [scan] as the scan result. *)
Definition raw_files_of (scan : json) : raw_lake :=
  ([("test-app", "acme_workspaces_today", JList [JObj [("id", JStr "W1")]]);
    ("test-app", "acme_activities_today", JList []);
    ("bronze", "acme_workspace_content_today", scan)],
   []).

Definition fresh_raw_state (scan : json) : @load_state raw_lake :=
  {| rt := {| ticks := 0; logger := new_LoggingManager |};
     lake := raw_files_of scan |}.

(** The tables that the transform makes of the raw files of acme when the
    scan result is the workspace with two collections. *)
Definition example_output : list (string * DataFrame) :=
  Eval vm_compute in
    match shaped_from raw_read test_DataFrame_of_json
            (raw_files_of (JList [two_collections_workspace])) "acme" "today"
    with
    | Ok output_data => output_data
    | Raise _ => []
    end.

(** The names of the tables in a lake, oldest first. *)
Definition table_names (files : raw_lake) : list string :=
  rev (map (fun file => snd (fst file)) (snd files)).

(** *** A world of two clients *)

(** A service in which every client has one workspace, named after it. *)
Definition client_workspace_service (client : string) (requests : nat)
    (method endpoint : string) : result json * nat * list log_call :=
  (Ok (JObj [("value", JList [JObj [("id", JStr ("W-" +:+ client))]])]),
   S requests,
   [(client, "API Request", "INFO", "Successfully made GET request")]).

Definition all_secrets (client : string) : option exn := None.

Definition json_files : Type := list (string * string * json).

Definition json_write (written : json_files) (data : json)
    (file_system file_name : string) : option exn * json_files :=
  (None, (file_system, file_name, data) :: written).

Definition fresh_pull_state : @pull_state nat json_files :=
  {| api := fresh_api_state; files := [] |}.

(** * Properties *)

(** ** Tables: positions, cells and re-indexing *)

Section FrameFacts.

Implicit Types (cols : list label) (c : label) (r : list json).

Lemma position_lookup cols c p :
  pd.position c cols = Some p -> cols !! p = Some c.
Proof.
  revert p; induction cols as [|c' cols IH]; intros p; simpl; [done|].
  case_bool_decide as Hc.
  - intros [= <-]. by subst.
  - destruct (pd.position c cols) as [q|] eqn:Hq; simpl; [|done].
    intros [= <-]. by apply IH.
Qed.

Lemma position_is_Some cols c :
  c ∈ cols -> is_Some (pd.position c cols).
Proof.
  induction cols as [|c' cols IH]; simpl.
  - by intros ?%elem_of_nil.
  - intros [->|Hin]%elem_of_cons.
    + rewrite bool_decide_eq_true_2; eauto.
    + case_bool_decide; [eauto|].
      destruct (IH Hin) as [q ->]. simpl; eauto.
Qed.

Lemma position_app_l cols extra c :
  c ∈ cols -> pd.position c (cols ++ extra) = pd.position c cols.
Proof.
  induction cols as [|c' cols IH]; simpl.
  - by intros ?%elem_of_nil.
  - intros Hin. case_bool_decide as Hc; [done|].
    rewrite IH; [done|]. apply elem_of_cons in Hin as [->|]; [done|done].
Qed.

(** Re-indexing keeps every cell of the labels that the target has. *)
Lemma cell_reindex from to c r :
  c ∈ to -> pd.cell to c (pd.reindex from to r) = pd.cell from c r.
Proof.
  intros Hin. destruct (position_is_Some _ _ Hin) as [p Hp].
  unfold pd.cell at 1. rewrite Hp.
  apply position_lookup in Hp.
  unfold pd.reindex. rewrite nth_lookup, list_lookup_fmap, Hp. done.
Qed.

Lemma cell_cons_ne c' cols c x r :
  c <> c' -> pd.cell (c' :: cols) c (x :: r) = pd.cell cols c r.
Proof.
  intros Hne. unfold pd.cell; simpl.
  rewrite bool_decide_eq_false_2 by done.
  by destruct (pd.position c cols).
Qed.

(** Over its own columns a row is re-indexed to itself. *)
Lemma reindex_same cols r :
  NoDup cols -> length r = length cols -> pd.reindex cols cols r = r.
Proof.
  intros Hnd; revert r; induction Hnd as [|c cols Hnotin Hnd IH];
    intros [|x r] Hlen; simpl in *; try done.
  unfold pd.reindex; simpl. f_equal.
  - unfold pd.cell; simpl. by rewrite bool_decide_eq_true_2.
  - transitivity (pd.reindex cols cols r); [|apply IH; lia].
    apply map_ext_in. intros c' Hc'%list_elem_of_In.
    apply cell_cons_ne. intros ->. done.
Qed.

Lemma getitem_cells (df : DataFrame) c :
  c ∈ columns df ->
  pd.getitem df c = Ok (map (pd.cell (columns df) c) (rows df)).
Proof.
  intros Hin. destruct (position_is_Some _ _ Hin) as [p Hp].
  unfold pd.getitem, pd.cell. by rewrite Hp.
Qed.

Lemma select_not_isin {A} (f : A -> json) (xs : list A) (values : list json) :
  pd.select xs (pd.invert (pd.isin (map f xs) values))
  = filter (fun x => f x ∉ values) xs.
Proof.
  induction xs as [|x xs IH]; simpl; [done|].
  rewrite filter_cons. case_bool_decide as Hx; simpl.
  - rewrite decide_False by (intros Hn; by apply Hn). done.
  - rewrite decide_True by done. by rewrite IH.
Qed.

End FrameFacts.

(** ** The merge *)

Lemma merge_new_rows_empty (E I : DataFrame) (c : label) :
  pd.empty E = true -> merge_new_rows E I c = Ok I.
Proof. intros He. unfold merge_new_rows. by rewrite He. Qed.

Lemma merge_new_rows_concat (E I : DataFrame) (c : label) :
  pd.empty E = false -> c ∈ columns E -> c ∈ columns I ->
  merge_new_rows E I c
  = Ok (pd.concat2 E {| columns := columns I; rows := new_rows_of E I c |}).
Proof.
  intros He HcE HcI. unfold merge_new_rows. rewrite He.
  rewrite (getitem_cells I c HcI), (getitem_cells E c HcE). simpl.
  unfold pd.getitem_mask. by rewrite select_not_isin.
Qed.

Lemma column_values_concat2 (a b : DataFrame) (c : label) :
  c ∈ columns a -> c ∈ columns b ->
  column_values (pd.concat2 a b) c = column_values a c ++ column_values b c.
Proof.
  intros Ha Hb. unfold column_values, pd.concat2; simpl.
  rewrite map_app, !map_map. f_equal.
  - apply map_ext. intros r. apply cell_reindex.
    apply elem_of_app. by left.
  - apply map_ext. intros r. apply cell_reindex.
    apply elem_of_app. by left.
Qed.


Lemma filter_none {A} (P : A -> Prop) `{forall x, Decision (P x)} (l : list A) :
  (forall x, x ∈ l -> ~ P x) -> filter P l = [].
Proof.
  induction l as [|x l IH]; intros Hno; [done|].
  rewrite filter_cons, decide_False by (apply Hno; by left).
  apply IH. intros y Hy. apply Hno. by right.
Qed.




Lemma position_None cols c : c ∉ cols -> pd.position c cols = None.
Proof.
  induction cols as [|c' cols IH]; simpl; [done|].
  intros [Hne Hnotin]%not_elem_of_cons.
  rewrite bool_decide_eq_false_2 by done. by rewrite IH.
Qed.

Lemma empty_false_inv (E : DataFrame) :
  pd.empty E = false -> columns E <> [] /\ rows E <> [].
Proof. unfold pd.empty. by destruct (columns E), (rows E). Qed.

Lemma concat2_same_columns (E : DataFrame) (more : list (list json)) :
  wf_frame E ->
  Forall (fun r => length r = length (columns E)) more ->
  pd.concat2 E {| columns := columns E; rows := more |}
  = {| columns := columns E; rows := rows E ++ more |}.
Proof.
  intros [Hnd Hlen] Hmore. unfold pd.concat2; simpl.
  assert (Hextra : filter (fun c0 => c0 ∉ columns E) (columns E) = []).
  { apply filter_none. intros x Hx Hn. by apply Hn. }
  rewrite Hextra, app_nil_r. f_equal. f_equal.
  - rewrite <- (map_id (rows E)) at 2. apply map_ext_in.
    intros r Hr%list_elem_of_In. apply reindex_same; [done|].
    by eapply Forall_forall in Hlen.
  - rewrite <- (map_id more) at 2. apply map_ext_in.
    intros r Hr%list_elem_of_In. apply reindex_same; [done|].
    by eapply Forall_forall in Hmore.
Qed.

Lemma new_rows_wf (E I : DataFrame) c :
  wf_frame I ->
  Forall (fun r => length r = length (columns I)) (new_rows_of E I c).
Proof.
  intros [_ Hlen]. apply Forall_forall. intros r [_ Hr]%list_elem_of_filter.
  by eapply Forall_forall in Hlen.
Qed.

Lemma merge_same_schema (E I : DataFrame) c :
  wf_frame E -> wf_frame I -> columns I = columns E ->
  pd.empty E = false -> c ∈ columns E ->
  merge_new_rows E I c
  = Ok {| columns := columns E; rows := rows E ++ new_rows_of E I c |}.
Proof.
  intros HE HI Hcols Hne Hc.
  rewrite merge_new_rows_concat by (done || by rewrite Hcols).
  rewrite Hcols. f_equal. apply concat2_same_columns; [done|].
  rewrite <- Hcols. by apply new_rows_wf.
Qed.

Lemma column_values_new_rows (E I : DataFrame) c :
  map (pd.cell (columns I) c) (new_rows_of E I c)
  = filter (fun v => v ∉ column_values E c) (column_values I c).
Proof.
  unfold new_rows_of, column_values.
  induction (rows I) as [|r rs IH]; [done|].
  cbn [map]. rewrite !filter_cons.
  destruct (decide (pd.cell (columns I) c r ∉ _)); cbn [map]; by rewrite IH.
Qed.

Lemma merge_nothing_new (E I : DataFrame) c :
  wf_frame E -> columns I = columns E ->
  pd.empty E = false -> c ∈ columns E ->
  (forall r, r ∈ rows I -> pd.cell (columns I) c r ∈ column_values E c) ->
  merge_new_rows E I c = Ok E.
Proof.
  intros HE Hcols Hne Hc Hknown.
  rewrite merge_new_rows_concat by (done || by rewrite Hcols).
  assert (Hnone : new_rows_of E I c = []).
  { apply filter_none. intros r Hr Hnew. by apply Hnew, Hknown. }
  rewrite Hnone, Hcols, concat2_same_columns by (done || constructor).
  rewrite app_nil_r. by destruct E.
Qed.

Lemma row_typed_length schema r :
  pd.row_typed schema r = true -> length r = length schema.
Proof.
  revert r. induction schema as [|t schema IH]; intros [|v r]; simpl; try done.
  intros [_ Hrest]%andb_prop. f_equal. by apply IH.
Qed.

Lemma typed_lengths schema (df : DataFrame) :
  pd.typed schema df = true ->
  Forall (fun r => length r = length (columns df)) (rows df).
Proof.
  unfold pd.typed. intros [Hwidth Hrows]%andb_prop.
  apply Nat.eqb_eq in Hwidth. rewrite forallb_forall in Hrows.
  apply Forall_forall. intros r Hr%list_elem_of_In.
  rewrite <- Hwidth. by apply row_typed_length, Hrows.
Qed.

Lemma typed_wf schema (df : DataFrame) :
  NoDup (columns df) -> pd.typed schema df = true -> wf_frame df.
Proof. intros Hnd Htyped. split; [done|]. by eapply typed_lengths. Qed.




(** ** The log buffer *)

(** C10: every call of [write_log] appends exactly one entry to
    [logging_rows], whatever the level; a DEBUG entry is only kept from
    standard output. Earlier entries stay where they are, so a run of calls
    leaves the old buffer followed by one entry per call, in call order. *)
Theorem write_log_appends_exactly_one :
  forall (datetime : Type) (strftime : datetime -> string -> string)
         (self : LoggingManager) (d : datetime) (c o k t : string),
    logging_rows (write_log strftime self d c o k t)
    = logging_rows self ++ [entry_at strftime d c o k t] /\
    length (logging_rows (write_log strftime self d c o k t))
    = S (length (logging_rows self)) /\
    logging_rows (write_log strftime self d c o "DEBUG" t)
    = logging_rows self ++ [entry_at strftime d c o "DEBUG" t] /\
    stdout (write_log strftime self d c o "DEBUG" t) = stdout self /\
    forall (now : nat -> datetime) (rt : runtime) (calls : list log_call),
      exists entries,
        logging_rows (logger (log_all strftime now rt calls))
        = logging_rows (logger rt) ++ entries /\
        Forall2 (fun call e =>
                   (e.(client), e.(operation), e.(kind), e.(text)) = call)
          calls entries.
Proof.
  intros datetime strftime self d c o k t.
  split; [done|]. split; [simpl; rewrite length_app; simpl; lia|].
  split; [done|]. split; [done|].
  intros now rt calls. revert rt.
  induction calls as [|[[[c' o'] k'] t'] calls IH]; intros rt.
  - exists []. split; [by rewrite app_nil_r | constructor].
  - destruct (IH (log strftime now rt c' o' k' t')) as (entries & Hrows & Hall).
    exists (entry_at strftime (now (ticks rt)) c' o' k' t' :: entries). split.
    + simpl. rewrite Hrows. simpl. by rewrite <- app_assoc.
    + by constructor.
Qed.

(** ** Loops that raise *)

Lemma for_each_raises {A S} (body : S -> A -> result S) (xs : list A) (x : A) :
  x ∈ xs ->
  (forall acc, exists e, body acc x = Raise e) ->
  forall acc, exists e, for_each xs body acc = Raise e.
Proof.
  intros Hin Hbad. induction xs as [|y xs IH]; intros acc.
  - by apply elem_of_nil in Hin.
  - simpl. apply elem_of_cons in Hin as [<-|Hin].
    + destruct (Hbad acc) as [e ->]. by exists e.
    + destruct (body acc y) as [acc'|e]; simpl; [by apply IH|by exists e].
Qed.

Lemma bind_raises {A B} (m : result A) (k : A -> result B) :
  (forall a, exists e, k a = Raise e) -> exists e, bind m k = Raise e.
Proof. intros Hk. destruct m as [a|e]; simpl; [apply Hk|by exists e]. Qed.

(** ** Strings *)

Lemma prefix_app (n rest : string) : String.prefix n (n +:+ rest) = true.
Proof.
  induction n as [|a n IH]; simpl; [by destruct rest|].
  destruct (ascii_dec a a); [done|congruence].
Qed.

Lemma prefix_inv (n h : string) :
  String.prefix n h = true -> exists rest, h = n +:+ rest.
Proof.
  revert h; induction n as [|a n IH]; intros h; simpl.
  - intros _. by exists h.
  - destruct h as [|b h]; simpl; [done|].
    destruct (ascii_dec a b) as [->|]; [|done].
    intros [rest ->]%IH. by exists rest.
Qed.

Lemma contains_unfold (n h : string) :
  contains n h
  = if String.prefix n h then true
    else match h with
         | EmptyString => false
         | String _ rest => contains n rest
         end.
Proof. by destruct h. Qed.

(** [contains] is the substring test. *)
Lemma contains_spec (n h : string) :
  contains n h = true <-> exists before after, h = before +:+ n +:+ after.
Proof.
  split.
  - induction h as [|a h IH]; rewrite contains_unfold.
    + destruct (String.prefix n "") eqn:Hp; [|done].
      intros _. apply prefix_inv in Hp as [rest ->]. by exists "", rest.
    + destruct (String.prefix n (String a h)) eqn:Hp.
      * intros _. apply prefix_inv in Hp as [rest Hrest]. by exists "", rest.
      * intros (before & after & ->)%IH. by exists (String a before), after.
  - intros (before & after & ->). induction before as [|a before IH].
    + change ("" +:+ n +:+ after) with (n +:+ after).
      by rewrite contains_unfold, prefix_app.
    + rewrite contains_unfold.
      destruct (String.prefix _ _); [done|exact IH].
Qed.

(** ** Access rights *)

Lemma comprehension_in_keys (needle : string) (ks : list string) :
  comprehension_in needle (map JStr ks)
  = Ok (map JStr (filter (fun k => contains needle k = true) ks)).
Proof.
  induction ks as [|k ks IH]; [done|].
  rewrite filter_cons.
  change (comprehension_in needle (map JStr (k :: ks)))
    with (do b <- Ok (contains needle k);
          do hits <- comprehension_in needle (map JStr ks);
          Ok (if b then JStr k :: hits else hits)).
  rewrite IH. simpl.
  destruct (contains needle k); [by rewrite decide_True|].
  by rewrite decide_False.
Qed.

Lemma no_right_key_filter (d : pydict) :
  no_right_key d ->
  filter (fun k => contains "UserAccessRight" k = true) (keys d) = [].
Proof.
  intros Hno. apply filter_none. intros k Hk.
  apply list_elem_of_fmap in Hk as ([k' v] & -> & Hin).
  eapply Forall_forall in Hno; [|exact Hin]. simpl in *. congruence.
Qed.

Lemma access_right_of_none (d : pydict) :
  no_right_key d -> access_right_of (JObj d) = Raise IndexError.
Proof.
  intros Hno. unfold access_right_of. simpl.
  by rewrite comprehension_in_keys, no_right_key_filter.
Qed.

Lemma dict_get_first (pre post : pydict) (k : string) (v : json) :
  k ∉ keys pre -> dict_get k (pre ++ (k, v) :: post) = Some v.
Proof.
  induction pre as [|[k' v'] pre IH]; simpl; intros Hk.
  - by rewrite String.eqb_refl.
  - apply not_elem_of_cons in Hk as [Hne Hk].
    apply String.eqb_neq in Hne. rewrite Hne. by apply IH.
Qed.

Lemma access_right_of_first (pre post : pydict) (k : string) (v : json) :
  no_right_key pre -> contains "UserAccessRight" k = true ->
  access_right_of (JObj (pre ++ (k, v) :: post)) = Ok v.
Proof.
  intros Hno Hk. unfold access_right_of. simpl.
  rewrite comprehension_in_keys. unfold keys.
  rewrite map_app, filter_app. fold (keys pre).
  rewrite no_right_key_filter by done. simpl.
  rewrite filter_cons, decide_True by done. simpl.
  rewrite dict_get_first; [done|].
  intros Hin. apply list_elem_of_fmap in Hin as ([k' v'] & -> & Hin).
  eapply Forall_forall in Hno; [|exact Hin]. simpl in *. congruence.
Qed.

(** C6: the access right recorded for a user record is the value of its
    first key that contains "UserAccessRight", in nested and in
    workspace-level rows alike; a record without such a key makes the step
    raise, and with it the whole loop over the user list: no right is made
    up. *)
Theorem access_right_first_matching_key :
  (forall (pre post : pydict) (k : string) (v : json),
     no_right_key pre -> contains "UserAccessRight" k = true ->
     let user := JObj (pre ++ (k, v) :: post) in
     access_right_of user = Ok v /\
     (forall gid object_type object_id acc,
        field "graphId" user = Some gid ->
        fill_user_row object_type object_id acc user
        = Ok (acc ++ [JList [gid; object_id; v; JStr object_type]])) /\
     (forall gid workspace_id user_access users,
        field "graphId" user = Some gid ->
        TransformPowerBI.workspace_user_row workspace_id
          (user_access, users) user
        = Ok (user_access ++
                [JList [gid; workspace_id; v; JStr "workspace"]],
              users ++
                [JObj [("graphId", gid);
                       ("emailAddress",
                        from_option id (JStr "") (field "emailAddress" user));
                       ("displayName",
                        from_option id (JStr "")
                          (field "displayName" user))]]))) /\
  (forall d : pydict,
     no_right_key d ->
     access_right_of (JObj d) = Raise IndexError /\
     (forall object_type object_id acc,
        fill_user_row object_type object_id acc (JObj d) = Raise IndexError) /\
     (forall workspace_id acc,
        exists e,
          TransformPowerBI.workspace_user_row workspace_id acc (JObj d)
          = Raise e) /\
     (forall object_type object_id acc list_of_users,
        JObj d ∈ list_of_users ->
        exists e,
          fill_user_table acc object_type object_id (JList list_of_users)
          = Raise e) /\
     (forall user_access users workspace members,
        field "users" workspace = Some (JList members) ->
        JObj d ∈ members ->
        exists e,
          TransformPowerBI.process_workspace_users user_access users workspace
          = Raise e)).
Proof.
  split.
  - intros pre post k v Hno Hk user.
    assert (Hright : access_right_of user = Ok v)
      by by apply access_right_of_first.
    split; [exact Hright|]. split.
    + intros gid object_type object_id acc Hgid.
      unfold fill_user_row. rewrite Hright. simpl in *. by rewrite Hgid.
    + intros gid workspace_id user_access users Hgid.
      unfold TransformPowerBI.workspace_user_row.
      unfold py_getitem. simpl in Hgid. unfold user at 1 2 3 5.
      rewrite Hgid, Hright. simpl. reflexivity.
  - intros d Hno.
    assert (Hnone : access_right_of (JObj d) = Raise IndexError)
      by by apply access_right_of_none.
    assert (Hrow : forall workspace_id acc, exists e,
               TransformPowerBI.workspace_user_row workspace_id acc (JObj d)
               = Raise e).
    { intros workspace_id [user_access users].
      unfold TransformPowerBI.workspace_user_row.
      destruct (py_getitem (JObj d) "graphId") as [gid|e]; simpl;
        [|by exists e].
      rewrite Hnone. simpl. by exists IndexError. }
    split; [exact Hnone|]. split; [|split; [exact Hrow|split]].
    + intros. unfold fill_user_row. by rewrite Hnone.
    + intros object_type object_id acc list_of_users Hin.
      unfold fill_user_table. simpl.
      eapply for_each_raises; [exact Hin|].
      intros acc'. exists IndexError. unfold fill_user_row. by rewrite Hnone.
    + intros user_access users workspace members Hfield Hin.
      unfold TransformPowerBI.process_workspace_users.
      apply bind_raises. intros workspace_id.
      destruct workspace as [| | | | | |w]; try done. simpl in Hfield.
      unfold py_getitem at 1. rewrite Hfield. simpl.
      eapply for_each_raises; [exact Hin|]. intros acc. apply Hrow.
Qed.

Lemma access_right_first_matching_key_witness :
  access_right_of
    (JObj [("graphId", JStr "U1"); ("xUserAccessRight", JStr "Member");
           ("zUserAccessRight", JStr "Admin")]) = Ok (JStr "Member") /\
  fill_user_row "report" (JStr "R1") []
    (JObj [("graphId", JStr "U1"); ("xUserAccessRight", JStr "Member");
           ("zUserAccessRight", JStr "Admin")])
  = Ok [JList [JStr "U1"; JStr "R1"; JStr "Member"; JStr "report"]] /\
  access_right_of (JObj [("graphId", JStr "U1")]) = Raise IndexError /\
  exists e,
    fill_user_table [] "report" (JStr "R1")
      (JList [JObj [("graphId", JStr "U1")]]) = Raise e.
Proof.
  destruct access_right_first_matching_key as [Hfirst Hnone].
  destruct (Hfirst [("graphId", JStr "U1")]
              [("zUserAccessRight", JStr "Admin")]
              "xUserAccessRight" (JStr "Member"))
    as (Hright & Hrow & _).
  - repeat constructor.
  - reflexivity.
  - destruct (Hnone [("graphId", JStr "U1")]) as (Hraise & _ & _ & Htable & _).
    + repeat constructor.
    + split; [exact Hright|]. split.
      * apply (Hrow (JStr "U1")). reflexivity.
      * split; [exact Hraise|]. apply Htable. by left.
Defined.

(** ** Identity of a child object *)

Lemma element_id_of_neither (o : json) :
  field "id" o = None -> field "objectId" o = None ->
  exists e, element_id_of o = Raise e.
Proof.
  intros Hid Hoid. unfold element_id_of, py_getitem.
  destruct o; simpl in *; try by eexists.
  rewrite Hid, Hoid. by eexists.
Qed.

Lemma fill_dimension_table_neither (o : json) :
  field "id" o = None -> field "objectId" o = None ->
  forall workspace_content users all_data workspace_id object_type,
  exists e,
    fill_dimension_table workspace_content users all_data workspace_id
      object_type o = Raise e.
Proof.
  intros Hid Hoid **. unfold fill_dimension_table.
  destruct (element_id_of_neither o Hid Hoid) as [e ->]. by exists e.
Qed.

(** C5: the identity of a child object is its field [id] when it has one,
    else its field [objectId], and that value is what the containment row
    records. An object with neither makes [fill_dimension_table] raise (a
    [KeyError] on a dictionary), and the exception leaves the whole
    flattening pass, in both copies of the engine: the object is not skipped
    and gets no default. *)
Theorem identity_id_then_objectId :
  (forall o v, field "id" o = Some v -> element_id_of o = Ok v) /\
  (forall o v, field "id" o = None -> field "objectId" o = Some v ->
     element_id_of o = Ok v) /\
  (forall o workspace_content users all_data workspace_id object_type r,
     fill_dimension_table workspace_content users all_data workspace_id
       object_type o = Ok r ->
     exists v,
       element_id_of o = Ok v /\
       fst (fst r)
       = workspace_content ++ [JList [workspace_id; v; JStr object_type]]) /\
  (forall d, dict_get "id" d = None -> dict_get "objectId" d = None ->
     element_id_of (JObj d) = Raise (KeyError (LName "objectId"))) /\
  (forall o, field "id" o = None -> field "objectId" o = None ->
     (forall workspace_content users all_data workspace_id object_type,
        exists e,
          fill_dimension_table workspace_content users all_data workspace_id
            object_type o = Raise e) /\
     (forall scan workspaces d key objects,
        py_iter scan = Ok workspaces -> JObj d ∈ workspaces ->
        (key, JList objects) ∈ d -> key <> "users" -> o ∈ objects ->
        (exists e, TransformPowerBI.flatten scan = Raise e) /\
        (exists e, Transform.flatten scan = Raise e))).
Proof.
  split; [|split; [|split; [|split]]].
  - intros [] v Hid; try done. simpl in Hid.
    unfold element_id_of, py_getitem. by rewrite Hid.
  - intros [] v Hid Hoid; try done. simpl in *.
    unfold element_id_of, py_getitem. by rewrite Hid, Hoid.
  - intros o workspace_content users all_data workspace_id object_type r.
    unfold fill_dimension_table.
    destruct (element_id_of o) as [v|]; simpl; [|done].
    destruct (py_get o _ _) as [nested|]; simpl; [|done].
    destruct (fill_user_table _ _ _ _) as [users'|]; simpl; [|done].
    destruct (dimension_row o) as [row|]; simpl; [|done].
    intros [= <-]. by exists v.
  - intros d Hid Hoid. unfold element_id_of, py_getitem.
    by rewrite Hid, Hoid.
  - intros o Hid Hoid. split; [by apply fill_dimension_table_neither|].
    intros scan workspaces d key objects Hscan Hws Hkey Hne Ho.
    apply String.eqb_neq in Hne. split.
    + assert (Hobjects : forall wc us ad, exists e,
                 TransformPowerBI.process_workspace_objects wc us ad (JObj d)
                 = Raise e).
      { intros wc us ad.
        unfold TransformPowerBI.process_workspace_objects.
        apply bind_raises. intros workspace_id.
        eapply for_each_raises; [exact Hkey|]. intros acc. simpl.
        rewrite Hne.
        eapply for_each_raises; [exact Ho|]. intros [[wc' us'] ad']. simpl.
        by apply fill_dimension_table_neither. }
      unfold TransformPowerBI.flatten. rewrite Hscan. simpl.
      eapply for_each_raises; [exact Hws|]. intros c. simpl.
      eapply for_each_raises; [exact Hkey|]. intros c'. simpl. rewrite Hne.
      destruct (Hobjects (workspace_content c') (users c') (all_data c'))
        as [e ->].
      by exists e.
    + unfold Transform.flatten. rewrite Hscan. simpl.
      eapply for_each_raises; [exact Hws|]. intros c. simpl.
      eapply for_each_raises; [exact Hkey|]. intros c'. simpl. rewrite Hne.
      eapply for_each_raises; [exact Ho|]. intros c''.
      apply bind_raises. intros workspace_id.
      unfold Transform.object_step.
      destruct (fill_dimension_table_neither o Hid Hoid (workspace_content c'')
                  (user_access c'') (all_data c'') workspace_id key)
        as [e ->].
      by exists e.
Qed.

Lemma identity_id_then_objectId_witness :
  element_id_of (JObj [("objectId", JStr "O1"); ("id", JStr "R1")])
  = Ok (JStr "R1") /\
  element_id_of (JObj [("objectId", JStr "O1")]) = Ok (JStr "O1") /\
  exists e,
    TransformPowerBI.flatten
      (JList [JObj [("id", JStr "W1");
                    ("reports", JList [JObj [("name", JStr "Sales")]])]])
    = Raise e.
Proof.
  destruct identity_id_then_objectId as (Hid & Hoid & _ & _ & Hneither).
  split; [by apply Hid|]. split; [by apply Hoid|].
  destruct (Hneither (JObj [("name", JStr "Sales")])) as [_ Hflat];
    [reflexivity | reflexivity |].
  destruct (Hflat
              (JList [JObj [("id", JStr "W1");
                            ("reports", JList [JObj [("name", JStr "Sales")]])]])
              [JObj [("id", JStr "W1");
                     ("reports", JList [JObj [("name", JStr "Sales")]])]]
              [("id", JStr "W1");
               ("reports", JList [JObj [("name", JStr "Sales")]])]
              "reports" [JObj [("name", JStr "Sales")]])
    as [Hraise _].
  - reflexivity.
  - by left.
  - right. by left.
  - discriminate.
  - by left.
  - exact Hraise.
Defined.

(** ** The scenario of the specification *)

Example scenario_flattened :
  TransformPowerBI.flatten (JList [scenario_workspace])
  = Ok {| user_access :=
            [JList [JStr "U1"; JStr "W1"; JStr "Member"; JStr "workspace"]];
          users :=
            [JObj [("graphId", JStr "U1"); ("emailAddress", JStr "");
                   ("displayName", JStr "")];
             JList [JStr "U2"; JStr "R1"; JStr "Viewer"; JStr "report"]];
          workspace_content := [JList [JStr "W1"; JStr "R1"; JStr "report"]];
          all_data :=
            [("report", [JObj [("id", JStr "R1"); ("name", JStr "Sales")]])]
       |}.
Proof. reflexivity. Qed.

(** The same input through [transform.py]: the nested access row is in
    [user_access], the member record is copied as it is, and the object type
    is the container key. *)
Example scenario_flattened_by_transform :
  Transform.flatten (JList [scenario_workspace])
  = Ok {| user_access :=
            [JList [JStr "U1"; JStr "W1"; JStr "Member"; JStr "workspace"];
             JList [JStr "U2"; JStr "R1"; JStr "Viewer"; JStr "reports"]];
          users :=
            [JObj [("graphId", JStr "U1");
                   ("xUserAccessRight", JStr "Member")]];
          workspace_content := [JList [JStr "W1"; JStr "R1"; JStr "reports"]];
          all_data :=
            [("reports", [JObj [("id", JStr "R1"); ("name", JStr "Sales")]])]
       |}.
Proof. reflexivity. Qed.

(** With the accumulators of the scenario the table of users cannot be
    built: its second element is a row, not a dictionary. *)
Example scenario_shape_raises :
  (do c <- TransformPowerBI.flatten (JList [scenario_workspace]);
   shape no_frame no_frame c) = Raise AttributeError.
Proof. reflexivity. Qed.

(** C1, as stated, does not hold: on the scenario [user_access] is not the
    two rows of the claim (the nested row is missing), and [users] does not
    hold a record for U1 and one for U2. *)
Lemma scenario_not_as_stated :
  exists c,
    TransformPowerBI.flatten (JList [scenario_workspace]) = Ok c /\
    user_access c
    <> [JList [JStr "U1"; JStr "W1"; JStr "Member"; JStr "workspace"];
        JList [JStr "U2"; JStr "R1"; JStr "Viewer"; JStr "report"]] /\
    map (field "graphId") (users c) <> [Some (JStr "U1"); Some (JStr "U2")].
Proof.
  eexists. split; [apply scenario_flattened|]. simpl. split; discriminate.
Qed.

(** C1, amended: on the scenario the pass records one user record, that of
    U1 (a nested user gets none); the workspace-level access
    (U1, W1, Member, workspace) is in [user_access]; the access row built for
    the nested user is (U2, R1, Viewer, report), attributed to the child
    object R1 and never to the workspace; [workspace_content] is
    [(W1, R1, report)]; and the dimension data is
    {"report": [{id: "R1", name: "Sales"}]}. *)
Theorem scenario_by_design :
  exists c,
    TransformPowerBI.flatten (JList [scenario_workspace]) = Ok c /\
    filter (fun u => is_dict u = true) (users c)
    = [JObj [("graphId", JStr "U1"); ("emailAddress", JStr "");
             ("displayName", JStr "")]] /\
    JList [JStr "U1"; JStr "W1"; JStr "Member"; JStr "workspace"]
      ∈ user_access c /\
    JList [JStr "U2"; JStr "R1"; JStr "Viewer"; JStr "report"]
      ∈ user_access c ++ users c /\
    (forall right object_type,
       JList [JStr "U2"; JStr "W1"; right; object_type]
         ∉ user_access c ++ users c) /\
    workspace_content c = [JList [JStr "W1"; JStr "R1"; JStr "report"]] /\
    all_data c
    = [("report", [JObj [("id", JStr "R1"); ("name", JStr "Sales")]])].
Proof.
  eexists. split; [apply scenario_flattened|]. simpl.
  split; [reflexivity|]. split; [by left|]. split; [right; right; by left|].
  split; [|done].
  intros right object_type Hin.
  repeat (apply elem_of_cons in Hin as [Hin|Hin]; [discriminate Hin|]).
  by apply elem_of_nil in Hin.
Qed.

(** ** Singular object types *)

Lemma rstrip_last_other (c a : ascii) (s : string) :
  a <> c ->
  rstrip c (s +:+ String a "") = s +:+ String a "".
Proof.
  intros Hne. induction s as [|b s IH]; simpl.
  - apply Ascii.eqb_neq in Hne. by rewrite Hne.
  - rewrite IH. by destruct s.
Qed.

Lemma rstrip_one_trailing (c a : ascii) (s : string) :
  a <> c ->
  rstrip c (s +:+ String a (String c "")) = s +:+ String a "".
Proof.
  intros Hne. induction s as [|b s IH]; simpl.
  - rewrite Ascii.eqb_refl. apply Ascii.eqb_neq in Hne. by rewrite Hne.
  - rewrite IH. by destruct s.
Qed.

Lemma strip_one_trailing_last (c : ascii) (s : string) :
  strip_one_trailing c (s +:+ String c "") = s.
Proof.
  induction s as [|b s IH]; simpl.
  - by rewrite Ascii.eqb_refl.
  - rewrite IH. by destruct s.
Qed.

Lemma strip_one_trailing_other (c a : ascii) (s : string) :
  a <> c ->
  strip_one_trailing c (s +:+ String a "") = s +:+ String a "".
Proof.
  intros Hne. induction s as [|b s IH]; simpl.
  - apply Ascii.eqb_neq in Hne. by rewrite Hne.
  - rewrite IH. by destruct s.
Qed.

(** On a key that ends in no s or in a single s the code and the rule of
    the specification agree. *)
Lemma rstrip_agrees_without_double (c a : ascii) (s : string) :
  a <> c ->
  rstrip c (s +:+ String a "") = strip_one_trailing c (s +:+ String a "") /\
  rstrip c (s +:+ String a (String c ""))
  = strip_one_trailing c (s +:+ String a (String c "")).
Proof.
  intros Hne. split.
  - by rewrite rstrip_last_other, strip_one_trailing_other.
  - rewrite rstrip_one_trailing by done.
    assert (Heq : s +:+ String a (String c "")
                  = (s +:+ String a "") +:+ String c "").
    { clear. induction s as [|b s IH]; [done|].
      change (String b (s +:+ String a (String c ""))
              = String b ((s +:+ String a "") +:+ String c "")).
      by f_equal. }
    by rewrite Heq, strip_one_trailing_last.
Qed.

(** C3, on the code: the object type is the key without any of its trailing
    s characters. "datasets" and "reports" lose their one s, but the children
    of a key "access" get the type "acce" where the rule of the claim gives
    "acces". *)
Theorem object_type_loses_every_trailing_s :
  rstrip "s" "datasets" = "dataset" /\
  rstrip "s" "reports" = "report" /\
  rstrip "s" "dashboard" = "dashboard" /\
  strip_one_trailing "s" "access" = "acces" /\
  rstrip "s" "access" = "acce" /\
  TransformPowerBI.flatten (JList [access_workspace])
  = Ok {| user_access := [];
          users := [];
          workspace_content := [JList [JStr "W1"; JStr "A1"; JStr "acce"]];
          all_data :=
            [("acce", [JObj [("id", JStr "A1"); ("name", JStr "Gate")]])] |}.
Proof. repeat split; reflexivity. Qed.

(** ** Deduplication *)

Lemma keep_first_spec (seen rs : list (list json)) :
  NoDup (pd.keep_first seen rs) /\
  (forall r, r ∈ pd.keep_first seen rs <-> r ∈ rs /\ r ∉ seen) /\
  length (pd.keep_first seen rs) <= length rs.
Proof.
  revert seen; induction rs as [|r rs IH]; intros seen; simpl.
  - split; [constructor|]. split; [|lia].
    intros r. split; [by intros ?%elem_of_nil|]. by intros [?%elem_of_nil _].
  - case_bool_decide as Hseen.
    + destruct (IH seen) as (Hnd & Hmem & Hlen). split; [done|].
      split; [|lia]. intros r'. rewrite Hmem, elem_of_cons.
      split; [intros [? ?]; by auto|].
      intros [[->|?] ?]; done.
    + destruct (IH (r :: seen)) as (Hnd & Hmem & Hlen). split.
      * constructor; [|done]. rewrite Hmem.
        intros [_ Hn]. apply Hn. by left.
      * split; [|simpl; lia]. intros r'.
        rewrite !elem_of_cons, Hmem, not_elem_of_cons.
        split.
        -- intros [->|(? & ? & ?)]; [by auto|by auto].
        -- intros [[->|Hin] Hn]; [by left|].
           destruct (decide (r' = r)) as [->|Hne]; [by left|by right].
Qed.

(** Where [drop_duplicates] is applied no row occurs twice, no row is lost
    and the table does not grow. *)
Lemma drop_duplicates_spec (df df' : DataFrame) :
  pd.drop_duplicates df = Ok df' ->
  columns df' = columns df /\
  NoDup (rows df') /\
  (forall r, r ∈ rows df' <-> r ∈ rows df) /\
  length (rows df') <= length (rows df).
Proof.
  unfold pd.drop_duplicates.
  destruct (forallb _ _); [|done]. intros [= <-]. simpl.
  destruct (keep_first_spec [] (rows df)) as (Hnd & Hmem & Hlen).
  split; [done|]. split; [done|]. split; [|done].
  intros r. rewrite Hmem. split; [by intros [? _]|].
  intros Hin. split; [done|]. by intros ?%elem_of_nil.
Qed.

(** Deduplicating twice changes nothing more. *)
Lemma keep_first_idempotent (rs : list (list json)) :
  pd.keep_first [] (pd.keep_first [] rs) = pd.keep_first [] rs.
Proof.
  assert (Hgen : forall seen l,
             NoDup l -> (forall r, r ∈ l -> r ∉ seen) ->
             pd.keep_first seen l = l).
  { intros seen l Hnd; revert seen.
    induction Hnd as [|r l Hnotin Hnd IH]; intros seen Hfresh; [done|].
    simpl. rewrite bool_decide_eq_false_2 by (apply Hfresh; by left).
    f_equal. apply IH. intros r' Hr'.
    apply not_elem_of_cons. split; [by intros ->|].
    apply Hfresh. by right. }
  destruct (keep_first_spec [] rs) as (Hnd & _ & _).
  apply Hgen; [done|]. intros r _. by intros ?%elem_of_nil.
Qed.

(** C4, on the code: the table [workspace_content] leaves the shaping step
    as it was collected. A workspace with two collections is walked once
    per collection, each object gives one row per walk, and the rows stay
    in the table twice; the tables of users, of access rows and of
    dimensions are deduplicated. *)
Theorem workspace_content_keeps_duplicates :
  exists c out df,
    TransformPowerBI.flatten (JList [two_collections_workspace]) = Ok c /\
    shape no_frame no_frame c = Ok out /\
    ("workspace_content", df) ∈ out /\
    rows df = [[JStr "W1"; JStr "R1"; JStr "report"];
               [JStr "W1"; JStr "D1"; JStr "dataset"];
               [JStr "W1"; JStr "R1"; JStr "report"];
               [JStr "W1"; JStr "D1"; JStr "dataset"]] /\
    ~ NoDup (rows df) /\
    pd.drop_duplicates df
    = Ok {| columns := [LInt 0; LInt 1; LInt 2];
            rows := [[JStr "W1"; JStr "R1"; JStr "report"];
                     [JStr "W1"; JStr "D1"; JStr "dataset"]] |} /\
    ("report",
     {| columns := [LName "id"; LName "name"];
        rows := [[JStr "R1"; JStr "Sales"]] |}) ∈ out.
Proof.
  eexists _, _, _. split; [reflexivity|]. split; [reflexivity|].
  split; [do 3 right; by left|]. split; [reflexivity|].
  split; [|split; [reflexivity|do 5 right; by left]].
  simpl. intros Hnd. apply NoDup_cons in Hnd as [Hnotin _].
  apply Hnotin. right. by left.
Qed.

(** ** The load *)

Section LoadFacts.

Context {datetime Lake : Type}.
Variable strftime : datetime -> string -> string.
Variable now : nat -> datetime.
Variable str_exn : exn -> string.
Variable lake_read : Lake -> string -> string -> result DataFrame.
Variable lake_write :
  Lake -> DataFrame -> string -> string -> option exn * Lake.

(** Unfolding one layer of the monadic code. *)
Ltac open_merged_or_new :=
  unfold merged_or_new, try_except, and_then, lift.
Ltac open_process_table :=
  unfold process_table, try_except, and_then.
Ltac open_process_tables := unfold process_tables.
Ltac open_load_power_bi_data := unfold load_power_bi_data.

#[local] Abbreviation log_all := (log_all strftime now).
#[local] Abbreviation logging := (logging strftime now).
#[local] Abbreviation read_parquet_data :=
  (read_parquet_data strftime now str_exn lake_read).
#[local] Abbreviation write_parquet_data :=
  (write_parquet_data strftime now str_exn lake_write).
#[local] Abbreviation merged_or_new := (merged_or_new strftime now str_exn lake_read).
#[local] Abbreviation process_table :=
  (process_table strftime now str_exn lake_read lake_write).
#[local] Abbreviation process_tables :=
  (process_tables strftime now str_exn lake_read lake_write).
#[local] Abbreviation load_power_bi_data :=
  (load_power_bi_data strftime now str_exn lake_read lake_write).

Implicit Types (st : @load_state Lake) (calls : list log_call).

#[local] Abbreviation logged := (logged strftime now).

Lemma log_all_app (r : runtime) calls1 calls2 :
  log_all r (calls1 ++ calls2) = log_all (log_all r calls1) calls2.
Proof. apply foldl_app. Qed.

Lemma logged_logged st calls1 calls2 lake1 lake2 :
  logged (logged st calls1 lake1) calls2 lake2
  = logged st (calls1 ++ calls2) lake2.
Proof. unfold logged; simpl. by rewrite log_all_app. Qed.

Lemma logged_nil st : logged st [] (lake st) = st.
Proof. by destruct st. Qed.

Lemma logging_logged st c o k t :
  logging c o k t st = (Ok tt, logged st [(c, o, k, t)] (lake st)).
Proof. reflexivity. Qed.

Lemma read_parquet_data_ok st file_system file_name df :
  lake_read (lake st) file_system file_name = Ok df ->
  read_parquet_data file_system file_name st
  = (Ok df, logged st [read_ok_call file_system file_name] (lake st)).
Proof. intros Hread. unfold read_parquet_data. by rewrite Hread. Qed.

Lemma read_parquet_data_error st file_system file_name e :
  lake_read (lake st) file_system file_name = Raise e ->
  read_parquet_data file_system file_name st
  = (Raise e, logged st [read_error_call str_exn file_name e] (lake st)).
Proof. intros Hread. unfold read_parquet_data. by rewrite Hread. Qed.

Lemma write_parquet_data_ok st df file_system file_name lake' :
  lake_write (lake st) df file_system file_name = (None, lake') ->
  write_parquet_data df file_system file_name st
  = (Ok tt, logged st [write_ok_call file_system file_name] lake').
Proof. intros Hwrite. unfold write_parquet_data. by rewrite Hwrite. Qed.

Lemma write_parquet_data_error st df file_system file_name e lake' :
  lake_write (lake st) df file_system file_name = (Some e, lake') ->
  write_parquet_data df file_system file_name st
  = (Raise e, logged st [write_error_call str_exn file_name e] lake').
Proof. intros Hwrite. unfold write_parquet_data. by rewrite Hwrite. Qed.

(** The inner handler catches everything: a table always comes out, the
    lake is not touched, and no call at ERROR level is made. *)
Lemma merged_or_new_total st client kind name dataframe :
  exists df calls,
    merged_or_new client kind name dataframe st
    = (Ok df, logged st calls (lake st)) /\
    Forall (fun call => level_of call <> "ERROR") calls.
Proof.
  open_merged_or_new.
  destruct (lake_read (lake st) "gold" (gold_path kind name))
    as [current|e] eqn:Hgold.
  - rewrite (read_parquet_data_ok _ _ _ _ Hgold).
    destruct (merge_new_rows current dataframe (id_column_of name))
      as [df|e].
    + eexists df, _. split; [reflexivity|]. by repeat constructor.
    + rewrite logging_logged. unfold ret. rewrite logged_logged.
      eexists dataframe, _. split; [reflexivity|]. by repeat constructor.
  - rewrite (read_parquet_data_error _ _ _ _ Hgold).
    rewrite logging_logged. unfold ret. rewrite logged_logged.
    eexists dataframe, _. split; [reflexivity|]. by repeat constructor.
Qed.


Lemma process_table_silver_error st client silver_path kind name e :
  lake_read (lake st) "silver" (silver_path +:+ "/" +:+ name) = Raise e ->
  process_table client silver_path kind name st
  = (Ok tt,
     logged st [read_error_call str_exn (silver_path +:+ "/" +:+ name) e;
                error_call str_exn client name e] (lake st)).
Proof.
  intros Hsilver. open_process_table.
  rewrite (read_parquet_data_error _ _ _ _ Hsilver).
  rewrite logging_logged. by rewrite logged_logged.
Qed.

Lemma process_table_silver_ok st client silver_path kind name dataframe :
  lake_read (lake st) "silver" (silver_path +:+ "/" +:+ name) = Ok dataframe ->
  exists df middle,
    Forall (fun call => level_of call <> "ERROR") middle /\
    forall outcome lake',
      lake_write (lake st) df "gold" (gold_path kind name) = (outcome, lake') ->
      process_table client silver_path kind name st
      = (Ok tt,
         logged st
           (read_ok_call "silver" (silver_path +:+ "/" +:+ name)
              :: middle ++ write_outcome_calls str_exn client kind name outcome)
           lake').
Proof.
  intros Hsilver.
  destruct (merged_or_new_total
              (logged st [read_ok_call "silver" (silver_path +:+ "/" +:+ name)]
                 (lake st))
              client kind name dataframe) as (df & middle & Hmerge & Hlevels).
  exists df, middle. split; [exact Hlevels|].
  intros outcome lake' Hwrite.
  open_process_table.
  rewrite (read_parquet_data_ok _ _ _ _ Hsilver), Hmerge.
  rewrite logged_logged.
  destruct outcome as [e|].
  - rewrite (write_parquet_data_error _ _ _ _ e lake') by exact Hwrite.
    rewrite logging_logged, !logged_logged. simpl.
    by rewrite <- ?app_assoc.
  - rewrite (write_parquet_data_ok _ _ _ _ lake') by exact Hwrite.
    rewrite logging_logged, !logged_logged. simpl.
    by rewrite <- ?app_assoc.
Qed.

(** No prior gold table: the inner handler logs the creation at INFO and the
    silver table is written as it is. *)
Lemma process_table_bootstrap st client silver_path kind name dataframe e
    outcome lake' :
  lake_read (lake st) "silver" (silver_path +:+ "/" +:+ name) = Ok dataframe ->
  lake_read (lake st) "gold" (gold_path kind name) = Raise e ->
  lake_write (lake st) dataframe "gold" (gold_path kind name)
  = (outcome, lake') ->
  process_table client silver_path kind name st
  = (Ok tt,
     logged st
       ([read_ok_call "silver" (silver_path +:+ "/" +:+ name);
         read_error_call str_exn (gold_path kind name) e;
         creating_call client name]
          ++ write_outcome_calls str_exn client kind name outcome)
       lake').
Proof.
  intros Hsilver Hgold Hwrite.
  open_process_table. open_merged_or_new.
  rewrite (read_parquet_data_ok _ _ _ _ Hsilver).
  rewrite (read_parquet_data_error _ _ _ e) by exact Hgold.
  rewrite logging_logged. unfold ret. rewrite !logged_logged.
  destruct outcome as [e'|].
  - rewrite (write_parquet_data_error _ _ _ _ e' lake') by exact Hwrite.
    rewrite logging_logged, !logged_logged. reflexivity.
  - rewrite (write_parquet_data_ok _ _ _ _ lake') by exact Hwrite.
    rewrite logging_logged, !logged_logged. reflexivity.
Qed.

Lemma write_outcome_calls_end client kind name outcome before :
  ends_with_outcome str_exn client name
    (before ++ write_outcome_calls str_exn client kind name outcome).
Proof.
  destruct outcome as [e|]; simpl.
  - exists (before ++ [write_error_call str_exn (gold_path kind name) e]),
      (error_call str_exn client name e).
    split; [by rewrite <- app_assoc | right; by exists e].
  - exists (before ++ [write_ok_call "gold" (gold_path kind name)]),
      (success_call client name).
    split; [by rewrite <- app_assoc | by left].
Qed.

(** One turn of the loop never raises; it starts with the read of the silver
    file and ends with the outcome of its table. *)
Lemma process_table_total st client silver_path kind name :
  exists calls lake',
    process_table client silver_path kind name st
    = (Ok tt, logged st calls lake') /\
    starts_with_read str_exn silver_path name calls /\
    ends_with_outcome str_exn client name calls.
Proof.
  destruct (lake_read (lake st) "silver" (silver_path +:+ "/" +:+ name))
    as [dataframe|e] eqn:Hsilver.
  - destruct (process_table_silver_ok st client silver_path kind name
                dataframe Hsilver) as (df & middle & _ & Hrun).
    destruct (lake_write (lake st) df "gold" (gold_path kind name))
      as [outcome lake'] eqn:Hwrite.
    eexists _, lake'. split; [by apply Hrun|]. split.
    + eexists. left. reflexivity.
    + apply (write_outcome_calls_end _ _ _ _ (_ :: middle)).
  - eexists _, _. split; [by apply process_table_silver_error|]. split.
    + eexists. right. exists e. reflexivity.
    + exists [read_error_call str_exn (silver_path +:+ "/" +:+ name) e],
        (error_call str_exn client name e).
      split; [done|right; by exists e].
Qed.

Lemma for_names_total st client silver_path kind names :
  exists chunks lake',
    for_ names (process_table client silver_path kind) st
    = (Ok tt, logged st (concat chunks) lake') /\
    Forall2 (fun name calls =>
               starts_with_read str_exn silver_path name calls /\
               ends_with_outcome str_exn client name calls) names chunks.
Proof.
  revert st; induction names as [|name names IH]; intros st.
  - exists [], (lake st). split; [|constructor].
    simpl. unfold ret. by rewrite logged_nil.
  - destruct (process_table_total st client silver_path kind name)
      as (calls & lake1 & Hone & Hshape).
    destruct (IH (logged st calls lake1)) as (chunks & lake2 & Hrest & Hall).
    exists (calls :: chunks), lake2. split; [|by constructor].
    simpl. unfold and_then. rewrite Hone, Hrest. by rewrite logged_logged.
Qed.

Lemma process_tables_total st client silver_path
    (tables : list (string * list string)) :
  exists chunks lake',
    process_tables client silver_path tables st
    = (Ok tt, logged st (concat chunks) lake') /\
    Forall2 (fun name calls =>
               starts_with_read str_exn silver_path name calls /\
               ends_with_outcome str_exn client name calls)
      (concat (map snd tables)) chunks.
Proof.
  open_process_tables.
  revert st; induction tables as [|[kind names] tables IH]; intros st.
  - exists [], (lake st). split; [|constructor].
    simpl. unfold ret. by rewrite logged_nil.
  - destruct (for_names_total st client silver_path kind names)
      as (chunks1 & lake1 & Hone & Hall1).
    destruct (IH (logged st (concat chunks1) lake1))
      as (chunks2 & lake2 & Hrest & Hall2).
    exists (chunks1 ++ chunks2), lake2. split.
    + simpl. unfold and_then. simpl. rewrite Hone, Hrest.
      by rewrite logged_logged, concat_app.
    + simpl. by apply Forall2_app.
Qed.

(** C7, amended: an error while reading the silver table or while writing
    the gold table is caught in the turn of that table and logged at ERROR;
    a failure to read the existing gold table is caught by the inner handler,
    logged at INFO as the creation of the table, and the silver table is
    written as the gold table. In every case the turn ends without raising,
    so for every list of tables each table is attempted (its silver file is
    read) and reaches its own outcome, in order. *)
Theorem load_isolates_each_table st client silver_path :
  (forall kind name e,
     lake_read (lake st) "silver" (silver_path +:+ "/" +:+ name) = Raise e ->
     process_table client silver_path kind name st
     = (Ok tt,
        logged st [read_error_call str_exn (silver_path +:+ "/" +:+ name) e;
                   error_call str_exn client name e] (lake st))) /\
  (forall kind name dataframe,
     lake_read (lake st) "silver" (silver_path +:+ "/" +:+ name)
     = Ok dataframe ->
     exists df middle,
       Forall (fun call => level_of call <> "ERROR") middle /\
       forall outcome lake',
         lake_write (lake st) df "gold" (gold_path kind name)
         = (outcome, lake') ->
         process_table client silver_path kind name st
         = (Ok tt,
            logged st
              (read_ok_call "silver" (silver_path +:+ "/" +:+ name)
                 :: middle
                 ++ write_outcome_calls str_exn client kind name outcome)
              lake')) /\
  (forall kind name dataframe e outcome lake',
     lake_read (lake st) "silver" (silver_path +:+ "/" +:+ name)
     = Ok dataframe ->
     lake_read (lake st) "gold" (gold_path kind name) = Raise e ->
     lake_write (lake st) dataframe "gold" (gold_path kind name)
     = (outcome, lake') ->
     process_table client silver_path kind name st
     = (Ok tt,
        logged st
          ([read_ok_call "silver" (silver_path +:+ "/" +:+ name);
            read_error_call str_exn (gold_path kind name) e;
            creating_call client name]
             ++ write_outcome_calls str_exn client kind name outcome)
          lake')) /\
  (forall tables : list (string * list string),
     exists chunks lake',
       process_tables client silver_path tables st
       = (Ok tt, logged st (concat chunks) lake') /\
       Forall2 (fun name calls =>
                  starts_with_read str_exn silver_path name calls /\
                  ends_with_outcome str_exn client name calls)
         (concat (map snd tables)) chunks) /\
  (exists chunks lake',
     load_power_bi_data client st
     = (Ok tt,
        logged {| rt := {| ticks := S (ticks (rt st));
                           logger := logger (rt st) |};
                  lake := lake st |} (concat chunks) lake') /\
     Forall2 (fun name calls =>
                starts_with_read str_exn
                  (strftime (now (ticks (rt st))) "%d%m%Y" +:+ "/" +:+ client)
                  name calls /\
                ends_with_outcome str_exn client name calls)
       ["users"; "workspaces"; "reports"; "datasets"; "user_access";
        "workspace_content"; "activities"; "azure_spend"] chunks).
Proof.
  split; [|split; [|split; [|split]]].
  - intros. by apply process_table_silver_error.
  - intros. by eapply process_table_silver_ok.
  - intros. by eapply process_table_bootstrap.
  - intros. apply process_tables_total.
  - open_load_power_bi_data.
    apply (process_tables_total _ client _ all_tables).
Qed.

End LoadFacts.

(** ** The merge, as the load calls it *)




Lemma load_isolates_each_table_witness :
  process_table test_strftime test_now test_str_exn file_read file_write
    "acme" "today/acme" "dimensions" "users" (fresh_load_state [])
  = (Ok tt,
     logged test_strftime test_now (fresh_load_state [])
       [read_error_call test_str_exn "today/acme/users"
          (RequestException "not found");
        error_call test_str_exn "acme" "users" (RequestException "not found")]
       []) /\
  process_table test_strftime test_now test_str_exn file_read file_write
    "acme" "today/acme" "dimensions" "users" (fresh_load_state bootstrap_lake)
  = (Ok tt,
     logged test_strftime test_now (fresh_load_state bootstrap_lake)
       [read_ok_call "silver" "today/acme/users";
        read_error_call test_str_exn "dimensions/dim_users"
          (RequestException "not found");
        creating_call "acme" "users";
        write_ok_call "gold" "dimensions/dim_users";
        success_call "acme" "users"]
       (("gold", "dimensions/dim_users",
         {| columns := [LName "graphId"]; rows := [[JStr "U1"]] |})
          :: bootstrap_lake)).
Proof.
  split.
  - destruct (load_isolates_each_table test_strftime test_now test_str_exn
                file_read file_write (fresh_load_state []) "acme" "today/acme")
      as (Hsilver & _).
    apply (Hsilver "dimensions" "users" (RequestException "not found")).
    reflexivity.
  - destruct (load_isolates_each_table test_strftime test_now test_str_exn
                file_read file_write (fresh_load_state bootstrap_lake)
                "acme" "today/acme")
      as (_ & _ & Hboot & _).
    apply (Hboot "dimensions" "users"
             {| columns := [LName "graphId"]; rows := [[JStr "U1"]] |}
             (RequestException "not found") None
             (("gold", "dimensions/dim_users",
               {| columns := [LName "graphId"]; rows := [[JStr "U1"]] |})
                :: bootstrap_lake));
      reflexivity.
Defined.

(** With nothing in the lake every silver read fails, and the load still
    goes through all eight tables, each with its own entry at ERROR. *)
Example load_attempts_every_table :
  map (fun e => (e.(kind), e.(text)))
    (filter (fun e => e.(operation) = "powerbi_load")
       (logging_rows
          (logger
             (rt (snd (load_power_bi_data test_strftime test_now test_str_exn
                         file_read file_write "acme"
                         (fresh_load_state [])))))))
  = [("ERROR", "Error processing users table: not found");
     ("ERROR", "Error processing workspaces table: not found");
     ("ERROR", "Error processing reports table: not found");
     ("ERROR", "Error processing datasets table: not found");
     ("ERROR", "Error processing user_access table: not found");
     ("ERROR", "Error processing workspace_content table: not found");
     ("ERROR", "Error processing activities table: not found");
     ("ERROR", "Error processing azure_spend table: not found")].
Proof. reflexivity. Qed.

(** C7, as stated, does not hold: the gold table of users is there and
    cannot be read, and the load logs nothing at ERROR level for it; it logs
    the creation of the table at INFO, writes the silver table over it and
    reports success. *)
Lemma gold_read_error_is_not_logged_at_error :
  unreadable_gold_read stale_gold_lake "gold" (gold_path "dimensions" "users")
  = Raise (RequestException "corrupt file") /\
  let st' :=
    snd (process_table test_strftime test_now test_str_exn
           unreadable_gold_read file_write "acme" "today/acme" "dimensions"
           "users" (fresh_load_state stale_gold_lake)) in
  Forall (fun e => e.(kind) <> "ERROR") (logging_rows (logger (rt st'))) /\
  map (fun e => (e.(kind), e.(text))) (logging_rows (logger (rt st')))
  = [("Read data", "Parquet data read from today/acme/users in silver");
     ("Read data",
      "Error reading parquet data from dimensions/dim_users: corrupt file");
     ("INFO", "Creating new table: users");
     ("Write data", "Parquet data written to dimensions/dim_users in gold");
     ("INFO", "Successfully processed users table")] /\
  head (lake st')
  = Some ("gold", "dimensions/dim_users",
          {| columns := [LName "graphId"]; rows := [[JStr "U1"]] |}).
Proof.
  split; [reflexivity|]. simpl. split; [|split; reflexivity].
  repeat constructor; discriminate.
Qed.

(** ** The workspace pull *)

Section ApiFacts.

Context {datetime Net : Type}.
Variable strftime : datetime -> string -> string.
Variable now : nat -> datetime.
Variable str_exn : exn -> string.
Variable make_request :
  Net -> string -> string -> result json * Net * list log_call.

(** One level of the recursion, and names for the two states at which the
    recursive calls start. *)
Ltac open_get_workspaces :=
  cbn [get_workspaces]; unfold try_except, and_then, request, lift.
Ltac name_recursive_states loc st3 sh3 :=
  match goal with
  | |- context [get_workspaces _ _ _ _ _ _ _ _ default_list ?s] =>
      set (st3 := s)
  end;
  match goal with
  | |- context [get_workspaces _ _ _ _ _ _ _ _ (heap_list loc) ?s] =>
      set (sh3 := s)
  end.

#[local] Abbreviation get_workspaces :=
  (get_workspaces strftime now str_exn make_request).

Implicit Types (st : @api_state Net).

(** A call with the default list and a call with a list of the caller's own
    see the same answers when they start from the same session: they end
    alike, and both lists grow by the same rows. *)
Lemma get_workspaces_default_vs_own depth client top skip st sh loc :
  net st = net sh -> loc < length (heap sh) ->
  exists pages,
    let run_default := get_workspaces depth client top skip default_list st in
    let run_own := get_workspaces depth client top skip (heap_list loc) sh in
    default_data (snd run_default) = default_data st ++ pages /\
    deref (heap_list loc) (snd run_own) = deref (heap_list loc) sh ++ pages /\
    ((fst run_default = Ok default_list /\ fst run_own = Ok (heap_list loc)) \/
     (exists e, fst run_default = Raise e /\ fst run_own = Raise e)).
Proof.
  revert skip st sh.
  induction depth as [|depth IH]; intros skip st sh Hnet Hloc.
  - exists []. simpl. rewrite !app_nil_r. split; [done|]. split; [done|].
    right. by exists RecursionError.
  - open_get_workspaces.
    rewrite <- Hnet.
    destruct (make_request (net st) "GET" _) as [[answer net'] calls].
    destruct answer as [body|e]; cycle 1.
    { exists []. simpl. rewrite !app_nil_r. split; [done|]. split; [done|].
      right. by exists e. }
    destruct (py_get body (JStr "value") (JList [])) as [result|e]; cycle 1.
    { exists []. simpl. rewrite !app_nil_r. split; [done|]. split; [done|].
      right. by exists e. }
    destruct (py_iter result) as [items|e]; cycle 1.
    { exists []. simpl. rewrite !app_nil_r. split; [done|]. split; [done|].
      right. by exists e. }
    unfold extend.
    destruct (py_len result) as [n|e]; cycle 1.
    { exists items. simpl. split; [done|]. split.
      - by rewrite list_lookup_insert_eq.
      - right. by exists e. }
    unfold len_of, api_log.
    destruct (Z.of_nat n =? top)%Z.
    + name_recursive_states loc st3 sh3.
      destruct (IH (skip + top)%Z st3 sh3) as (pages & Hd & Hh & Hres).
      { done. }
      { subst sh3. simpl. by rewrite length_insert. }
      exists (items ++ pages). simpl in Hd, Hh |- *.
      destruct (get_workspaces _ _ _ _ default_list st3)
        as [[r|e] s] eqn:Hrun_d;
        destruct (get_workspaces _ _ _ _ (heap_list loc) sh3)
        as [[r'|e'] s'] eqn:Hrun_h; simpl in *.
      * split; [by rewrite Hd, app_assoc|]. split.
        -- rewrite Hh. subst sh3. simpl.
           by rewrite list_lookup_insert_eq, app_assoc.
        -- destruct Hres as [[? ?]|(e & ? & ?)]; [by left|done].
      * destruct Hres as [[? ?]|(e & ? & ?)]; done.
      * destruct Hres as [[? ?]|(e0 & ? & ?)]; done.
      * split; [by rewrite Hd, app_assoc|]. split.
        -- rewrite Hh. subst sh3. simpl.
           by rewrite list_lookup_insert_eq, app_assoc.
        -- right. destruct Hres as [[? ?]|(e0 & [= ->] & [= ->])]; [done|].
           by exists e0.
    + exists items. simpl. split; [done|]. split.
      * by rewrite list_lookup_insert_eq.
      * by left.
Qed.

(** C8: two successive calls that omit [data] both work on the one default
    list and both return it. What the second call returns is what the first
    returned followed by the rows of the second call's own pages, which are
    exactly what the same call returns when it is handed a fresh empty list;
    so after a first call that fetched something, the same call gives
    another answer. *)
Theorem get_workspaces_shares_default_list
    depth1 depth2 client top1 skip1 top2 skip2 st0 st1 st2 r1 r2 :
  get_workspaces depth1 client top1 skip1 default_list st0 = (Ok r1, st1) ->
  get_workspaces depth2 client top2 skip2 default_list st1 = (Ok r2, st2) ->
  r1 = default_list /\ r2 = default_list /\
  exists pages,
    deref r2 st2 = deref r1 st1 ++ pages /\
    (forall fresh st1',
       new_list st1 = (Ok fresh, st1') ->
       exists st2',
         get_workspaces depth2 client top2 skip2 fresh st1'
         = (Ok fresh, st2') /\
         deref fresh st2' = pages) /\
    (deref r1 st1 <> [] -> deref r2 st2 <> pages).
Proof.
  intros Hfirst Hsecond.
  assert (Hr1 : r1 = default_list).
  { destruct (get_workspaces_default_vs_own depth1 client top1 skip1 st0
                {| api_rt := api_rt st0; net := net st0;
                   default_data := default_data st0; heap := [[]] |} 0)
      as (pages & _ & _ & Hres); [done|simpl; lia|].
    simpl in Hres. rewrite Hfirst in Hres. simpl in Hres.
    destruct Hres as [[[= ->] _]|(e & [=] & _)]. done. }
  set (own := {| api_rt := api_rt st1; net := net st1;
                 default_data := default_data st1;
                 heap := heap st1 ++ [[]] |}).
  destruct (get_workspaces_default_vs_own depth2 client top2 skip2 st1 own
              (length (heap st1)))
    as (pages & Hd & Hh & Hres);
    [done|subst own; simpl; rewrite length_app; simpl; lia|].
  simpl in Hd, Hh, Hres. rewrite Hsecond in Hd, Hres. simpl in Hd, Hres.
  destruct Hres as [[[= ->] Hown]|(e & [=] & _)].
  subst r1. split; [done|]. split; [done|].
  exists pages. simpl. split; [exact Hd|]. split.
  - intros fresh st1' [= <- <-]. fold own.
    destruct (get_workspaces _ _ _ _ _ own) as [r s].
    simpl in Hown, Hh. subst r. exists s. split; [done|].
    unfold deref. rewrite Hh. subst own. simpl.
    by rewrite lookup_app_r, Nat.sub_diag by lia.
  - intros Hne Heq. rewrite Hd in Heq.
    apply (f_equal length) in Heq. rewrite length_app in Heq.
    destruct (default_data st1); [done|]. simpl in Heq. lia.
Qed.

End ApiFacts.

Lemma get_workspaces_shares_default_list_witness :
  let first := pull_once fresh_api_state in
  let second := pull_once (snd first) in
  deref default_list (snd first) = [JObj [("id", JStr "W1")]] /\
  deref default_list (snd second)
  = [JObj [("id", JStr "W1")]; JObj [("id", JStr "W1")]] /\
  exists pages,
    deref default_list (snd second)
    = deref default_list (snd first) ++ pages /\
    deref default_list (snd second) <> pages.
Proof.
  intros first second.
  split; [reflexivity|]. split; [reflexivity|].
  destruct (get_workspaces_shares_default_list test_strftime test_now
              test_str_exn one_workspace_service 1000 1000 "acme"
              500%Z 0%Z 500%Z 0%Z fresh_api_state (snd first) (snd second)
              default_list default_list)
    as (_ & _ & pages & Hprefix & _ & Hdiffers).
  - reflexivity.
  - reflexivity.
  - exists pages. split; [exact Hprefix|]. apply Hdiffers. discriminate.
Defined.

(** * Further properties of the code *)

(** ** Loops *)

Lemma for_each_invariant {A S} (P : S -> Prop) (body : S -> A -> result S)
    (xs : list A) :
  (forall acc x acc', x ∈ xs -> P acc -> body acc x = Ok acc' -> P acc') ->
  forall acc acc', P acc -> for_each xs body acc = Ok acc' -> P acc'.
Proof.
  induction xs as [|x xs IH]; intros Hstep acc acc' HP; simpl.
  - by intros [= <-].
  - destruct (body acc x) as [acc1|e] eqn:Hbody; simpl; [|done].
    apply IH.
    + intros a y a' Hy. apply Hstep. by right.
    + eapply Hstep; [by left|exact HP|exact Hbody].
Qed.

(** ** The flattening pass: what each step adds *)

Lemma fill_user_row_adds object_type object_id acc user acc' :
  fill_user_row object_type object_id acc user = Ok acc' ->
  exists row, acc' = acc ++ [row].
Proof.
  unfold fill_user_row.
  destruct (access_right_of user) as [right|]; simpl; [|done].
  destruct (py_getitem user "graphId") as [gid|]; simpl; [|done].
  intros [= <-]. by eexists.
Qed.

Lemma fill_dimension_table_adds wc us ad workspace_id object_type o wc' us' ad' :
  fill_dimension_table wc us ad workspace_id object_type o = Ok (wc', us', ad') ->
  exists element_id row,
    element_id_of o = Ok element_id /\
    dimension_row o = Ok row /\
    wc' = wc ++ [JList [workspace_id; element_id; JStr object_type]] /\
    ad' = append_dimension object_type row ad.
Proof.
  unfold fill_dimension_table.
  destruct (element_id_of o) as [v|]; simpl; [|done].
  destruct (py_get o _ _) as [nested|]; simpl; [|done].
  destruct (fill_user_table _ _ _ _) as [users'|]; simpl; [|done].
  destruct (dimension_row o) as [row|]; simpl; [|done].
  intros [= <- <- <-]. by exists v, row.
Qed.

Lemma objects_loop_count workspace_id key objects wc us ad wc' us' ad' :
  for_each objects (TransformPowerBI.object_step workspace_id key) (wc, us, ad)
  = Ok (wc', us', ad') ->
  length wc' = length wc + length objects.
Proof.
  revert wc us ad.
  induction objects as [|o objects IH]; intros wc us ad; simpl.
  - intros [= <- _ _]. lia.
  - destruct (fill_dimension_table wc us ad workspace_id (rstrip "s" key) o)
      as [[[wc1 us1] ad1]|] eqn:Hfill; simpl; [|done].
    intros Hrest%IH.
    apply fill_dimension_table_adds in Hfill as (v & row & _ & _ & -> & _).
    rewrite length_app in Hrest. simpl in Hrest. lia.
Qed.

Lemma objects_of_keys_count workspace_id (items : pydict) wc us ad wc' us' ad' :
  for_each items (TransformPowerBI.objects_of_key workspace_id) (wc, us, ad)
  = Ok (wc', us', ad') ->
  length wc' = length wc + total_objects items.
Proof.
  unfold total_objects. revert wc us ad.
  induction items as [|[key value] items IH]; intros wc us ad.
  - simpl. intros [= <- _ _]. lia.
  - cbn [for_each TransformPowerBI.objects_of_key object_lists].
    destruct value as [| | | | |objects|]; try (simpl; by apply IH).
    destruct (String.eqb key "users"); [simpl; by apply IH|].
    destruct (for_each objects _ _) as [[[wc1 us1] ad1]|] eqn:Hloop;
      simpl; [|done].
    intros Hrest%IH. apply objects_loop_count in Hloop.
    rewrite length_app. lia.
Qed.

Lemma process_workspace_objects_count wc us ad (d : pydict) wc' us' ad' :
  TransformPowerBI.process_workspace_objects wc us ad (JObj d)
  = Ok (wc', us', ad') ->
  length wc' = length wc + total_objects d.
Proof.
  unfold TransformPowerBI.process_workspace_objects.
  destruct (py_getitem (JObj d) "id") as [workspace_id|]; simpl; [|done].
  apply objects_of_keys_count.
Qed.

Lemma workspace_user_row_adds workspace_id ua us user ua' us' :
  TransformPowerBI.workspace_user_row workspace_id (ua, us) user
  = Ok (ua', us') ->
  exists gid right,
    field "graphId" user = Some gid /\
    access_right_of user = Ok right /\
    ua' = ua ++ [JList [gid; workspace_id; right; JStr "workspace"]] /\
    us' = us ++ [user_record user].
Proof.
  unfold TransformPowerBI.workspace_user_row, user_record, py_getitem, py_get.
  destruct user as [| | | | | |d]; simpl; try done.
  destruct (dict_get "graphId" d) as [gid|]; simpl; [|done].
  destruct (access_right_of (JObj d)) as [right|]; simpl; [|done].
  intros [= <- <-]. by exists gid, right.
Qed.

Lemma workspace_users_loop workspace_id members ua us ua' us' :
  for_each members (TransformPowerBI.workspace_user_row workspace_id) (ua, us)
  = Ok (ua', us') ->
  us' = us ++ map user_record members /\
  exists rows,
    ua' = ua ++ rows /\
    Forall2 (fun user row =>
               exists gid right,
                 field "graphId" user = Some gid /\
                 access_right_of user = Ok right /\
                 row = JList [gid; workspace_id; right; JStr "workspace"])
      members rows.
Proof.
  revert ua us.
  induction members as [|user members IH]; intros ua us; cbn [for_each].
  - intros [= <- <-]. rewrite app_nil_r. split; [done|].
    exists []. by rewrite app_nil_r.
  - destruct (TransformPowerBI.workspace_user_row workspace_id (ua, us) user)
      as [[ua1 us1]|] eqn:Hrow; cbn [bind]; [|done].
    intros (-> & rows & -> & Hrows)%IH.
    apply workspace_user_row_adds in Hrow
      as (gid & right & Hgid & Hright & -> & ->).
    split; [by rewrite <- app_assoc|].
    eexists (_ :: rows). rewrite <- app_assoc. split; [done|].
    constructor; [|done]. by exists gid, right.
Qed.

(** X1: [process_workspace_users] keeps, for every member of the workspace
    and in their order, one record of exactly the three fields graphId,
    emailAddress and displayName (the last two empty when the member has
    none), and one access row (member, workspace id, right, "workspace"). *)
Theorem process_workspace_users_adds_one_per_member
    ua us workspace ua' us' :
  TransformPowerBI.process_workspace_users ua us workspace = Ok (ua', us') ->
  exists workspace_id users_value members rows,
    field "id" workspace = Some workspace_id /\
    field "users" workspace = Some users_value /\
    py_iter users_value = Ok members /\
    us' = us ++ map user_record members /\
    ua' = ua ++ rows /\
    Forall2 (fun user row =>
               exists gid right,
                 field "graphId" user = Some gid /\
                 access_right_of user = Ok right /\
                 row = JList [gid; workspace_id; right; JStr "workspace"])
      members rows.
Proof.
  unfold TransformPowerBI.process_workspace_users, py_getitem.
  destruct workspace as [| | | | | |d]; simpl; try done.
  destruct (dict_get "id" d) as [workspace_id|]; simpl; [|done].
  destruct (dict_get "users" d) as [users_value|]; simpl; [|done].
  destruct (py_iter users_value) as [members|] eqn:Hiter; simpl; [|done].
  intros (-> & rows & -> & Hrows)%workspace_users_loop.
  by exists workspace_id, users_value, members, rows.
Qed.

Lemma process_workspace_users_adds_one_per_member_witness :
  exists rows,
    TransformPowerBI.process_workspace_users [] [] scenario_workspace
    = Ok (rows,
          [JObj [("graphId", JStr "U1"); ("emailAddress", JStr "");
                 ("displayName", JStr "")]]) /\
    length rows = 1.
Proof.
  destruct (process_workspace_users_adds_one_per_member [] [] scenario_workspace
              [JList [JStr "U1"; JStr "W1"; JStr "Member"; JStr "workspace"]]
              [JObj [("graphId", JStr "U1"); ("emailAddress", JStr "");
                     ("displayName", JStr "")]])
    as (wid & uv & members & rows & _ & _ & _ & _ & Hrows & _).
  - reflexivity.
  - exists rows. simpl in Hrows. subst rows. split; reflexivity.
Defined.

Lemma key_steps_count (d items : pydict) c c' :
  for_each items (TransformPowerBI.key_step (JObj d)) c = Ok c' ->
  length (workspace_content c')
  = length (workspace_content c) + length (object_lists items) * total_objects d.
Proof.
  revert c. induction items as [|[key value] items IH]; intros c.
  - simpl. intros [= <-]. lia.
  - cbn [for_each TransformPowerBI.key_step object_lists].
    destruct value as [| | | | |objects|]; try (simpl; by apply IH).
    cbn [is_list negb].
    destruct (String.eqb key "users").
    + destruct (TransformPowerBI.process_workspace_users _ _ _) as [[ua us]|];
        cbn [bind]; [|done].
      intros Hrest%IH. simpl in Hrest. exact Hrest.
    + destruct (TransformPowerBI.process_workspace_objects _ _ _ _)
        as [[[wc us] ad]|] eqn:Hobjects; cbn [bind]; [|done].
      intros Hrest%IH. simpl in Hrest.
      apply process_workspace_objects_count in Hobjects. simpl. lia.
Qed.

Lemma transform_objects_loop_count workspace objects key c c' :
  for_each objects
    (fun c0 object_ =>
       do workspace_id <- py_getitem workspace "id";
       Transform.object_step workspace_id key c0 object_) c = Ok c' ->
  length (workspace_content c')
  = length (workspace_content c) + length objects.
Proof.
  revert c. induction objects as [|o objects IH]; intros c; cbn [for_each].
  - intros [= <-]. simpl. lia.
  - destruct (py_getitem workspace "id") as [workspace_id|]; cbn [bind];
      [|done].
    unfold Transform.object_step at 1.
    destruct (fill_dimension_table _ _ _ _ _ _) as [[[wc ua] ad]|] eqn:Hfill;
      cbn [bind]; [|done].
    intros Hrest%IH. simpl in Hrest.
    apply fill_dimension_table_adds in Hfill as (v & row & _ & _ & -> & _).
    rewrite length_app in Hrest. simpl in *. lia.
Qed.

Lemma transform_key_steps_count workspace (items : pydict) c c' :
  for_each items (Transform.key_step workspace) c = Ok c' ->
  length (workspace_content c')
  = length (workspace_content c) + total_objects items.
Proof.
  unfold total_objects.
  revert c. induction items as [|[key value] items IH]; intros c.
  - simpl. intros [= <-]. lia.
  - cbn [for_each Transform.key_step object_lists].
    destruct value as [| | | | |objects|]; try (simpl; by apply IH).
    destruct (String.eqb key "users").
    + destruct (py_getitem workspace "id") as [workspace_id|]; cbn [bind];
        [|done].
      destruct (fill_user_table _ _ _ _) as [ua|]; cbn [bind]; [|done].
      intros Hrest%IH. simpl in Hrest. exact Hrest.
    + destruct (for_each objects _ c) as [c1|] eqn:Hloop; cbn [bind]; [|done].
      intros Hrest%IH. apply transform_objects_loop_count in Hloop.
      simpl. rewrite length_app. lia.
Qed.

(** X2: in [transform_powerbi.py] a workspace gives one containment row per
    object for every collection it has: [process_workspace_objects] walks all
    collections and is called once per collection, so a workspace with [m]
    collections holding [n] objects in all adds [m * n] rows. In [transform.py]
    the same workspace adds [n] rows. *)
Theorem workspace_rows_per_collection (d : pydict) c c' :
  (TransformPowerBI.workspace_step c (JObj d) = Ok c' ->
   length (workspace_content c')
   = length (workspace_content c)
     + length (object_lists d) * total_objects d) /\
  (Transform.workspace_step c (JObj d) = Ok c' ->
   length (workspace_content c')
   = length (workspace_content c) + total_objects d).
Proof.
  split.
  - apply key_steps_count.
  - apply transform_key_steps_count.
Qed.

Lemma workspace_rows_per_collection_witness :
  exists c c',
    TransformPowerBI.workspace_step no_collections two_collections_workspace
    = Ok c /\
    Transform.workspace_step no_collections two_collections_workspace
    = Ok c' /\
    length (workspace_content c) = 4 /\
    length (workspace_content c') = 2.
Proof.
  eexists _, _. split; [reflexivity|]. split; [reflexivity|].
  split.
  - match goal with
    | |- length (workspace_content ?c) = _ =>
        destruct (workspace_rows_per_collection
                    [("id", JStr "W1");
                     ("reports",
                      JList [JObj [("id", JStr "R1"); ("name", JStr "Sales")]]);
                     ("datasets",
                      JList [JObj [("id", JStr "D1"); ("name", JStr "Orders")]])]
                    no_collections c) as [Hcount _]
    end.
    apply Hcount. reflexivity.
  - reflexivity.
Defined.

(** ** The flattening pass: what its accumulators hold *)

Lemma process_workspace_users_rows ua us workspace ua' us' :
  TransformPowerBI.process_workspace_users ua us workspace = Ok (ua', us') ->
  exists rows, ua' = ua ++ rows /\ Forall is_workspace_row rows.
Proof.
  unfold TransformPowerBI.process_workspace_users.
  destruct (py_getitem workspace "id") as [workspace_id|]; cbn [bind]; [|done].
  destruct (py_getitem workspace "users") as [users_value|]; cbn [bind];
    [|done].
  destruct (py_iter users_value) as [members|]; cbn [bind]; [|done].
  intros (_ & rows & -> & Hrows)%workspace_users_loop.
  exists rows. split; [done|].
  induction Hrows as [|user row members rows (gid & right & _ & _ & ->) _ IH];
    constructor; [|done].
  by exists gid, workspace_id, right.
Qed.

Lemma key_step_user_access workspace c item c' :
  TransformPowerBI.key_step workspace c item = Ok c' ->
  Forall is_workspace_row (user_access c) ->
  Forall is_workspace_row (user_access c').
Proof.
  destruct item as [key value]. cbn [TransformPowerBI.key_step].
  destruct (negb (is_list value)); [by intros [= <-]|].
  destruct (String.eqb key "users").
  - destruct (TransformPowerBI.process_workspace_users _ _ _) as [[ua us]|]
      eqn:Husers; cbn [bind]; [|done].
    intros [= <-] Hall. simpl.
    apply process_workspace_users_rows in Husers as (rows & -> & Hrows).
    apply Forall_app. split; [done|exact Hrows].
  - destruct (TransformPowerBI.process_workspace_objects _ _ _ _)
      as [[[wc us] ad]|]; cbn [bind]; [|done].
    by intros [= <-].
Qed.

(** X3: after the pass of [transform_powerbi.py] every row of [user_access]
    is a workspace-level row: its object type is "workspace". The access of a
    user nested in a report or a dataset never gets there. *)
Theorem user_access_holds_workspace_rows_only scan c :
  TransformPowerBI.flatten scan = Ok c ->
  Forall is_workspace_row (user_access c).
Proof.
  unfold TransformPowerBI.flatten.
  destruct (py_iter scan) as [workspaces|]; cbn [bind]; [|done].
  apply (for_each_invariant (fun c0 => Forall is_workspace_row (user_access c0)));
    [|constructor].
  intros c0 workspace c1 _ Hc0.
  destruct workspace as [| | | | | |d]; try done. cbn [TransformPowerBI.workspace_step].
  apply (for_each_invariant
           (fun c2 => Forall is_workspace_row (user_access c2))); [|done].
  intros c2 item c3 _ Hc2 Hstep. by eapply key_step_user_access.
Qed.

Lemma user_access_holds_workspace_rows_only_witness :
  exists c,
    TransformPowerBI.flatten (JList [scenario_workspace]) = Ok c /\
    Forall is_workspace_row (user_access c).
Proof.
  eexists. split; [reflexivity|].
  apply (user_access_holds_workspace_rows_only (JList [scenario_workspace])).
  reflexivity.
Defined.

(** ** Singular names *)

Lemma last_char_rstrip (c : ascii) (s : string) :
  last_char (rstrip c s) <> Some c.
Proof.
  induction s as [|a s IH]; simpl; [done|].
  destruct (rstrip c s) as [|b r] eqn:Hr.
  - destruct (Ascii.eqb a c) eqn:Hac; simpl; [done|].
    apply Ascii.eqb_neq in Hac. congruence.
  - exact IH.
Qed.

Lemma rstrip_decompose (c : ascii) (s : string) :
  exists n, s = rstrip c s +:+ repeat_char c n.
Proof.
  induction s as [|a s [n IH]]; simpl.
  - by exists 0.
  - destruct (rstrip c s) as [|b r] eqn:Hr.
    + destruct (Ascii.eqb a c) eqn:Hac.
      * apply Ascii.eqb_eq in Hac as ->. exists (S n). simpl. by rewrite IH at 1.
      * exists n. simpl. by rewrite IH at 1.
    + exists n. simpl. by rewrite IH at 1.
Qed.

Lemma rstrip_repeat_char (c : ascii) (n : nat) :
  rstrip c (repeat_char c n) = "".
Proof.
  induction n as [|n IH]; simpl; [done|].
  by rewrite IH, Ascii.eqb_refl.
Qed.

Lemma rstrip_of_stem (c : ascii) (t : string) (n : nat) :
  last_char t <> Some c -> rstrip c (t +:+ repeat_char c n) = t.
Proof.
  induction t as [|a t IH]; intros Hlast.
  - apply rstrip_repeat_char.
  - change (rstrip c (String a t +:+ repeat_char c n))
      with (match rstrip c (t +:+ repeat_char c n) with
            | "" => if Ascii.eqb a c then "" else String a ""
            | r => String a r
            end).
    destruct t as [|b t].
    + change ("" +:+ repeat_char c n) with (repeat_char c n).
      rewrite rstrip_repeat_char.
      destruct (Ascii.eqb a c) eqn:Hac; [|done].
      apply Ascii.eqb_eq in Hac as ->. by destruct Hlast.
    + rewrite IH; [done|]. exact Hlast.
Qed.

(** X4: the object type that [process_workspace_objects] derives from a key
    is the one string that does not end in s and from which the key arises
    by appending s some number of times. In particular the type never ends
    in s, and a key that is itself a type is left as it is. *)
Theorem object_type_is_the_stem (key t : string) :
  rstrip "s" key = t <->
  (exists n, key = t +:+ repeat_char "s" n) /\ last_char t <> Some "s"%char.
Proof.
  split.
  - intros <-. split; [apply rstrip_decompose|apply last_char_rstrip].
  - intros [[n ->] Hlast]. by apply rstrip_of_stem.
Qed.

Lemma object_type_is_the_stem_witness :
  rstrip "s" "addresss" = "addre" /\
  exists n, "glass" = rstrip "s" "glass" +:+ repeat_char "s" n.
Proof.
  split.
  - apply (object_type_is_the_stem "addresss" "addre").
    split; [by exists 3 | discriminate].
  - apply (object_type_is_the_stem "glass" (rstrip "s" "glass")). reflexivity.
Defined.

(** ** The dimension data *)


Lemma append_dimension_keys t row (ad : list (string * list json)) :
  map fst (append_dimension t row ad)
  = if decide (t ∈ map fst ad) then map fst ad else map fst ad ++ [t].
Proof.
  induction ad as [|[t' rows] ad IH].
  - destruct (decide _) as [Hin|]; [|reflexivity].
    simpl in Hin. by apply elem_of_nil in Hin.
  - simpl. destruct (String.eqb t t') eqn:Ht.
    + apply String.eqb_eq in Ht as ->. simpl.
      destruct (decide (t' ∈ t' :: map fst ad)) as [|Hnotin]; [reflexivity|].
      destruct Hnotin. by left.
    + apply String.eqb_neq in Ht. simpl. rewrite IH.
      destruct (decide (t ∈ map fst ad)) as [Hin|Hnotin];
        destruct (decide (t ∈ t' :: map fst ad)) as [Hin'|Hnotin'];
        try reflexivity.
      * destruct Hnotin'. by right.
      * apply elem_of_cons in Hin' as [?|?]; done.
Qed.

Lemma append_dimension_ok t row ad :
  last_char t <> Some "s"%char -> is_string_record row ->
  dimension_data_ok ad -> dimension_data_ok (append_dimension t row ad).
Proof.
  intros Ht Hrow [Hnd Hall]. split.
  - rewrite append_dimension_keys. destruct (decide _) as [|Hnotin]; [done|].
    apply NoDup_app. split; [done|]. split; [|apply NoDup_singleton].
    intros x Hx ->%list_elem_of_singleton. done.
  - clear Hnd. induction Hall as [|[t' rows] ad (Hkey & Hne & Hrows) Hall IH];
      simpl.
    + repeat constructor; done.
    + destruct (String.eqb t t'); constructor; try done.
      simpl in *. split; [done|]. split; [by destruct rows|].
      apply Forall_app. split; [done|]. by constructor.
Qed.

Lemma dimension_row_is_string_record o row :
  dimension_row o = Ok row -> is_string_record row.
Proof.
  destruct o as [| | | | | |d]; simpl; try done.
  intros [= <-]. eexists. split; [done|].
  apply Forall_forall. by intros kv [? _]%list_elem_of_filter.
Qed.

Lemma process_workspace_objects_dimension_data wc us ad workspace wc' us' ad' :
  TransformPowerBI.process_workspace_objects wc us ad workspace
  = Ok (wc', us', ad') ->
  dimension_data_ok ad -> dimension_data_ok ad'.
Proof.
  unfold TransformPowerBI.process_workspace_objects.
  destruct (py_getitem workspace "id") as [workspace_id|]; cbn [bind]; [|done].
  destruct workspace as [| | | | | |d]; try done.
  intros Hloop Had.
  apply (for_each_invariant (fun acc => dimension_data_ok (snd acc)) _ _
           ) with (acc := (wc, us, ad)) (acc' := (wc', us', ad')) in Hloop;
    [exact Hloop| |exact Had].
  clear. intros [[wc us] ad] [key value] [[wc' us'] ad'] _ Had.
  cbn [TransformPowerBI.objects_of_key].
  destruct value as [| | | | |objects|]; try by intros [= <- <- <-].
  destruct (String.eqb key "users"); [by intros [= <- <- <-]|].
  intros Hloop.
  apply (for_each_invariant (fun acc => dimension_data_ok (snd acc)) _ _
           ) with (acc := (wc, us, ad)) (acc' := (wc', us', ad')) in Hloop;
    [exact Hloop| |exact Had].
  clear. intros [[wc us] ad] o [[wc' us'] ad'] _ Had Hstep.
  cbn [TransformPowerBI.object_step] in Hstep.
  apply fill_dimension_table_adds in Hstep as (v & row & _ & Hrow & _ & ->).
  simpl. apply append_dimension_ok; [apply last_char_rstrip| |done].
  by eapply dimension_row_is_string_record.
Qed.

Lemma workspace_step_dimension_data c workspace c' :
  TransformPowerBI.workspace_step c workspace = Ok c' ->
  dimension_data_ok (all_data c) -> dimension_data_ok (all_data c').
Proof.
  destruct workspace as [| | | | | |d]; try done.
  cbn [TransformPowerBI.workspace_step]. intros Hloop Hc.
  revert Hc Hloop.
  apply (for_each_invariant (fun c2 => dimension_data_ok (all_data c2))).
  intros c2 [key value] c3 _ Hc2. cbn [TransformPowerBI.key_step].
  destruct (negb (is_list value)); [by intros [= <-]|].
  destruct (String.eqb key "users").
  - destruct (TransformPowerBI.process_workspace_users _ _ _) as [[ua us]|];
      cbn [bind]; [|done].
    by intros [= <-].
  - destruct (TransformPowerBI.process_workspace_objects _ _ _ _)
      as [[[wc us] ad]|] eqn:Hobjects; cbn [bind]; [|done].
    intros [= <-]. simpl.
    by eapply process_workspace_objects_dimension_data.
Qed.

Lemma dimension_data_types scan c :
  TransformPowerBI.flatten scan = Ok c ->
  Forall (fun kv => last_char (fst kv) <> Some "s"%char) (all_data c).
Proof.
  unfold TransformPowerBI.flatten.
  destruct (py_iter scan) as [workspaces|]; cbn [bind]; [|done].
  intros Hloop.
  assert (Hok : dimension_data_ok (all_data c)).
  { revert Hloop.
    apply (for_each_invariant (fun c0 => dimension_data_ok (all_data c0)));
      [|split; constructor].
    intros c0 workspace c1 _ Hc0 Hstep.
    by eapply workspace_step_dimension_data. }
  destruct Hok as [_ Hall].
  eapply Forall_impl; [exact Hall|]. by intros kv [? _].
Qed.

(** X5: whatever the scan, the dimension data that the pass of
    [transform_powerbi.py] returns has one entry per object type, none of its
    types ends in s, every entry has at least one row, and every row is a
    dictionary whose values are all strings. *)
Theorem dimension_data_is_well_formed scan c :
  TransformPowerBI.flatten scan = Ok c -> dimension_data_ok (all_data c).
Proof.
  unfold TransformPowerBI.flatten.
  destruct (py_iter scan) as [workspaces|]; cbn [bind]; [|done].
  apply (for_each_invariant (fun c0 => dimension_data_ok (all_data c0)));
    [|split; constructor].
  intros c0 workspace c1 _ Hc0 Hstep.
  by eapply workspace_step_dimension_data.
Qed.

Lemma dimension_data_is_well_formed_witness :
  exists c,
    TransformPowerBI.flatten (JList [two_collections_workspace]) = Ok c /\
    dimension_data_ok (all_data c) /\
    map fst (all_data c) = ["report"; "dataset"].
Proof.
  eexists. split; [reflexivity|]. split; [|reflexivity].
  apply (dimension_data_is_well_formed (JList [two_collections_workspace])).
  reflexivity.
Defined.

(** ** The shaped tables *)


Lemma dict_set_keys {V} k (v : V) d name :
  name ∈ map fst (dict_set k v d) <-> name = k \/ name ∈ map fst d.
Proof.
  induction d as [|[k' v'] d IH]; simpl.
  - rewrite list_elem_of_singleton. split; [by left|].
    intros [?|?%elem_of_nil]; done.
  - destruct (String.eqb k k') eqn:Hk; simpl.
    + apply String.eqb_eq in Hk as ->. rewrite elem_of_cons. tauto.
    + rewrite !elem_of_cons, IH. tauto.
Qed.


Lemma output_keys {V} (base dims : list (string * V)) name :
  name ∈ map fst
    (foldl (fun out kv => dict_set (fst kv) (snd kv) out) base dims) <->
  name ∈ map fst base \/ name ∈ map fst dims.
Proof.
  revert base. induction dims as [|[k v] dims IH]; intros base; simpl.
  - split; [by left|]. intros [?|?%elem_of_nil]; done.
  - rewrite IH, dict_set_keys, elem_of_cons. tauto.
Qed.

Lemma dimension_frames_spec data dims :
  dimension_frames data = Ok dims ->
  map fst dims = map fst data /\
  Forall (fun kv => NoDup (rows (snd kv))) dims.
Proof.
  revert dims. induction data as [|[key value] data IH]; intros dims; simpl.
  - intros [= <-]. split; [done|constructor].
  - destruct (pd.DataFrame_of value) as [df|]; cbn [bind]; [|done].
    destruct (pd.drop_duplicates df) as [df'|] eqn:Hdrop; cbn [bind]; [|done].
    destruct (dimension_frames data) as [dfs|]; cbn [bind]; [|done].
    intros [= <-]. destruct (IH dfs eq_refl) as [Hkeys Hall].
    split; [simpl; by rewrite Hkeys|].
    constructor; [|done]. simpl.
    by apply drop_duplicates_spec in Hdrop as (_ & ? & _).
Qed.



(** X7: the names under which the shaping step hands out tables are the five
    fixed ones and the object types of the dimension data. After a pass of
    [transform_powerbi.py] none of the dimension names ends in s, so the pass
    never produces a table named "reports" or "datasets", which are the
    names under which [load_power_bi_data] looks for dimension tables. *)
Theorem shaped_table_names scan workspaces activities c out :
  TransformPowerBI.flatten scan = Ok c ->
  shape workspaces activities c = Ok out ->
  (forall name,
     name ∈ map fst out <->
     name ∈ fixed_tables \/ name ∈ map fst (all_data c)) /\
  (forall name,
     name ∈ map fst out ->
     name ∈ fixed_tables \/ last_char name <> Some "s"%char) /\
  ("reports" ∉ map fst out) /\
  ("datasets" ∉ map fst out).
Proof.
  intros Hflat Hshape.
  assert (Hnames : forall name,
             name ∈ map fst out <->
             name ∈ fixed_tables \/ name ∈ map fst (all_data c)).
  { revert Hshape. unfold shape.
    destruct (pd.DataFrame_of (users c)) as [df_users|]; cbn [bind]; [|done].
    destruct (pd.drop_duplicates df_users) as [df_users'|]; cbn [bind];
      [|done].
    destruct (pd.DataFrame_of (user_access c)) as [df_ua|]; cbn [bind];
      [|done].
    destruct (pd.drop_duplicates df_ua) as [df_ua'|]; cbn [bind]; [|done].
    destruct (pd.DataFrame_of (workspace_content c)) as [df_wc|]; cbn [bind];
      [|done].
    destruct (dimension_frames (all_data c)) as [dims|] eqn:Hdims; cbn [bind];
      [|done].
    intros [= <-] name. rewrite output_keys.
    apply dimension_frames_spec in Hdims as [-> _]. reflexivity. }
  assert (Hends : forall name,
             name ∈ map fst out ->
             name ∈ fixed_tables \/ last_char name <> Some "s"%char).
  { intros name [Hfixed|Hdim]%Hnames; [by left|right].
    apply dimension_data_types in Hflat.
    apply list_elem_of_fmap in Hdim as ([name' rows] & -> & Hin).
    eapply Forall_forall in Hflat; [|exact Hin]. exact Hflat. }
  split; [exact Hnames|]. split; [exact Hends|].
  split; intros [Hfixed|Hlast]%Hends.
  - repeat (apply elem_of_cons in Hfixed as [[=]|Hfixed]).
    by apply elem_of_nil in Hfixed.
  - by apply Hlast.
  - repeat (apply elem_of_cons in Hfixed as [[=]|Hfixed]).
    by apply elem_of_nil in Hfixed.
  - by apply Hlast.
Qed.

Lemma shaped_table_names_witness :
  exists c out,
    TransformPowerBI.flatten (JList [two_collections_workspace]) = Ok c /\
    shape no_frame no_frame c = Ok out /\
    map fst out
    = ["users"; "user_access"; "workspaces"; "workspace_content";
       "activities"; "report"; "dataset"] /\
    ("reports" ∉ map fst out).
Proof.
  eexists _, _. split; [reflexivity|]. split; [reflexivity|].
  split; [reflexivity|].
  match goal with
  | |- _ ∉ map fst ?out =>
      destruct (shaped_table_names (JList [two_collections_workspace])
                  no_frame no_frame _ out eq_refl eq_refl)
        as (_ & _ & Hreports & _)
  end.
  exact Hreports.
Defined.

(** ** A workspace without an identifier *)

Lemma key_step_without_id (d : pydict) c key value :
  dict_get "id" d = None -> is_list value = true ->
  TransformPowerBI.key_step (JObj d) c (key, value)
  = Raise (KeyError (LName "id")).
Proof.
  intros Hid Hlist. cbn [TransformPowerBI.key_step]. rewrite Hlist.
  cbn [negb]. destruct (String.eqb key "users").
  - unfold TransformPowerBI.process_workspace_users, py_getitem.
    by rewrite Hid.
  - unfold TransformPowerBI.process_workspace_objects, py_getitem.
    by rewrite Hid.
Qed.

(** X8: in [transform_powerbi.py] a workspace record without the field "id"
    makes the pass raise [KeyError] as soon as the record has any
    sequence-valued key, an empty sequence included; a record with no
    sequence-valued key at all is passed over and leaves the accumulators as
    they are, whether it has an "id" or not. *)
Theorem workspace_without_id (d : pydict) c :
  (dict_get "id" d = None ->
   (exists key value, (key, value) ∈ d /\ is_list value = true) ->
   TransformPowerBI.workspace_step c (JObj d) = Raise (KeyError (LName "id"))) /\
  (Forall (fun kv => is_list (snd kv) = false) d ->
   TransformPowerBI.workspace_step c (JObj d) = Ok c).
Proof.
  split.
  - intros Hid (key & value & Hin & Hlist).
    cbn [TransformPowerBI.workspace_step].
    assert (Hgen : forall items,
               (key, value) ∈ items ->
               for_each items (TransformPowerBI.key_step (JObj d)) c
               = Raise (KeyError (LName "id"))).
    { clear Hin. induction items as [|[k v] items IH]; intros Hin.
      - by apply elem_of_nil in Hin.
      - cbn [for_each].
        destruct (is_list v) eqn:Hv.
        + by rewrite key_step_without_id.
        + cbn [TransformPowerBI.key_step]. rewrite Hv. cbn [negb bind].
          apply IH. apply elem_of_cons in Hin as [[= -> ->]|Hin]; [|done].
          congruence. }
    by apply Hgen.
  - cbn [TransformPowerBI.workspace_step]. generalize (JObj d).
    intros workspace Hall. induction Hall as [|[k v] items Hv _ IH]; [done|].
    cbn [for_each TransformPowerBI.key_step]. simpl in Hv. rewrite Hv.
    cbn [negb bind]. exact IH.
Qed.

Lemma workspace_without_id_witness :
  TransformPowerBI.workspace_step no_collections
    (JObj [("name", JStr "Finance"); ("reports", JList [])])
  = Raise (KeyError (LName "id")) /\
  TransformPowerBI.workspace_step no_collections
    (JObj [("name", JStr "Finance")])
  = Ok no_collections.
Proof.
  split.
  - apply (workspace_without_id
             [("name", JStr "Finance"); ("reports", JList [])]).
    + reflexivity.
    + exists "reports", (JList []). split; [right; by left|reflexivity].
  - apply (workspace_without_id [("name", JStr "Finance")]).
    repeat constructor.
Defined.

(** ** A user record that is no dictionary *)

(** X28: a user record that is no dictionary makes both loops over users
    raise, each with the exception of the first thing it does with the
    record: [fill_user_table] looks up [user.get] and raises
    [AttributeError], [process_workspace_users] subscripts [user['graphId']]
    and raises [TypeError]. *)
Theorem user_record_that_is_no_dictionary (user : json) :
  is_dict user = false ->
  (forall object_type object_id acc rest,
     fill_user_table acc object_type object_id (JList (user :: rest))
     = Raise AttributeError) /\
  (forall user_access users d workspace_id rest,
     dict_get "id" d = Some workspace_id ->
     dict_get "users" d = Some (JList (user :: rest)) ->
     TransformPowerBI.process_workspace_users user_access users (JObj d)
     = Raise TypeError).
Proof.
  intros Hno. split.
  - intros object_type object_id acc rest.
    unfold fill_user_table. cbn [py_iter bind for_each].
    unfold fill_user_row. by destruct user.
  - intros user_access users d workspace_id rest Hid Husers.
    unfold TransformPowerBI.process_workspace_users, py_getitem at 1 2.
    rewrite Hid, Husers. cbn [bind py_iter for_each].
    by destruct user.
Qed.

Lemma user_record_that_is_no_dictionary_witness :
  fill_user_table [] "report" (JStr "R1") (JList [JStr "U1"])
  = Raise AttributeError /\
  TransformPowerBI.process_workspace_users [] []
    (JObj [("id", JStr "W1"); ("users", JList [JStr "U1"])])
  = Raise TypeError.
Proof.
  destruct (user_record_that_is_no_dictionary (JStr "U1"))
    as [Hnested Hmembers]; [reflexivity|].
  split.
  - apply Hnested.
  - apply (Hmembers [] [] _ (JStr "W1") []); reflexivity.
Defined.

(** ** More on the merge *)

(** X9: with a non-empty existing table, [merge_new_rows] raises [KeyError]
    when the identity column is missing from the incoming table, and also
    when the incoming table has it and the existing table lacks it. *)
Theorem merge_new_rows_missing_identity_column (E I : DataFrame) (c : label) :
  pd.empty E = false ->
  (c ∉ columns I -> merge_new_rows E I c = Raise (KeyError c)) /\
  (c ∈ columns I -> c ∉ columns E ->
   merge_new_rows E I c = Raise (KeyError c)).
Proof.
  intros Hne. unfold merge_new_rows. rewrite Hne. split.
  - intros HI. unfold pd.getitem at 1. by rewrite position_None.
  - intros HI HE. rewrite (getitem_cells I c HI). cbn [bind].
    unfold pd.getitem. by rewrite position_None.
Qed.

Lemma merge_new_rows_missing_identity_column_witness :
  merge_new_rows (id_table [1]%Z)
    {| columns := [LName "graphId"]; rows := [[JStr "U1"]] |} (LName "id")
  = Raise (KeyError (LName "id")) /\
  merge_new_rows {| columns := [LName "graphId"]; rows := [[JStr "U1"]] |}
    (id_table [1]%Z) (LName "id")
  = Raise (KeyError (LName "id")).
Proof.
  split.
  - destruct (merge_new_rows_missing_identity_column (id_table [1]%Z)
                {| columns := [LName "graphId"]; rows := [[JStr "U1"]] |}
                (LName "id")) as [Hincoming _]; [reflexivity|].
    apply Hincoming. by intros [=]%list_elem_of_singleton.
  - destruct (merge_new_rows_missing_identity_column
                {| columns := [LName "graphId"]; rows := [[JStr "U1"]] |}
                (id_table [1]%Z) (LName "id")) as [_ Hexisting];
      [reflexivity|].
    apply Hexisting; [by left|]. by intros [=]%list_elem_of_singleton.
Defined.

(** X10: for identity columns of one type in both tables (text, or 64-bit
    integers), the identity values of a merge are of that type and are
    those of the existing table together with those of the incoming one:
    nothing is lost and nothing is made up, and the merged table has the
    rows of the existing table plus one row per new incoming row. *)
Theorem merge_new_rows_identity_values
    (E I M : DataFrame) (c : label) (t : pd.dtype) :
  pd.empty E = false -> c ∈ columns E -> c ∈ columns I ->
  pd.of_dtype t (column_values E c) = true ->
  pd.of_dtype t (column_values I c) = true ->
  merge_new_rows E I c = Ok M ->
  (forall v,
     pd.has_dtype t v = true ->
     v ∈ column_values M c <->
     v ∈ column_values E c \/ v ∈ column_values I c) /\
  pd.of_dtype t (column_values M c) = true /\
  length (rows M) = length (rows E) + length (new_rows_of E I c).
Proof.
  intros Hne HE HI HtE HtI. rewrite merge_new_rows_concat by done.
  intros [= <-].
  assert (Hvalues : forall v,
            v ∈ column_values (pd.concat2 E
                                 {| columns := columns I;
                                    rows := new_rows_of E I c |}) c <->
            v ∈ column_values E c \/ v ∈ column_values I c).
  { intros v. rewrite column_values_concat2 by done.
    unfold column_values at 2. cbn [columns rows].
    rewrite column_values_new_rows, elem_of_app, list_elem_of_filter.
    destruct (decide (v ∈ column_values E c)); tauto. }
  split; [intros v _; apply Hvalues|]. split.
  - unfold pd.of_dtype in *. rewrite forallb_forall in *.
    intros v Hv%list_elem_of_In. apply Hvalues in Hv as [Hv|Hv].
    + by apply HtE, list_elem_of_In.
    + by apply HtI, list_elem_of_In.
  - simpl. by rewrite length_app, !length_map.
Qed.

Lemma merge_new_rows_identity_values_witness :
  exists M,
    merge_new_rows (id_table [1; 2]%Z) (id_table [2; 3]%Z) (LName "id")
    = Ok M /\
    (JInt 3 ∈ column_values M (LName "id")) /\
    length (rows M) = 3.
Proof.
  exists (id_table [1; 2; 3]%Z). split; [reflexivity|].
  destruct (merge_new_rows_identity_values (id_table [1; 2]%Z)
              (id_table [2; 3]%Z) (id_table [1; 2; 3]%Z) (LName "id")
              pd.int64)
    as (Hvalues & _ & Hlength);
    [reflexivity|by left|by left|reflexivity|reflexivity|reflexivity|].
  split.
  - apply Hvalues; [reflexivity|]. right. right. by left.
  - exact Hlength.
Defined.

(** X11: merging the same incoming table a second time changes nothing: for
    tables over the same columns with one type per column in both (text, or
    64-bit integers), if [merge_new_rows] of an existing and an incoming
    table gives [M], then [M] has these columns and types too, and merging
    the incoming table into [M] gives [M] again. *)
Theorem merge_new_rows_idempotent
    (E I M : DataFrame) (c : label) (schema : list pd.dtype) :
  NoDup (columns E) -> columns I = columns E -> c ∈ columns E ->
  pd.typed schema E = true -> pd.typed schema I = true ->
  merge_new_rows E I c = Ok M ->
  columns M = columns E /\
  pd.typed schema M = true /\
  merge_new_rows M I c = Ok M.
Proof.
  intros Hnd Hcols Hc HtE HtI.
  assert (HE : wf_frame E) by by eapply typed_wf.
  assert (HI : wf_frame I) by (eapply typed_wf; [|exact HtI]; by rewrite Hcols).
  destruct (pd.empty E) eqn:Hempty.
  - rewrite merge_new_rows_empty by done. intros [= <-].
    split; [done|]. split; [done|].
    destruct (pd.empty I) eqn:HemptyI; [by apply merge_new_rows_empty|].
    apply merge_nothing_new; try done; [by rewrite Hcols|].
    intros r Hr. unfold column_values. by apply list_elem_of_fmap_2.
  - rewrite merge_same_schema by done. intros [= <-].
    split; [done|]. split.
    { unfold pd.typed in *. simpl.
      apply andb_prop in HtE as [HwE HrE]. apply andb_prop in HtI as [_ HrI].
      rewrite HwE. simpl. rewrite forallb_app, HrE. simpl.
      rewrite forallb_forall in *. intros r Hr%list_elem_of_In.
      unfold new_rows_of in Hr. apply list_elem_of_filter in Hr as [_ Hr].
      by apply HrI, list_elem_of_In. }
    apply empty_false_inv in Hempty as [Hcne Hrne].
    apply merge_nothing_new; simpl; try done.
    + destruct HE as [_ Hlen]. split; [done|]. simpl.
      apply Forall_app. split; [done|].
      rewrite <- Hcols. by apply new_rows_wf.
    + unfold pd.empty. simpl. by destruct (columns E), (rows E).
    + intros r Hr. unfold column_values. simpl. rewrite map_app, elem_of_app.
      destruct (decide (pd.cell (columns I) c r ∈ column_values E c))
        as [Hold|Hnew].
      * left. exact Hold.
      * right. rewrite <- Hcols. apply list_elem_of_fmap_2.
        by apply list_elem_of_filter.
Qed.

Lemma merge_new_rows_idempotent_witness :
  merge_new_rows (id_table [1; 2; 3]%Z) (id_table [2; 3]%Z) (LName "id")
  = Ok (id_table [1; 2; 3]%Z).
Proof.
  destruct (merge_new_rows_idempotent (id_table [1; 2]%Z) (id_table [2; 3]%Z)
              (id_table [1; 2; 3]%Z) (LName "id") [pd.int64])
    as (_ & _ & Hagain).
  - apply NoDup_singleton.
  - reflexivity.
  - by left.
  - reflexivity.
  - reflexivity.
  - reflexivity.
  - exact Hagain.
Defined.

(** ** More on the load *)

Section LoadMore.

Context {datetime Lake : Type}.
Variable strftime : datetime -> string -> string.
Variable now : nat -> datetime.
Variable str_exn : exn -> string.
Variable lake_read : Lake -> string -> string -> result DataFrame.
Variable lake_write :
  Lake -> DataFrame -> string -> string -> option exn * Lake.

Ltac open_table :=
  unfold process_table, merged_or_new, try_except, and_then, lift.
Ltac open_tables := unfold process_tables.
Ltac open_load := unfold load_power_bi_data.

#[local] Abbreviation process_table :=
  (process_table strftime now str_exn lake_read lake_write).
#[local] Abbreviation process_tables :=
  (process_tables strftime now str_exn lake_read lake_write).
#[local] Abbreviation load_power_bi_data :=
  (load_power_bi_data strftime now str_exn lake_read lake_write).
#[local] Abbreviation logged := (logged strftime now).

Implicit Types (st : @load_state Lake).

Lemma process_table_both_read st client silver_path kind name dataframe
    current outcome lake' :
  lake_read (lake st) "silver" (silver_path +:+ "/" +:+ name) = Ok dataframe ->
  lake_read (lake st) "gold" (gold_path kind name) = Ok current ->
  let merged := merge_new_rows current dataframe (id_column_of name) in
  lake_write (lake st)
    (match merged with Ok df => df | Raise _ => dataframe end)
    "gold" (gold_path kind name) = (outcome, lake') ->
  process_table client silver_path kind name st
  = (Ok tt,
     logged st
       ([read_ok_call "silver" (silver_path +:+ "/" +:+ name);
         read_ok_call "gold" (gold_path kind name)]
          ++ match merged with
             | Ok _ => []
             | Raise _ => [creating_call client name]
             end
          ++ write_outcome_calls str_exn client kind name outcome)
       lake').
Proof.
  intros Hsilver Hgold merged Hwrite. open_table.
  rewrite (read_parquet_data_ok _ _ _ _ _ _ _ _ Hsilver).
  rewrite (read_parquet_data_ok _ _ _ _ _ _ _ current) by exact Hgold.
  subst merged.
  destruct (merge_new_rows current dataframe (id_column_of name)) as [df|e].
  - rewrite !logged_logged.
    destruct outcome as [e'|].
    + rewrite (write_parquet_data_error _ _ _ _ _ _ _ _ e' lake')
        by exact Hwrite.
      rewrite logging_logged, !logged_logged. reflexivity.
    + rewrite (write_parquet_data_ok _ _ _ _ _ _ _ _ lake') by exact Hwrite.
      rewrite logging_logged, !logged_logged. reflexivity.
  - rewrite logging_logged. unfold ret. rewrite !logged_logged.
    destruct outcome as [e'|].
    + rewrite (write_parquet_data_error _ _ _ _ _ _ _ _ e' lake')
        by exact Hwrite.
      rewrite logging_logged, !logged_logged. reflexivity.
    + rewrite (write_parquet_data_ok _ _ _ _ _ _ _ _ lake') by exact Hwrite.
      rewrite logging_logged, !logged_logged. reflexivity.
Qed.

(** X12: when the silver and the gold table of a name can both be read and
    the merge succeeds, one turn of the load writes exactly
    [merge_new_rows(gold, silver, id_column)] to the gold path and logs no
    table creation; the turn then ends with the outcome of that write. *)
Theorem process_table_writes_the_merge st client silver_path kind name
    dataframe current merged outcome lake' :
  lake_read (lake st) "silver" (silver_path +:+ "/" +:+ name) = Ok dataframe ->
  lake_read (lake st) "gold" (gold_path kind name) = Ok current ->
  merge_new_rows current dataframe (id_column_of name) = Ok merged ->
  lake_write (lake st) merged "gold" (gold_path kind name) = (outcome, lake') ->
  process_table client silver_path kind name st
  = (Ok tt,
     logged st
       ([read_ok_call "silver" (silver_path +:+ "/" +:+ name);
         read_ok_call "gold" (gold_path kind name)]
          ++ write_outcome_calls str_exn client kind name outcome)
       lake').
Proof.
  intros Hsilver Hgold Hmerge Hwrite.
  rewrite (process_table_both_read st client silver_path kind name dataframe
             current outcome lake' Hsilver Hgold); rewrite Hmerge; done.
Qed.

(** X13: when the gold table is read and [merge_new_rows] raises (the
    identity column is missing from one of the two tables), the inner handler
    takes over: the turn logs "Creating new table" at INFO and writes the
    silver table alone to the gold path, in place of the gold table that was
    read. *)
Theorem process_table_replaces_gold_when_merge_fails st client silver_path
    kind name dataframe current e outcome lake' :
  lake_read (lake st) "silver" (silver_path +:+ "/" +:+ name) = Ok dataframe ->
  lake_read (lake st) "gold" (gold_path kind name) = Ok current ->
  merge_new_rows current dataframe (id_column_of name) = Raise e ->
  lake_write (lake st) dataframe "gold" (gold_path kind name)
  = (outcome, lake') ->
  process_table client silver_path kind name st
  = (Ok tt,
     logged st
       ([read_ok_call "silver" (silver_path +:+ "/" +:+ name);
         read_ok_call "gold" (gold_path kind name);
         creating_call client name]
          ++ write_outcome_calls str_exn client kind name outcome)
       lake').
Proof.
  intros Hsilver Hgold Hmerge Hwrite.
  rewrite (process_table_both_read st client silver_path kind name dataframe
             current outcome lake' Hsilver Hgold); rewrite Hmerge; done.
Qed.

Lemma process_table_lake st client silver_path kind name :
  lake (snd (process_table client silver_path kind name st)) = lake st \/
  exists df,
    lake (snd (process_table client silver_path kind name st))
    = snd (lake_write (lake st) df "gold" (gold_path kind name)).
Proof.
  destruct (lake_read (lake st) "silver" (silver_path +:+ "/" +:+ name))
    as [dataframe|e] eqn:Hsilver.
  - destruct (process_table_silver_ok strftime now str_exn lake_read lake_write
                st client silver_path kind name dataframe Hsilver)
      as (df & middle & _ & Hrun).
    destruct (lake_write (lake st) df "gold" (gold_path kind name))
      as [outcome lake'] eqn:Hwrite.
    right. exists df. rewrite (Hrun outcome lake' eq_refl), Hwrite. done.
  - left.
    by rewrite (process_table_silver_error strftime now str_exn lake_read
                  lake_write st client silver_path kind name e Hsilver).
Qed.

(** X14: the load writes to the gold area and nowhere else: whatever holds of
    the lake and is kept by every write to "gold" still holds after the load
    has gone through its tables. *)
Theorem load_writes_to_gold_only (P : Lake -> Prop) client :
  (forall l df file_name,
     P l -> P (snd (lake_write l df "gold" file_name))) ->
  (forall silver_path tables st,
     P (lake st) ->
     P (lake (snd (process_tables client silver_path tables st)))) /\
  (forall st, P (lake st) -> P (lake (snd (load_power_bi_data client st)))).
Proof.
  intros Hgold.
  assert (Hstep : forall silver_path kind name st,
             P (lake st) ->
             P (lake (snd (process_table client silver_path kind name st)))).
  { intros silver_path kind name st HP.
    destruct (process_table_lake st client silver_path kind name)
      as [->|[df ->]]; [done|by apply Hgold]. }
  assert (Hnames : forall silver_path kind names st,
             P (lake st) ->
             P (lake (snd (for_ names
                             (process_table client silver_path kind) st)))).
  { intros silver_path kind names.
    induction names as [|name names IH]; intros st HP; [done|].
    cbn [for_]. unfold and_then.
    destruct (process_table_total strftime now str_exn lake_read lake_write
                st client silver_path kind name) as (calls & lake1 & Hrun & _).
    pose proof (Hstep silver_path kind name st HP) as HP1.
    rewrite Hrun in HP1 |- *. by apply IH. }
  assert (Htables : forall silver_path tables st,
             P (lake st) ->
             P (lake (snd (process_tables client silver_path tables st)))).
  { intros silver_path tables. open_tables.
    induction tables as [|[kind names] tables IH]; intros st HP; [done|].
    cbn [for_]. unfold and_then. cbn [fst snd].
    destruct (for_names_total strftime now str_exn lake_read lake_write
                st client silver_path kind names)
      as (chunks & lake1 & Hrun & _).
    pose proof (Hnames silver_path kind names st HP) as HP1.
    rewrite Hrun in HP1 |- *. by apply IH. }
  split; [exact Htables|].
  intros st HP. open_load. by apply Htables.
Qed.

End LoadMore.

Lemma process_table_writes_the_merge_witness :
  process_table test_strftime test_now test_str_exn file_read file_write
    "acme" "today/acme" "dimensions" "users" (fresh_load_state stale_gold_lake)
  = (Ok tt,
     logged test_strftime test_now (fresh_load_state stale_gold_lake)
       [read_ok_call "silver" "today/acme/users";
        read_ok_call "gold" "dimensions/dim_users";
        write_ok_call "gold" "dimensions/dim_users";
        success_call "acme" "users"]
       (("gold", "dimensions/dim_users",
         {| columns := [LName "graphId"];
            rows := [[JStr "U0"]; [JStr "U1"]] |})
          :: stale_gold_lake)).
Proof.
  apply (process_table_writes_the_merge test_strftime test_now test_str_exn
           file_read file_write (fresh_load_state stale_gold_lake)
           "acme" "today/acme" "dimensions" "users"
           {| columns := [LName "graphId"]; rows := [[JStr "U1"]] |}
           {| columns := [LName "graphId"]; rows := [[JStr "U0"]] |}
           {| columns := [LName "graphId"];
              rows := [[JStr "U0"]; [JStr "U1"]] |} None);
    reflexivity.
Defined.

Lemma process_table_replaces_gold_when_merge_fails_witness :
  process_table test_strftime test_now test_str_exn file_read file_write
    "acme" "today/acme" "dimensions" "users"
    (fresh_load_state keyless_gold_lake)
  = (Ok tt,
     logged test_strftime test_now (fresh_load_state keyless_gold_lake)
       [read_ok_call "silver" "today/acme/users";
        read_ok_call "gold" "dimensions/dim_users";
        creating_call "acme" "users";
        write_ok_call "gold" "dimensions/dim_users";
        success_call "acme" "users"]
       (("gold", "dimensions/dim_users",
         {| columns := [LName "graphId"]; rows := [[JStr "U1"]] |})
          :: keyless_gold_lake)).
Proof.
  apply (process_table_replaces_gold_when_merge_fails test_strftime test_now
           test_str_exn file_read file_write
           (fresh_load_state keyless_gold_lake)
           "acme" "today/acme" "dimensions" "users"
           {| columns := [LName "graphId"]; rows := [[JStr "U1"]] |}
           {| columns := [LName "id"]; rows := [[JStr "U0"]] |}
           (KeyError (LName "graphId")) None);
    reflexivity.
Defined.

Lemma load_writes_to_gold_only_witness :
  file_read
    (lake (snd (load_power_bi_data test_strftime test_now test_str_exn
                  file_read file_write "acme"
                  (fresh_load_state stale_gold_lake))))
    "silver" "today/acme/users"
  = Ok {| columns := [LName "graphId"]; rows := [[JStr "U1"]] |}.
Proof.
  destruct (load_writes_to_gold_only test_strftime test_now test_str_exn
              file_read file_write
              (fun l => file_read l "silver" "today/acme/users"
                        = Ok {| columns := [LName "graphId"];
                                rows := [[JStr "U1"]] |})
              "acme") as [_ Hload].
  - intros l df file_name Hl. exact Hl.
  - apply Hload. reflexivity.
Defined.

(** ** More on the log *)

Lemma write_log_stdout {datetime : Type}
    (strftime : datetime -> string -> string) (self : LoggingManager)
    (d : datetime) (c o k t : string) :
  stdout self
  = filter (fun e => e.(kind) <> "DEBUG") (logging_rows self) ->
  stdout (write_log strftime self d c o k t)
  = filter (fun e => e.(kind) <> "DEBUG")
      (logging_rows (write_log strftime self d c o k t)).
Proof.
  intros Hinv. unfold write_log. cbn [stdout logging_rows].
  rewrite filter_app, filter_cons, filter_nil, <- Hinv. cbn [kind entry_at].
  destruct (String.eqb k "DEBUG") eqn:Hk; cbn [negb].
  - apply String.eqb_eq in Hk as ->.
    rewrite decide_False by (intros Hne; by apply Hne). by rewrite app_nil_r.
  - apply String.eqb_neq in Hk. by rewrite decide_True.
Qed.

(** X15: what the logger has printed is its buffer without the DEBUG entries,
    in the same order: the property holds for a new logger and is kept by
    every run of [write_log] calls. *)
Theorem stdout_is_the_log_without_debug :
  forall (datetime : Type) (strftime : datetime -> string -> string)
         (now : nat -> datetime) (calls : list log_call) (rt : runtime),
    stdout (logger rt)
    = filter (fun e => e.(kind) <> "DEBUG") (logging_rows (logger rt)) ->
    stdout (logger (log_all strftime now rt calls))
    = filter (fun e => e.(kind) <> "DEBUG")
        (logging_rows (logger (log_all strftime now rt calls))).
Proof.
  intros datetime strftime now calls.
  induction calls as [|[[[c o] k] t] calls IH]; intros rt Hinv; [done|].
  cbn [log_all foldl]. apply IH. cbn [log logger].
  by apply write_log_stdout.
Qed.

Lemma stdout_is_the_log_without_debug_witness :
  map (fun e => e.(text))
    (stdout
       (logger
          (log_all test_strftime test_now
             {| ticks := 0; logger := new_LoggingManager |}
             [("acme", "load", "INFO", "one");
              ("acme", "load", "DEBUG", "two");
              ("acme", "load", "ERROR", "three")])))
  = ["one"; "three"].
Proof.
  rewrite (stdout_is_the_log_without_debug nat test_strftime test_now
             [("acme", "load", "INFO", "one");
              ("acme", "load", "DEBUG", "two");
              ("acme", "load", "ERROR", "three")]
             {| ticks := 0; logger := new_LoggingManager |});
    reflexivity.
Defined.

(** X16: every entry that the data lake writer logs for a parquet read or
    write is printed, the entries meant as DEBUG included: the writer hands
    its level to [write_log] in the place of the operation, so the entry's
    kind is "Read data" or "Write data" and never "DEBUG". *)
Theorem writer_entries_are_always_printed :
  forall (datetime Lake : Type) (strftime : datetime -> string -> string)
         (now : nat -> datetime) (str_exn : exn -> string)
         (lake_read : Lake -> string -> string -> result DataFrame)
         (lake_write :
            Lake -> DataFrame -> string -> string -> option exn * Lake)
         (st : @load_state Lake) (df : DataFrame)
         (file_system file_name : string),
    (exists e,
       let st' :=
         snd (read_parquet_data strftime now str_exn lake_read
                file_system file_name st) in
       logging_rows (logger (rt st'))
       = logging_rows (logger (rt st)) ++ [e] /\
       stdout (logger (rt st')) = stdout (logger (rt st)) ++ [e] /\
       e.(kind) = "Read data" /\
       (e.(operation) = "DEBUG" \/ e.(operation) = "ERROR")) /\
    (exists e,
       let st' :=
         snd (write_parquet_data strftime now str_exn lake_write
                df file_system file_name st) in
       logging_rows (logger (rt st'))
       = logging_rows (logger (rt st)) ++ [e] /\
       stdout (logger (rt st')) = stdout (logger (rt st)) ++ [e] /\
       e.(kind) = "Write data" /\
       (e.(operation) = "DEBUG" \/ e.(operation) = "ERROR")).
Proof.
  intros. split.
  - unfold read_parquet_data.
    destruct (lake_read (lake st) file_system file_name) as [table|e];
      eexists; cbn; repeat split; auto.
  - unfold write_parquet_data.
    destruct (lake_write (lake st) df file_system file_name)
      as [[e|] lake']; eexists; cbn; repeat split; auto.
Qed.

(** ** The other pulls *)

(** *** Batches of a hundred *)

Lemma chunks_concat {A} (k : nat) (ids : list A) :
  length ids <= 100 * k ->
  concat (map (fun j => take 100 (drop (100 * j) ids)) (seq 0 k)) = ids.
Proof.
  revert ids. induction k as [|k IH]; intros ids Hlen.
  - destruct ids; [done|simpl in Hlen; lia].
  - cbn [seq map concat]. rewrite <- seq_shift, map_map.
    rewrite Nat.mul_0_r, drop_0.
    rewrite <- (take_drop 100 ids) at 2. f_equal.
    rewrite <- (IH (drop 100 ids)) by (rewrite length_drop; lia).
    f_equal. apply map_ext. intros j. rewrite drop_drop. do 2 f_equal. lia.
Qed.

Lemma batches_unfold {A} (ids : list A) :
  batches ids
  = map (fun j => take 100 (drop (100 * j) ids))
        (seq 0 ((length ids + 99) / 100)).
Proof. unfold batches, batch_starts. by rewrite map_map. Qed.

(** X17: the loop of [post_workspace_scan] over [range(0, len(workspace_ids),
    100)] cuts the identifiers into consecutive slices that together are the
    whole list, in order; no slice is empty, none is longer than a hundred,
    and there are [len(workspace_ids) / 100], rounded up, of them. *)
Theorem batches_split_the_identifiers {A} (ids : list A) :
  concat (batches ids) = ids /\
  Forall (fun batch => 0 < length batch <= 100) (batches ids) /\
  length (batches ids) = (length ids + 99) / 100.
Proof.
  rewrite batches_unfold. split; [|split].
  - apply chunks_concat.
    pose proof (Nat.div_mod_eq (length ids + 99) 100) as Hdiv.
    pose proof (Nat.mod_upper_bound (length ids + 99) 100). lia.
  - apply Forall_forall. intros batch [j [-> Hj]]%list_elem_of_fmap.
    apply elem_of_seq in Hj.
    assert (100 * j < length ids).
    { pose proof (Nat.div_mod_eq (length ids + 99) 100) as Hdiv.
      pose proof (Nat.mod_upper_bound (length ids + 99) 100). lia. }
    rewrite length_take, length_drop. lia.
  - by rewrite length_map, length_seq.
Qed.


Section PullFacts.

Context {datetime Net Response : Type}.
Variable strftime : datetime -> string -> string.
Variable now : nat -> datetime.
Variable str_exn : exn -> string.
Variable str_json : json -> string.
Variable iso_date : datetime -> string.
Variable float_nonzero : string -> bool.
Variable make_request :
  Net -> string -> string -> result json * Net * list log_call.
Variable make_request_payload :
  Net -> string -> string -> json -> result Response * Net * list log_call.
Variable response_json : Response -> result json.

Ltac open_pull :=
  unfold except_request, and_then, try_except, request, post, lift, api_log,
    ret, raise, extend, len_of, new_list.
Ltac open_get_workspaces' :=
  cbn [get_workspaces]; unfold try_except, and_then, request, lift.
Ltac open_scan_batches := cbn [scan_batches].
Ltac open_post_workspace_scan := unfold post_workspace_scan.
Ltac open_scan_results := cbn [scan_results].
Ltac open_get_workspace_scans := unfold get_workspace_scans.
Ltac open_get_tenant_activities := cbn [get_tenant_activities].

#[local] Abbreviation get_workspaces :=
  (get_workspaces strftime now str_exn make_request).
#[local] Abbreviation scan_batches :=
  (scan_batches strftime now str_exn make_request_payload response_json).
#[local] Abbreviation post_workspace_scan :=
  (post_workspace_scan strftime now str_exn make_request_payload
     response_json).
#[local] Abbreviation scan_results :=
  (scan_results strftime now str_exn str_json make_request).
#[local] Abbreviation get_workspace_scans :=
  (get_workspace_scans strftime now str_exn str_json make_request).
#[local] Abbreviation truthy := (truthy float_nonzero).
#[local] Abbreviation get_tenant_activities :=
  (get_tenant_activities strftime now str_exn str_json iso_date float_nonzero
     make_request).

Implicit Types (st : @api_state Net).

(** *** [post_workspace_scan] *)

Lemma scan_batches_length client todo acc st r st' :
  scan_batches client todo acc st = (Ok r, st') ->
  length r = length acc + length todo.
Proof.
  revert acc st. induction todo as [|batch rest IH]; intros acc st.
  - intros [= <- _]. simpl. lia.
  - open_scan_batches. open_pull.
    destruct (make_request_payload (net st) "POST" scan_url _)
      as [[[response|e] net1] calls1].
    + destruct (response_json response) as [decoded|e]; [|done].
      destruct (py_getitem decoded "id") as [scan_id|e]; [|done].
      intros Hrest%IH. rewrite length_app in Hrest. simpl in *. lia.
    + destruct e; try done.
      destruct (make_request_payload _ "POST" _ _)
        as [[[response|e] net2] calls2]; [|done].
      destruct (response_json response) as [decoded|e]; [|done].
      destruct (py_getitem decoded "id") as [scan_id|e]; [|done].
      intros Hrest%IH. rewrite length_app in Hrest. simpl in *. lia.
Qed.

(** X18: when [post_workspace_scan] returns, it returns one scan identifier
    for every started hundred of workspace identifiers, and the last entry
    of the log is the INFO entry that counts them. *)
Theorem post_workspace_scan_one_scan_per_batch client ids st r st' :
  post_workspace_scan client ids st = (Ok r, st') ->
  length r = (length ids + 99) / 100 /\
  exists entry,
    last_entry st' = Some entry /\
    operation entry = "Post Workspace Scan" /\ kind entry = "INFO".
Proof.
  open_post_workspace_scan. open_pull.
  destruct (scan_batches client (batches ids) [] st) as [[found|e] st1] eqn:Hrun.
  - intros [= <- <-]. apply scan_batches_length in Hrun. split.
    + rewrite Hrun, batches_unfold, length_map, length_seq. done.
    + eexists. unfold last_entry. simpl. rewrite last_snoc. done.
  - destruct e; intros [=].
Qed.

(** *** [get_workspace_scans] *)

Lemma scan_results_of_dictionaries client scan_ids acc st data st' :
  (forall net method endpoint body net' calls,
     make_request net method endpoint = (Ok body, net', calls) ->
     is_dict body = true) ->
  Forall (fun v => exists key, v = JStr key) acc ->
  scan_results client scan_ids acc st = (Ok data, st') ->
  Forall (fun v => exists key, v = JStr key) data.
Proof.
  intros Hdict. revert acc st.
  induction scan_ids as [|scan_id rest IH]; intros acc st Hacc.
  - by intros [= <- _].
  - open_scan_results. open_pull.
    destruct (make_request (net st) "GET" _) as [[[body|e] net1] calls1] eqn:Hreq.
    + apply Hdict in Hreq. destruct body; try done. simpl.
      apply IH. apply Forall_app. split; [done|].
      apply Forall_forall. intros v [key [-> _]]%list_elem_of_fmap. by exists key.
    + destruct e; done.
Qed.

(** X19: [get_workspace_scans] extends its list with each scan result as it
    is; when the service answers with dictionaries, as the scanner API
    does, what it returns is the names of their keys, one string per key,
    and no workspace record. *)
Theorem get_workspace_scans_keeps_the_key_names client scan_ids st data st' :
  (forall net method endpoint body net' calls,
     make_request net method endpoint = (Ok body, net', calls) ->
     is_dict body = true) ->
  get_workspace_scans client scan_ids st = (Ok data, st') ->
  Forall (fun v => exists key, v = JStr key) data.
Proof.
  intros Hdict. open_get_workspace_scans. open_pull.
  destruct (scan_results client scan_ids [] st) as [[found|e] st1] eqn:Hrun;
    [|done].
  intros [= <- _].
  by apply (scan_results_of_dictionaries client scan_ids [] st found st1).
Qed.

Lemma scan_results_failure client scan_ids acc st msg st' :
  scan_results client scan_ids acc st = (Raise (RequestException msg), st') ->
  exists entry scan_id,
    scan_id ∈ scan_ids /\
    last_entry st' = Some entry /\
    operation entry = "Get Workspace Scans" /\ kind entry = "ERROR" /\
    text entry = "Failed to get scan result for scan ID " +:+ str_json scan_id
                   +:+ ": " +:+ str_exn (RequestException msg).
Proof.
  revert acc st. induction scan_ids as [|scan_id rest IH]; intros acc st.
  - intros [=].
  - open_scan_results. open_pull.
    destruct (make_request (net st) "GET" _) as [[[body|e] net1] calls1].
    + destruct body; simpl; try (intros [=]; fail);
        intros (entry & failed & Hin & Hrest)%IH;
        exists entry, failed; (split; [by right|done]).
    + destruct e; try (intros [=]; fail).
      intros [= <- <-]. eexists _, scan_id. split; [by left|].
      unfold last_entry. simpl. rewrite last_snoc. done.
Qed.

(** X20: a request error that leaves [get_workspace_scans] has just been
    logged: the last entry of the log is an ERROR entry of the operation that
    names one of the scan identifiers and carries the text of the error. *)
Theorem get_workspace_scans_names_the_failed_scan client scan_ids st msg st' :
  get_workspace_scans client scan_ids st = (Raise (RequestException msg), st') ->
  exists entry scan_id,
    scan_id ∈ scan_ids /\
    last_entry st' = Some entry /\
    operation entry = "Get Workspace Scans" /\ kind entry = "ERROR" /\
    text entry = "Failed to get scan result for scan ID " +:+ str_json scan_id
                   +:+ ": " +:+ str_exn (RequestException msg).
Proof.
  open_get_workspace_scans. open_pull.
  destruct (scan_results client scan_ids [] st) as [[found|e] st1] eqn:Hrun;
    [done|].
  intros [= -> <-]. by apply (scan_results_failure client scan_ids [] st).
Qed.

(** *** [get_workspaces] and its default list *)

Lemma get_workspaces_own_list depth client top skip loc st :
  default_data (snd (get_workspaces depth client top skip (heap_list loc) st))
  = default_data st.
Proof.
  revert skip st. induction depth as [|depth IH]; intros skip st; [done|].
  open_get_workspaces'.
  destruct (make_request (net st) "GET" _) as [[[body|e] net1] calls1];
    [|done].
  destruct (py_get body (JStr "value") (JList [])) as [result|e]; [|done].
  destruct (py_iter result) as [items|e]; [|done].
  unfold extend.
  destruct (py_len result) as [n|e]; [|done].
  unfold len_of, api_log.
  destruct (Z.of_nat n =? top)%Z; [|done].
  match goal with
  | |- context [get_workspaces _ _ _ _ (heap_list loc) ?s] =>
      specialize (IH (skip + top)%Z s);
      destruct (get_workspaces depth client top (skip + top)%Z (heap_list loc) s)
        as [[r|e] s']
  end; simpl in *; done.
Qed.

(** X21: whatever [get_workspaces] does with the default list, it only adds
    to it: the list object bound to the default of [data] keeps every row it
    had, also when the call fails halfway, and a call that is handed a list
    of the caller's own leaves the default list as it was. *)
Theorem get_workspaces_only_extends_the_default_list
    depth client top skip st :
  (exists pages,
     default_data (snd (get_workspaces depth client top skip default_list st))
     = default_data st ++ pages) /\
  (forall loc,
     default_data (snd (get_workspaces depth client top skip (heap_list loc) st))
     = default_data st).
Proof.
  split.
  - destruct (get_workspaces_default_vs_own strftime now str_exn make_request
                depth client top skip st
                {| api_rt := api_rt st; net := net st;
                   default_data := default_data st; heap := [[]] |} 0)
      as (pages & Hdefault & _); [done|simpl; lia|].
    by exists pages.
  - intros loc. apply get_workspaces_own_list.
Qed.

(** *** [get_tenant_activities] *)

(** A call without [data] is a call with a new empty list. *)
Lemma get_tenant_activities_makes_its_list depth client date token st :
  get_tenant_activities (S depth) client date token None st
  = get_tenant_activities (S depth) client date token
      (Some (heap_list (length (heap st))))
      {| api_rt := log strftime now (api_rt st) client "Get Tenant Activities"
                     "DEBUG" "Initializing new data list";
         net := net st; default_data := default_data st;
         heap := heap st ++ [[]] |}.
Proof. reflexivity. Qed.

Lemma get_tenant_activities_own_list depth client date token loc st r st' :
  get_tenant_activities depth client date token (Some (heap_list loc)) st
  = (r, st') ->
  default_data st' = default_data st /\
  length (heap st') = length (heap st) /\
  (forall other, other <> loc -> heap st' !! other = heap st !! other) /\
  (forall ref, r = Ok ref -> ref = heap_list loc).
Proof.
  revert token st r st'. induction depth as [|depth IH]; intros token st r st'.
  - intros [= <- <-]. done.
  - open_get_tenant_activities. open_pull.
    destruct (negb (truthy token)); simpl.
    all: destruct (make_request (net st) "GET" _)
      as [[[response|e] net1] calls1];
      [|by destruct e; intros [= <- <-]].
    all: destruct (py_get response (JStr "activityEventEntities") (JList []))
      as [new_activities|e]; [|by destruct e; intros [= <- <-]].
    all: destruct (py_iter new_activities) as [items|e];
      [|by destruct e; intros [= <- <-]].
    all: destruct (py_len new_activities) as [n|e]; simpl;
      [|destruct e; intros [= <- <-]; simpl; rewrite length_insert;
        (repeat split; try done); intros other Hother;
        by rewrite list_lookup_insert_ne].
    all: destruct (py_get response (JStr "continuationToken") JNull)
      as [next|e]; simpl;
      [|destruct e; intros [= <- <-]; simpl; rewrite length_insert;
        (repeat split; try done); intros other Hother;
        by rewrite list_lookup_insert_ne].
    all: destruct (truthy next); simpl;
      [|intros [= <- <-]; simpl; rewrite length_insert;
        (repeat split; try done);
        [intros other Hother; by rewrite list_lookup_insert_ne
        |by intros ref [= <-]]].
    all: match goal with
         | |- context [get_tenant_activities _ _ _ _ _ ?s] =>
             destruct (get_tenant_activities depth client date next
                         (Some (heap_list loc)) s) as [r2 st2] eqn:Hrec;
             apply IH in Hrec; simpl in Hrec;
             destruct Hrec as (Hdefault & Hlength & Hothers & Href)
         end.
    all: rewrite length_insert in Hlength.
    all: assert (forall other,
                   other <> loc -> heap st2 !! other = heap st !! other)
      by (intros other Hother; rewrite Hothers by done;
          by rewrite list_lookup_insert_ne).
    all: destruct r2 as [ref|e]; [|destruct e]; intros [= <- <-]; simpl;
      repeat split; try done; intros ref' [= <-]; by apply Href.
Qed.

(** X22: [get_tenant_activities] called without [data] works on a list of
    its own: the list it returns did not exist before the call, and neither
    the default list of [get_workspaces] nor any list that existed before,
    such as the one an earlier call returned, is changed by it. *)
Theorem get_tenant_activities_works_on_its_own_list
    depth client date token st r st' :
  get_tenant_activities depth client date token None st = (r, st') ->
  default_data st' = default_data st /\
  (forall loc, loc < length (heap st) -> heap st' !! loc = heap st !! loc) /\
  (forall ref,
     r = Ok ref ->
     ref = heap_list (length (heap st)) /\ length (heap st) < length (heap st')).
Proof.
  destruct depth as [|depth].
  - by intros [= <- <-].
  - rewrite get_tenant_activities_makes_its_list.
    intros (Hdefault & Hlength & Hothers & Href)%get_tenant_activities_own_list.
    simpl in Hdefault, Hlength, Hothers.
    split; [done|]. split.
    + intros loc Hloc. rewrite Hothers by lia. by rewrite lookup_app_l.
    + intros ref Hret. split; [by apply Href|].
      rewrite Hlength, length_app. simpl. lia.
Qed.

Lemma count_rows_log p (rt : runtime) c o k t :
  count_rows p (log strftime now rt c o k t)
  = count_rows p rt
    + (if p (entry_at strftime (now (ticks rt)) c o k t) then 1 else 0).
Proof.
  unfold count_rows, log, write_log. simpl.
  rewrite List.filter_app, length_app. simpl.
  destruct (p _); simpl; lia.
Qed.

Lemma count_rows_log_all p o (rt : runtime) calls :
  (forall e, p e = true -> operation e = o) ->
  Forall (fun c => call_operation c <> o) calls ->
  count_rows p (log_all strftime now rt calls) = count_rows p rt.
Proof.
  intros Hp Hcalls. revert rt.
  induction Hcalls as [|[[[c o'] k] t] calls Hcall _ IH]; intros rt; [done|].
  simpl. rewrite IH, count_rows_log.
  destruct (p _) eqn:Hentry; [|lia].
  apply Hp in Hentry. simpl in *. done.
Qed.

Lemma is_error_of_operation o e : is_error_of o e = true -> operation e = o.
Proof. by intros [?%String.eqb_eq _]%andb_prop. Qed.

Lemma is_received_operation e :
  is_received e = true -> operation e = "Get Tenant Activities".
Proof. by intros [?%String.eqb_eq _]%andb_prop. Qed.

Lemma py_get_raises v k d e : py_get v k d = Raise e -> e = AttributeError.
Proof. destruct v; simpl; try congruence. destruct k; congruence. Qed.

Lemma py_iter_raises v e : py_iter v = Raise e -> e = TypeError.
Proof. destruct v; simpl; congruence. Qed.

Lemma py_len_raises v e : py_len v = Raise e -> e = TypeError.
Proof. destruct v; simpl; congruence. Qed.

Lemma is_error_of_entry o' (d : datetime) c o k t :
  is_error_of o' (entry_at strftime d c o k t)
  = String.eqb o o' && String.eqb k "ERROR".
Proof. reflexivity. Qed.

Lemma is_received_entry (d : datetime) c o k t :
  is_received (entry_at strftime d c o k t)
  = String.eqb o "Get Tenant Activities"
    && String.eqb t "Successfully received response from API".
Proof. reflexivity. Qed.

Ltac count_the_rows Hcalls :=
  simpl;
  repeat first
    [rewrite count_rows_log
    |rewrite (count_rows_log_all _ "Get Tenant Activities")
       by first [exact Hcalls
                |exact (is_error_of_operation _)
                |exact is_received_operation]];
  rewrite ?is_error_of_entry, ?is_received_entry; simpl.

(** X23: a request error on a later page of [get_tenant_activities] is
    logged once by every level of the recursion that it passes on its way
    out: when the call fails with a request error, the ERROR entries it has
    added to the log are one more than the answers it had received. The
    service's own entries are filed under another operation. *)
Theorem get_tenant_activities_logs_an_error_per_page
    depth client date token data st msg st' :
  logs_elsewhere make_request "Get Tenant Activities" ->
  get_tenant_activities depth client date token data st
  = (Raise (RequestException msg), st') ->
  count_rows (is_error_of "Get Tenant Activities") (api_rt st')
  + count_rows is_received (api_rt st)
  = count_rows (is_error_of "Get Tenant Activities") (api_rt st)
    + count_rows is_received (api_rt st') + 1.
Proof.
  intros Hlogs. revert token data st st'.
  induction depth as [|depth IH]; intros token data st st'; [done|].
  open_get_tenant_activities. open_pull.
  destruct data as [[|loc]|]; destruct (negb (truthy token)); simpl.
  all: match goal with
       | |- context [make_request ?n "GET" ?url] =>
           pose proof (Hlogs n "GET" url) as Hcalls;
           destruct (make_request n "GET" url)
             as [[[response|e] net1] calls1]; simpl in Hcalls
       end.
    all: try (destruct e; try (intros [=]; fail); intros [= -> <-];
              count_the_rows Hcalls; lia).
    all: destruct (py_get response (JStr "activityEventEntities") (JList []))
      as [new_activities|e] eqn:Hget;
      [|apply py_get_raises in Hget; subst e; intros [=]].
    all: destruct (py_iter new_activities) as [items|e] eqn:Hiter;
      [|apply py_iter_raises in Hiter; subst e; intros [=]].
    all: destruct (py_len new_activities) as [n|e] eqn:Hlen; simpl;
      [|apply py_len_raises in Hlen; subst e; intros [=]].
    all: destruct (py_get response (JStr "continuationToken") JNull)
      as [next|e] eqn:Hnext; simpl;
      [|apply py_get_raises in Hnext; subst e; intros [=]].
    all: destruct (truthy next); simpl; [|intros [=]].
    all: match goal with
         | |- context [get_tenant_activities _ _ _ _ ?d ?s] =>
             destruct (get_tenant_activities depth client date next d s)
               as [[ref|e] st2] eqn:Hrec; [intros [=]|]
         end.
    all: destruct e; try (intros [=]; fail); intros [= -> <-].
    all: apply IH in Hrec; revert Hrec; count_the_rows Hcalls; lia.
Qed.

End PullFacts.

Lemma post_workspace_scan_one_scan_per_batch_witness :
  let ids := replicate 250 (JStr "W1") in
  let outcome :=
    post_workspace_scan test_strftime test_now test_str_exn scan_post_service
      test_response_json "acme" ids fresh_api_state in
  fst outcome = Ok [JStr "scan-0"; JStr "scan-1"; JStr "scan-2"] /\
  length [JStr "scan-0"; JStr "scan-1"; JStr "scan-2"]
  = (length ids + 99) / 100.
Proof.
  intros ids outcome. split; [reflexivity|].
  destruct (post_workspace_scan_one_scan_per_batch test_strftime test_now
              test_str_exn scan_post_service test_response_json "acme" ids
              fresh_api_state [JStr "scan-0"; JStr "scan-1"; JStr "scan-2"]
              (snd outcome)) as [Hlength _].
  - vm_compute. reflexivity.
  - exact Hlength.
Defined.

Lemma get_workspace_scans_keeps_the_key_names_witness :
  let outcome :=
    get_workspace_scans test_strftime test_now test_str_exn test_str_json
      scan_result_service "acme" [JStr "scan-0"] fresh_api_state in
  fst outcome = Ok [JStr "workspaces"; JStr "datasourceInstances"] /\
  Forall (fun v => exists key, v = JStr key)
         [JStr "workspaces"; JStr "datasourceInstances"].
Proof.
  intros outcome. split; [reflexivity|].
  apply (get_workspace_scans_keeps_the_key_names test_strftime test_now
           test_str_exn test_str_json scan_result_service "acme"
           [JStr "scan-0"] fresh_api_state _ (snd outcome)).
  - intros net method endpoint body net' calls [= <- _ _]. reflexivity.
  - vm_compute. reflexivity.
Defined.

Lemma get_workspace_scans_names_the_failed_scan_witness :
  let scan_ids := [JStr "scan-0"; JStr "scan-1"; JStr "scan-2"] in
  let outcome :=
    get_workspace_scans test_strftime test_now test_str_exn test_str_json
      failing_activity_service "acme" scan_ids fresh_api_state in
  fst outcome = Raise (RequestException "429 Too Many Requests") /\
  exists entry scan_id,
    scan_id ∈ scan_ids /\
    last_entry (snd outcome) = Some entry /\
    operation entry = "Get Workspace Scans" /\ kind entry = "ERROR" /\
    text entry
    = "Failed to get scan result for scan ID " +:+ test_str_json scan_id
        +:+ ": " +:+ test_str_exn (RequestException "429 Too Many Requests").
Proof.
  intros scan_ids outcome. split; [reflexivity|].
  apply (get_workspace_scans_names_the_failed_scan test_strftime test_now
           test_str_exn test_str_json failing_activity_service "acme"
           scan_ids fresh_api_state "429 Too Many Requests" (snd outcome)).
  vm_compute. reflexivity.
Defined.

Lemma get_tenant_activities_works_on_its_own_list_witness :
  let pull :=
    get_tenant_activities test_strftime test_now test_str_exn test_str_json
      test_iso_date test_float_nonzero two_page_activity_service
      1000 "acme" 0 JNull None in
  let first := pull fresh_api_state in
  let second := pull (snd first) in
  fst first = Ok (heap_list 0) /\
  deref (heap_list 0) (snd first)
  = [JObj [("Id", JInt 0)]; JObj [("Id", JInt 1)]] /\
  fst second = Ok (heap_list 1) /\
  deref (heap_list 1) (snd second) = [JObj [("Id", JInt 2)]] /\
  (forall loc,
     loc < length (heap (snd first)) ->
     heap (snd second) !! loc = heap (snd first) !! loc).
Proof.
  intros pull first second.
  split; [reflexivity|]. split; [reflexivity|]. split; [reflexivity|].
  split; [reflexivity|].
  destruct (get_tenant_activities_works_on_its_own_list test_strftime
              test_now test_str_exn test_str_json test_iso_date
              test_float_nonzero two_page_activity_service 1000 "acme" 0
              JNull (snd first) (Ok (heap_list 1)) (snd second))
    as (_ & Hkept & _).
  - vm_compute. reflexivity.
  - exact Hkept.
Defined.

Lemma get_tenant_activities_logs_an_error_per_page_witness :
  let outcome :=
    get_tenant_activities test_strftime test_now test_str_exn test_str_json
      test_iso_date test_float_nonzero failing_activity_service
      1000 "acme" 0 JNull None fresh_api_state in
  fst outcome = Raise (RequestException "429 Too Many Requests") /\
  count_rows is_received (api_rt (snd outcome)) = 2 /\
  count_rows (is_error_of "Get Tenant Activities") (api_rt (snd outcome)) = 3 /\
  count_rows (is_error_of "Get Tenant Activities") (api_rt (snd outcome))
  + count_rows is_received (api_rt fresh_api_state)
  = count_rows (is_error_of "Get Tenant Activities") (api_rt fresh_api_state)
    + count_rows is_received (api_rt (snd outcome)) + 1.
Proof.
  intros outcome.
  split; [reflexivity|]. split; [reflexivity|]. split; [reflexivity|].
  apply (get_tenant_activities_logs_an_error_per_page test_strftime test_now
           test_str_exn test_str_json test_iso_date test_float_nonzero
           failing_activity_service 1000 "acme" 0 JNull None fresh_api_state
           "429 Too Many Requests" (snd outcome)).
  - intros net method endpoint. unfold failing_activity_service.
    destruct (net <? 2)%nat; simpl; repeat constructor; discriminate.
  - vm_compute. reflexivity.
Defined.

(** ** The transform as a whole *)

Section TransformRunFacts.

Context {datetime Lake : Type}.
Variable strftime : datetime -> string -> string.
Variable now : nat -> datetime.
Variable str_exn : exn -> string.
Variable lake_read_json : Lake -> string -> string -> result json.
Variable lake_write :
  Lake -> DataFrame -> string -> string -> option exn * Lake.
Variable DataFrame_of_json : json -> result DataFrame.

Ltac open_transform :=
  unfold transform_powerbi_data, try_except, and_then, read_json_data, lift,
    logging, ret, raise.
Ltac open_write_tables :=
  unfold write_tables; cbn [for_]; unfold and_then, write_parquet_data,
    logging, raise, ret.

Ltac open_shaped_from := unfold shaped_from, bind.

#[local] Abbreviation write_tables :=
  (write_tables strftime now str_exn lake_write).
#[local] Abbreviation transform_powerbi_data :=
  (transform_powerbi_data strftime now str_exn lake_read_json lake_write
     DataFrame_of_json).
#[local] Abbreviation shaped_from :=
  (shaped_from lake_read_json DataFrame_of_json).
#[local] Abbreviation written := (written lake_write).
#[local] Abbreviation writes_succeed := (writes_succeed lake_write).

Implicit Types (st : @load_state Lake).

Lemma write_tables_succeed silver_path output_data st :
  writes_succeed silver_path output_data (lake st) ->
  exists st',
    write_tables silver_path output_data st = (Ok tt, st') /\
    lake st' = written silver_path output_data (lake st).
Proof.
  revert st. induction output_data as [|[name df] rest IH]; intros st.
  - intros _. by exists st.
  - intros [Hwrite Hrest]. open_write_tables. simpl in Hwrite, Hrest |- *.
    destruct (lake_write (lake st) df "silver" _) as [outcome files].
    simpl in Hwrite, Hrest. subst outcome. simpl.
    match goal with
    | |- context [for_ rest _ ?s] =>
        destruct (IH s Hrest) as (st' & Hrun & Hlake)
    end.
    exists st'. split; [exact Hrun|exact Hlake].
Qed.

Lemma write_tables_fail silver_path finished name df rest st e files :
  writes_succeed silver_path finished (lake st) ->
  lake_write (written silver_path finished (lake st)) df "silver"
    (silver_path +:+ "/" +:+ name) = (Some e, files) ->
  exists st',
    write_tables silver_path (finished ++ (name, df) :: rest) st
    = (Raise e, st') /\
    lake st' = files.
Proof.
  revert st. induction finished as [|[name' df'] finished IH]; intros st.
  - intros _ Hfail. simpl in Hfail. cbn [app]. open_write_tables. simpl.
    rewrite Hfail. simpl. eexists. split; reflexivity.
  - intros [Hwrite Hrest] Hfail. simpl in Hwrite, Hrest, Hfail.
    cbn [app]. open_write_tables. simpl.
    destruct (lake_write (lake st) df' "silver" _) as [outcome files'].
    simpl in Hwrite, Hrest, Hfail. subst outcome. simpl.
    match goal with
    | |- context [for_ _ _ ?s] =>
        destruct (IH s Hrest Hfail) as (st' & Hrun & Hlake)
    end.
    exists st'. split; [exact Hrun|exact Hlake].
Qed.

(** The run is the preparation of [output_data], which leaves the lake as it
    is, followed by the writes. *)
Lemma transform_powerbi_data_unfold client st :
  let today := strftime (now (ticks (rt st))) "%d%m%Y" in
  exists st1,
    lake st1 = lake st /\
    transform_powerbi_data client st
    = match shaped_from (lake st) client today with
      | Ok output_data =>
          match write_tables (today +:+ "/" +:+ client) output_data st1 with
          | (Ok _, st2) =>
              (Ok tt,
               {| rt := log strftime now (rt st2) client "powerbi" "INFO"
                          "Successfully transformed PowerBI data";
                  lake := lake st2 |})
          | (Raise e, st2) =>
              (Raise e,
               {| rt := log strftime now (rt st2) client "powerbi" "ERROR"
                          ("Failed to transform PowerBI data: "
                             +:+ str_exn e);
                  lake := lake st2 |})
          end
      | Raise e =>
          (Raise e,
           {| rt := log strftime now (rt st1) client "powerbi" "ERROR"
                      ("Failed to transform PowerBI data: " +:+ str_exn e);
              lake := lake st1 |})
      end.
Proof.
  intros today. open_transform. open_shaped_from. fold today. simpl.
  destruct (lake_read_json (lake st) "test-app" _) as [raw_workspaces|e];
    simpl;
    [|eexists {| rt := _; lake := lake st |}; split; reflexivity].
  destruct (DataFrame_of_json raw_workspaces) as [workspaces|e];
    simpl;
    [|eexists {| rt := _; lake := lake st |}; split; reflexivity].
  destruct (lake_read_json (lake st) "test-app" _) as [raw_activities|e];
    simpl;
    [|eexists {| rt := _; lake := lake st |}; split; reflexivity].
  destruct (DataFrame_of_json raw_activities) as [activities|e];
    simpl;
    [|eexists {| rt := _; lake := lake st |}; split; reflexivity].
  destruct (lake_read_json (lake st) "bronze" _) as [scan|e];
    simpl;
    [|eexists {| rt := _; lake := lake st |}; split; reflexivity].
  destruct (TransformPowerBI.flatten scan) as [c|e];
    simpl;
    [|eexists {| rt := _; lake := lake st |}; split; reflexivity].
  destruct (shape workspaces activities c) as [output_data|e];
    simpl;
    [|eexists {| rt := _; lake := lake st |}; split; reflexivity].
  match goal with
  | |- context [write_tables ?path ?tables ?s] =>
      exists s; split; [reflexivity|];
      destruct (write_tables path tables s) as [[[]|e] st2]; reflexivity
  end.
Qed.

(** X24: when a raw file cannot be read or made a table, or the flattening
    or the shaping raises, [transform_powerbi_data] has written nothing: it
    raises the same exception, the lake is as it was, and the last entry of
    the log is the ERROR entry with the text of the exception. *)
Theorem transform_powerbi_data_fails_before_it_writes client st e :
  shaped_from (lake st) client (strftime (now (ticks (rt st))) "%d%m%Y")
  = Raise e ->
  exists st',
    transform_powerbi_data client st = (Raise e, st') /\
    lake st' = lake st /\
    exists entry,
      last_logged st' = Some entry /\
      operation entry = "powerbi" /\ kind entry = "ERROR" /\
      text entry = "Failed to transform PowerBI data: " +:+ str_exn e.
Proof.
  intros Hshaped.
  destruct (transform_powerbi_data_unfold client st) as (st1 & Hlake & Hrun).
  rewrite Hshaped in Hrun. eexists. split; [exact Hrun|].
  split; [exact Hlake|].
  eexists. unfold last_logged. simpl. rewrite last_snoc. done.
Qed.

(** X25: when [output_data] can be made and every write succeeds,
    [transform_powerbi_data] returns, the lake is the old one with every
    table of [output_data] written to [silver] under [<day>/<client>/<name>],
    in the order of the dictionary, and the last entry of the log is the
    INFO entry of the success. *)
Theorem transform_powerbi_data_writes_every_table client st output_data :
  let today := strftime (now (ticks (rt st))) "%d%m%Y" in
  shaped_from (lake st) client today = Ok output_data ->
  writes_succeed (today +:+ "/" +:+ client) output_data (lake st) ->
  exists st',
    transform_powerbi_data client st = (Ok tt, st') /\
    lake st' = written (today +:+ "/" +:+ client) output_data (lake st) /\
    exists entry,
      last_logged st' = Some entry /\
      operation entry = "powerbi" /\ kind entry = "INFO" /\
      text entry = "Successfully transformed PowerBI data".
Proof.
  intros today Hshaped Hwrites.
  destruct (transform_powerbi_data_unfold client st) as (st1 & Hlake & Hrun).
  fold today in Hrun. rewrite Hshaped in Hrun. rewrite <- Hlake in Hwrites.
  destruct (write_tables_succeed _ _ _ Hwrites) as (st2 & Hloop & Hlake2).
  rewrite Hloop in Hrun. eexists. split; [exact Hrun|].
  split; [simpl; by rewrite Hlake2, Hlake|].
  eexists. unfold last_logged. simpl. rewrite last_snoc. done.
Qed.

(** X26: [transform_powerbi_data] does not take back what it has written:
    when the write of one table fails, it raises that exception and logs it,
    and the tables before it in [output_data] stay written in the lake. *)
Theorem transform_powerbi_data_keeps_the_tables_written
    client st finished name df rest e files :
  let today := strftime (now (ticks (rt st))) "%d%m%Y" in
  shaped_from (lake st) client today = Ok (finished ++ (name, df) :: rest) ->
  writes_succeed (today +:+ "/" +:+ client) finished (lake st) ->
  lake_write (written (today +:+ "/" +:+ client) finished (lake st)) df
    "silver" ((today +:+ "/" +:+ client) +:+ "/" +:+ name) = (Some e, files) ->
  exists st',
    transform_powerbi_data client st = (Raise e, st') /\
    lake st' = files /\
    exists entry,
      last_logged st' = Some entry /\
      operation entry = "powerbi" /\ kind entry = "ERROR" /\
      text entry = "Failed to transform PowerBI data: " +:+ str_exn e.
Proof.
  intros today Hshaped Hwrites Hfail.
  destruct (transform_powerbi_data_unfold client st) as (st1 & Hlake & Hrun).
  fold today in Hrun. rewrite Hshaped in Hrun.
  rewrite <- Hlake in Hwrites, Hfail.
  destruct (write_tables_fail _ _ _ _ rest _ _ _ Hwrites Hfail)
    as (st2 & Hloop & Hlake2).
  rewrite Hloop in Hrun. eexists. split; [exact Hrun|].
  split; [exact Hlake2|].
  eexists. unfold last_logged. simpl. rewrite last_snoc. done.
Qed.

End TransformRunFacts.

Lemma transform_powerbi_data_fails_before_it_writes_witness :
  let st := fresh_raw_state (JList [JObj [("reports", JList [])]]) in
  exists st',
    transform_powerbi_data test_strftime test_now test_str_exn raw_read
      raw_write test_DataFrame_of_json "acme" st
    = (Raise (KeyError (LName "id")), st') /\
    lake st' = lake st.
Proof.
  intros st.
  destruct (transform_powerbi_data_fails_before_it_writes test_strftime
              test_now test_str_exn raw_read raw_write test_DataFrame_of_json
              "acme" st (KeyError (LName "id")))
    as (st' & Hrun & Hlake & _).
  - vm_compute. reflexivity.
  - exists st'. split; [exact Hrun|exact Hlake].
Defined.

Lemma transform_powerbi_data_writes_every_table_witness :
  let st := fresh_raw_state (JList [two_collections_workspace]) in
  exists st',
    transform_powerbi_data test_strftime test_now test_str_exn raw_read
      raw_write test_DataFrame_of_json "acme" st
    = (Ok tt, st') /\
    table_names (lake st')
    = ["today/acme/users"; "today/acme/user_access"; "today/acme/workspaces";
       "today/acme/workspace_content"; "today/acme/activities";
       "today/acme/report"; "today/acme/dataset"].
Proof.
  intros st.
  destruct (transform_powerbi_data_writes_every_table test_strftime
              test_now test_str_exn raw_read raw_write test_DataFrame_of_json
              "acme" st example_output)
    as (st' & Hrun & Hlake & _).
  - vm_compute. reflexivity.
  - vm_compute. repeat split.
  - exists st'. split; [exact Hrun|]. rewrite Hlake. reflexivity.
Defined.

Lemma transform_powerbi_data_keeps_the_tables_written_witness :
  let st := fresh_raw_state (JList [two_collections_workspace]) in
  exists st',
    transform_powerbi_data test_strftime test_now test_str_exn raw_read
      raw_write_full test_DataFrame_of_json "acme" st
    = (Raise (RequestException "no space left"), st') /\
    table_names (lake st') = ["today/acme/users"; "today/acme/user_access"].
Proof.
  intros st.
  destruct (transform_powerbi_data_keeps_the_tables_written test_strftime
              test_now test_str_exn raw_read raw_write_full
              test_DataFrame_of_json "acme" st (take 2 example_output)
              "workspaces" (from_option snd no_frame (example_output !! 2))
              (drop 3 example_output) (RequestException "no space left")
              (written raw_write_full "today/acme" (take 2 example_output)
                 (lake st)))
    as (st' & Hrun & Hlake & _).
  - vm_compute. reflexivity.
  - vm_compute. repeat split.
  - vm_compute. reflexivity.
  - exists st'. split; [exact Hrun|]. rewrite Hlake. reflexivity.
Defined.

(** ** One interpreter, several clients *)

Section WorkspacesFacts.

Context {datetime Net Lake : Type}.
Variable strftime : datetime -> string -> string.
Variable now : nat -> datetime.
Variable str_exn : exn -> string.
Variable retrieve_secrets : string -> option exn.
Variable make_request :
  string -> Net -> string -> string -> result json * Net * list log_call.
Variable lake_write_json :
  Lake -> json -> string -> string -> option exn * Lake.

Ltac open_process_powerbi_workspaces :=
  unfold process_powerbi_workspaces, new_PowerBIRestAPI, and_then.
Ltac open_write_json_data :=
  unfold write_json_data, strftime_now, in_api, and_then, api_log, len_of,
    raise, ret.

#[local] Abbreviation process_powerbi_workspaces :=
  (process_powerbi_workspaces strftime now str_exn retrieve_secrets
     make_request lake_write_json).

Implicit Types (st : @pull_state Net Lake).

(** What one successful run does to the default list and to the lake. *)
Lemma process_powerbi_workspaces_file depth client st st' :
  process_powerbi_workspaces depth client st = (Ok tt, st') ->
  exists pages current_date,
    default_data (api st') = default_data (api st) ++ pages /\
    files st'
    = snd (lake_write_json (files st) (JList (default_data (api st')))
             "test-app" (client +:+ "_workspaces_" +:+ current_date)).
Proof.
  open_process_powerbi_workspaces.
  destruct (retrieve_secrets client) as [e|]; [by unfold in_api|].
  unfold ret. unfold in_api at 1.
  destruct (get_workspaces_default_vs_own strftime now str_exn
              (make_request client) depth client 500 0 (api st)
              {| api_rt := api_rt (api st); net := net (api st);
                 default_data := default_data (api st); heap := [[]] |} 0)
    as (pages & Hdefault & _ & Hres); [done|simpl; lia|].
  simpl in Hdefault, Hres.
  destruct (get_workspaces _ _ _ _ _ _ _ _ default_list (api st))
    as [[ref|e] a1]; simpl in Hdefault, Hres; [|done].
  destruct Hres as [[[= ->] _]|(e & [=] & _)].
  open_write_json_data. simpl.
  destruct (lake_write_json (files st) _ _ _) as [[e|] files'] eqn:Hwrite;
    [done|].
  intros [= <-]. simpl. exists pages, (strftime (now (ticks (api_rt a1))) "%d%m%Y").
  split; [exact Hdefault|]. by rewrite Hwrite.
Qed.

(** X27: [process_powerbi_workspaces] calls [get_workspaces] without
    [data], so in one interpreter every client works on the one default
    list: the file that a run writes for its client holds the rows that
    the run before it wrote for another client, followed by its own. *)
Theorem process_powerbi_workspaces_writes_the_rows_of_earlier_clients
    depth1 depth2 client1 client2 st0 st1 st2 :
  process_powerbi_workspaces depth1 client1 st0 = (Ok tt, st1) ->
  process_powerbi_workspaces depth2 client2 st1 = (Ok tt, st2) ->
  exists rows pages date1 date2,
    default_data (api st1) = rows /\
    default_data (api st2) = rows ++ pages /\
    files st1
    = snd (lake_write_json (files st0) (JList rows) "test-app"
             (client1 +:+ "_workspaces_" +:+ date1)) /\
    files st2
    = snd (lake_write_json (files st1) (JList (rows ++ pages)) "test-app"
             (client2 +:+ "_workspaces_" +:+ date2)).
Proof.
  intros (pages1 & date1 & Hrows1 & Hfile1)%process_powerbi_workspaces_file.
  intros (pages2 & date2 & Hrows2 & Hfile2)%process_powerbi_workspaces_file.
  exists (default_data (api st1)), pages2, date1, date2.
  split; [done|]. split; [exact Hrows2|].
  split; [exact Hfile1|]. by rewrite <- Hrows2.
Qed.

End WorkspacesFacts.

Lemma process_powerbi_workspaces_writes_the_rows_of_earlier_clients_witness :
  let process :=
    process_powerbi_workspaces test_strftime test_now test_str_exn
      all_secrets client_workspace_service json_write 1000 in
  let st1 := snd (process "acme" fresh_pull_state) in
  let st2 := snd (process "globex" st1) in
  process "acme" fresh_pull_state = (Ok tt, st1) /\
  process "globex" st1 = (Ok tt, st2) /\
  files st2
  = [("test-app", "globex_workspaces_today",
      JList [JObj [("id", JStr "W-acme")]; JObj [("id", JStr "W-globex")]]);
     ("test-app", "acme_workspaces_today",
      JList [JObj [("id", JStr "W-acme")]])] /\
  exists rows pages date1 date2,
    default_data (api st1) = rows /\
    default_data (api st2) = rows ++ pages /\
    files st1
    = snd (json_write (files fresh_pull_state) (JList rows) "test-app"
             ("acme" +:+ "_workspaces_" +:+ date1)) /\
    files st2
    = snd (json_write (files st1) (JList (rows ++ pages)) "test-app"
             ("globex" +:+ "_workspaces_" +:+ date2)).
Proof.
  intros process st1 st2.
  assert (Hfirst : process "acme" fresh_pull_state = (Ok tt, st1))
    by (vm_compute; reflexivity).
  assert (Hsecond : process "globex" st1 = (Ok tt, st2))
    by (vm_compute; reflexivity).
  split; [exact Hfirst|]. split; [exact Hsecond|]. split; [reflexivity|].
  exact (process_powerbi_workspaces_writes_the_rows_of_earlier_clients
           test_strftime test_now test_str_exn all_secrets
           client_workspace_service json_write 1000 1000 "acme" "globex"
           fresh_pull_state st1 st2 Hfirst Hsecond).
Defined.
